(** * ZombieSurSim: entity physics, combat, wave scheduling and persistence

    A shallow embedding of [tgame4.cpp] (with the parts of [Weather.cpp] that
    the main loop calls) and the properties of its specification.

    Conventions of the embedding
    - C++ [float] and [double] values are IEEE-754 binary32 and binary64
      numbers, represented by [spec_float] and computed with the operations of
      [SpecFloat] at precision 24/emax 128 and precision 53/emax 1024.
    - C++ [int] is a 32-bit two's complement integer carried by [Z]; every
      arithmetic result is normalised with [Int.wrap].
    - The platform is little-endian LP64: [sizeof(int) = sizeof(float) = 4],
      [sizeof(double) = sizeof(size_t) = 8], [sizeof(bool) = 1] and
      [sizeof(Vector2D) = 8].
    - Rendering (textures, animation frames, [lastDirection], button colours)
      is left out: no simulation value is computed from it. *)

From Stdlib Require Import ZArith Lia List Bool String.
From Stdlib Require Strings.Byte.
From Stdlib Require Import Floats.SpecFloat.
From stdpp Require Import gmap strings.

Local Open Scope Z_scope.

(* ===================================================================== *)
(** * Machine numbers *)
(* ===================================================================== *)

(** 32-bit [int]. *)
Module Int.
Definition MIN : Z := - 2 ^ 31.
Definition MAX : Z := 2 ^ 31 - 1.
Definition wrap (z : Z) : Z := (z + 2 ^ 31) mod 2 ^ 32 - 2 ^ 31.
Definition in_range (z : Z) : Prop := MIN <= z <= MAX.
Definition add (a b : Z) : Z := wrap (a + b).
Definition sub (a b : Z) : Z := wrap (a - b).
Definition mul (a b : Z) : Z := wrap (a * b).
  (** [a / b] of C++ truncates towards zero. *)
Definition div (a b : Z) : Z := wrap (Z.quot a b).
End Int.

(** Bit-level layout of an IEEE-754 binary interchange format with an
    [mw]-bit trailing significand field and an [ew]-bit exponent field. *)
Module IEEE754.
Section Format.
Variables mw ew : Z.

Definition prec : Z := mw + 1.
Definition emax : Z := 2 ^ (ew - 1).
Definition emin : Z := 3 - emax - prec.

Definition pack (s : bool) (biased frac : Z) : Z :=
      ((if s then 2 ^ ew else 0) + biased) * 2 ^ mw + frac.

Definition to_bits (x : spec_float) : Z :=
      match x with
      | S754_zero s => pack s 0 0
      | S754_infinity s => pack s (2 ^ ew - 1) 0
      | S754_nan => pack false (2 ^ ew - 1) (2 ^ (mw - 1))
      | S754_finite s m e =>
          if 2 ^ mw <=? Zpos m
          then pack s (e - emin + 1) (Zpos m - 2 ^ mw)
          else pack s 0 (Zpos m)
      end.

Definition of_bits (b : Z) : spec_float :=
      let frac := b mod 2 ^ mw in
      let biased := (b / 2 ^ mw) mod 2 ^ ew in
      let s := 0 <? (b / 2 ^ mw) / 2 ^ ew in
      if biased =? 0 then
        match frac with
        | Zpos p => S754_finite s p emin
        | _ => S754_zero s
        end
      else if biased =? 2 ^ ew - 1 then
        if frac =? 0 then S754_infinity s else S754_nan
      else
        match frac + 2 ^ mw with
        | Zpos p => S754_finite s p (biased + emin - 1)
        | _ => S754_nan
        end.
End Format.
End IEEE754.

(** C++ [float]. *)
Module F32.
Definition prec : Z := 24.
Definition emax : Z := 128.
Definition valid (x : spec_float) : bool := valid_binary prec emax x.
Definition add := SFadd prec emax.
Definition sub := SFsub prec emax.
Definition mul := SFmul prec emax.
Definition div := SFdiv prec emax.
Definition abs := SFabs.
Definition opp := SFopp.
Definition eqb := SFeqb.
Definition ltb := SFltb.
Definition leb := SFleb.
Definition gtb (x y : spec_float) := SFltb y x.
Definition geb (x y : spec_float) := SFleb y x.
Definition zero : spec_float := S754_zero false.
  (** Conversion of an integer, rounding to nearest even. *)
Definition of_int (z : Z) : spec_float := binary_normalize prec emax z 0 false.
  (** The value of the decimal literal [n/d] (both exactly representable). *)
Definition lit (n d : Z) : spec_float := div (of_int n) (of_int d).
Definition to_bits := IEEE754.to_bits 23 8.
Definition of_bits := IEEE754.of_bits 23 8.
End F32.

(** C++ [double]. *)
Module F64.
Definition prec : Z := 53.
Definition emax : Z := 1024.
Definition valid (x : spec_float) : bool := valid_binary prec emax x.
Definition add := SFadd prec emax.
Definition sub := SFsub prec emax.
Definition mul := SFmul prec emax.
Definition div := SFdiv prec emax.
Definition eqb := SFeqb.
Definition ltb := SFltb.
Definition leb := SFleb.
Definition gtb (x y : spec_float) := SFltb y x.
Definition geb (x y : spec_float) := SFleb y x.
Definition zero : spec_float := S754_zero false.
Definition of_int (z : Z) : spec_float := binary_normalize prec emax z 0 false.
Definition lit (n d : Z) : spec_float := div (of_int n) (of_int d).
Definition to_bits := IEEE754.to_bits 52 11.
Definition of_bits := IEEE754.of_bits 52 11.
End F64.

Abbreviation float := spec_float.
Abbreviation double := spec_float.

(** Implicit [float -> double] promotion (exact). *)
Definition double_of_float (x : float) : double :=
  match x with
  | S754_finite s m e => binary_normalize F64.prec F64.emax (cond_Zopp s (Zpos m)) e s
  | _ => x
  end.

(** [double -> float] conversion on assignment (round to nearest even). *)
Definition float_of_double (x : double) : float :=
  match x with
  | S754_finite s m e => binary_normalize F32.prec F32.emax (cond_Zopp s (Zpos m)) e s
  | _ => x
  end.

(** [(int)x] and [static_cast<int>(x)]: truncation towards zero.  The
    conversion is undefined in C++ when the truncated value is not an [int]
    (also for infinities and NaN); the embedding returns [Int.MIN] there, the
    result of the x86-64 conversion instruction. *)
Definition int_of_float (x : spec_float) : Z :=
  match x with
  | S754_zero _ => 0
  | S754_finite s m e =>
      let mag := match e with
                 | Z0 => Zpos m
                 | Zpos p => Zpos m * 2 ^ Zpos p
                 | Zneg p => Zpos m / 2 ^ Zpos p
                 end in
      let v := cond_Zopp s mag in
      if (Int.MIN <=? v) && (v <=? Int.MAX) then v else Int.MIN
  | _ => Int.MIN
  end.

(** [!x] on a floating-point operand: true exactly when [x == 0]. *)
Definition float_is_zero (x : spec_float) : bool := SFeqb x (S754_zero false).

(* ===================================================================== *)
(** * Object representations *)
(* ===================================================================== *)

Abbreviation byte := Byte.byte.

Definition byte_of_Z (z : Z) : byte :=
  match Byte.of_N (Z.to_N (z mod 256)) with
  | Some b => b
  | None => Byte.x00
  end.

Definition Z_of_byte (b : byte) : Z := Z.of_N (Byte.to_N b).

(** The [n] low-order bytes of [z], least significant first. *)
Fixpoint le_bytes (n : nat) (z : Z) : list byte :=
  match n with
  | O => []
  | S k => byte_of_Z z :: le_bytes k (z / 256)
  end.

Fixpoint le_value (bs : list byte) : Z :=
  match bs with
  | [] => 0
  | b :: rest => Z_of_byte b + 256 * le_value rest
  end.

Definition int_bytes (z : Z) : list byte := le_bytes 4 z.
Definition int_of_bytes (bs : list byte) : Z := Int.wrap (le_value bs).
Definition size_t_bytes (z : Z) : list byte := le_bytes 8 z.
Definition size_t_of_bytes (bs : list byte) : Z := le_value bs.
Definition float_bytes (x : float) : list byte := le_bytes 4 (F32.to_bits x).
Definition float_of_bytes (bs : list byte) : float := F32.of_bits (le_value bs).
Definition double_bytes (x : double) : list byte := le_bytes 8 (F64.to_bits x).
Definition double_of_bytes (bs : list byte) : double := F64.of_bits (le_value bs).
Definition bool_bytes (b : bool) : list byte := le_bytes 1 (if b then 1 else 0).
Definition bool_of_bytes (bs : list byte) : bool := negb (le_value bs =? 0).

(* ===================================================================== *)
(** * Files and binary streams *)
(* ===================================================================== *)

(** The part of the file system the program touches: the content of each
    existing file, and the paths that cannot be opened at all (no permission,
    missing directory). *)
Record FileSystem := {
  files : gmap string (list byte);
  denied : gset string
}.

(** [std::ifstream(filename, std::ios::binary)]: [is_open()] holds exactly when
    the result is [Some]. *)
Definition open_in (fs : FileSystem) (filename : string) : option (list byte) :=
  if decide (filename ∈ denied fs) then None else files fs !! filename.

(** [std::ofstream(filename, std::ios::binary)]: creates or truncates. *)
Definition open_out (fs : FileSystem) (filename : string) : bool :=
  bool_decide (filename ∉ denied fs).

Definition close_out (fs : FileSystem) (filename : string) (content : list byte)
  : FileSystem :=
  {| files := <[filename := content]> (files fs); denied := denied fs |}.

(** An output stream is the sequence of bytes written so far. *)
Definition ofstream := list byte.
Definition write (bs : list byte) (out : ofstream) : ofstream := out ++ bs.

(** An input stream: the bytes not yet consumed and the negation of
    [failbit]. *)
Record ifstream := { rest : list byte; ok : bool }.

(** [istream::read(buf, n)] where [old] is the content of [buf] before the
    call.  A stream that has failed extracts nothing.  At end of file the
    available characters are stored and the stream fails. *)
Definition istream_read (n : nat) (old : list byte) (s : ifstream)
  : list byte * ifstream :=
  if ok s then
    if (n <=? length (rest s))%nat
    then (firstn n (rest s), {| rest := skipn n (rest s); ok := true |})
    else (rest s ++ skipn (length (rest s)) old, {| rest := []; ok := false |})
  else (old, s).

(** [read(reinterpret_cast<char*>(&v), sizeof v)] for an object [v] whose
    representation is given by [enc]/[dec]. *)
Definition read_obj {A} (enc : A -> list byte) (dec : list byte -> A)
    (old : A) (s : ifstream) : A * ifstream :=
  if ok s
  then let '(bs, s') := istream_read (length (enc old)) (enc old) s in (dec bs, s')
  else (old, s).

(* ===================================================================== *)
(** * Persisted snapshot *)
(* ===================================================================== *)

Record Vector2D := { x : float; y : float }.

Definition Vector2D_bytes (v : Vector2D) : list byte :=
  float_bytes (x v) ++ float_bytes (y v).
Definition Vector2D_of_bytes (bs : list byte) : Vector2D :=
  {| x := float_of_bytes (firstn 4 bs); y := float_of_bytes (skipn 4 bs) |}.

(** [Zombie::Type], an unscoped enumeration: an object of the type holds an
    [int], 0 for [ATTACK] and 1 for [TANK], and the two casts keep the integer
    as it is, also when it names no enumerator (a tag read from a file that
    the game did not write). *)
Definition ZombieType := Z.
Definition ATTACK : ZombieType := 0.
Definition TANK : ZombieType := 1.

(** [static_cast<int>(t)] and [static_cast<Zombie::Type>(type)]. *)
Definition int_of_Type (t : ZombieType) : Z := t.
Definition Type_of_int (z : Z) : ZombieType := z.

(** [a == b] on tags. *)
Definition Type_eqb (a b : ZombieType) : bool := a =? b.

Record GameState := {
  playerPos : Vector2D;
  playerVel : Vector2D;
  playerHealth : Z;
  score : Z;
  startTime : double;
  isValid : bool;
  zombies : list (float * float * ZombieType);
  wave : Z;
  zombiesToSpawn : Z;
  waveZombiesRemaining : Z;
  weatherType : Z
}.

(** What a call of [loadGameState] meets and does not determine.  The
    indeterminate values: what the storage of the objects that it leaves
    uninitialised happens to contain ([u_x i], [u_y i] and [u_type i] for the
    locals [x], [y] and [type] of loop iteration [i]).  And [u_available]:
    the largest number of hostile records for which the allocation made by
    [resize] succeeds. *)
Record Uninit := {
  u_playerHealth : Z;
  u_score : Z;
  u_startTime : double;
  u_zombieCount : Z;
  u_x : nat -> float;
  u_y : nat -> float;
  u_type : nat -> Z;
  u_available : Z
}.

(** The exceptions of [std::vector::resize]. *)
Inductive exception := length_error | bad_alloc.

(** How a call ends: it returns a value, or an exception leaves it. *)
Inductive Outcome (A : Type) : Type :=
  | Returned (a : A)
  | Thrown (e : exception).

Arguments Returned {A} a.
Arguments Thrown {A} e.

Definition bind {A B : Type} (o : Outcome A) (f : A -> Outcome B) : Outcome B :=
  match o with
  | Returned a => f a
  | Thrown e => Thrown e
  end.

(** The default constructor [GameState()]: three members have no
    initialiser. *)
Definition GameState_default (u : Uninit) : GameState :=
  {| playerPos := {| x := F32.zero; y := F32.zero |};
     playerVel := {| x := F32.zero; y := F32.zero |};
     playerHealth := u_playerHealth u;
     score := u_score u;
     startTime := u_startTime u;
     isValid := false;
     zombies := [];
     wave := 1;
     zombiesToSpawn := 15;
     waveZombiesRemaining := 0;
     weatherType := 0 |}.

Definition write_zombie (out : ofstream) (zombie : float * float * ZombieType)
  : ofstream :=
  let '(zx, zy, t) := zombie in
  let type := int_of_Type t in
  let out := write (float_bytes zx) out in
  let out := write (float_bytes zy) out in
  write (int_bytes type) out.

Definition saveGameState (state : GameState) (filename : string) (fs : FileSystem)
  : FileSystem :=
  if open_out fs filename then
    let out : ofstream := [] in
    let out := write (Vector2D_bytes (playerPos state)) out in
    let out := write (Vector2D_bytes (playerVel state)) out in
    let out := write (int_bytes (playerHealth state)) out in
    let out := write (int_bytes (score state)) out in
    let out := write (double_bytes (startTime state)) out in
    let out := write (bool_bytes (isValid state)) out in
    let zombieCount := Z.of_nat (length (zombies state)) in
    let out := write (size_t_bytes zombieCount) out in
    let out := fold_left write_zombie (zombies state) out in
    let out := write (int_bytes (wave state)) out in
    let out := write (int_bytes (zombiesToSpawn state)) out in
    let out := write (int_bytes (waveZombiesRemaining state)) out in
    let out := write (int_bytes (weatherType state)) out in
    close_out fs filename out
  else fs.

(** [max_size()] of [std::vector<std::tuple<float, float, Zombie::Type>>]:
    [PTRDIFF_MAX / sizeof(value_type)], with elements of 12 bytes. *)
Definition MAX_SIZE : Z := (2 ^ 63 - 1) / 12.

(** [state.zombies.resize(zombieCount)] on the empty vector: nothing for 0,
    [std::length_error] beyond [max_size()], [std::bad_alloc] when the
    allocation fails.  The elements it makes are all assigned by the loop
    that follows. *)
Definition resize (u : Uninit) (zombieCount : Z) : Outcome unit :=
  if zombieCount <=? 0 then Returned tt
  else if MAX_SIZE <? zombieCount then Thrown length_error
  else if u_available u <? zombieCount then Thrown bad_alloc
  else Returned tt.

(** The loop [for (i = 0; i < zombieCount; ++i)] over the resized vector,
    from iteration [i] on, [count] iterations to go. *)
Fixpoint read_zombies (count : nat) (i : nat) (u : Uninit) (s : ifstream)
  : list (float * float * ZombieType) * ifstream :=
  match count with
  | O => ([], s)
  | S k =>
      let '(zx, s) := read_obj float_bytes float_of_bytes (u_x u i) s in
      let '(zy, s) := read_obj float_bytes float_of_bytes (u_y u i) s in
      let '(type, s) := read_obj int_bytes int_of_bytes (u_type u i) s in
      let '(others, s) := read_zombies k (S i) u s in
      ((zx, zy, Type_of_int type) :: others, s)
  end.

(** The reads of [loadGameState] up to and including the one of the local
    [zombieCount]: the snapshot so far, the count and the stream. *)
Definition readHeader (u : Uninit) (state : GameState) (s : ifstream)
  : GameState * Z * ifstream :=
  let '(pos, s) := read_obj Vector2D_bytes Vector2D_of_bytes (playerPos state) s in
  let '(vel, s) := read_obj Vector2D_bytes Vector2D_of_bytes (playerVel state) s in
  let '(health, s) := read_obj int_bytes int_of_bytes (playerHealth state) s in
  let '(sc, s) := read_obj int_bytes int_of_bytes (score state) s in
  let '(start, s) := read_obj double_bytes double_of_bytes (startTime state) s in
  let '(valid, s) := read_obj bool_bytes bool_of_bytes (isValid state) s in
  let '(zombieCount, s) := read_obj size_t_bytes size_t_of_bytes (u_zombieCount u) s in
  ({| playerPos := pos; playerVel := vel; playerHealth := health; score := sc;
      startTime := start; isValid := valid; zombies := zombies state;
      wave := wave state; zombiesToSpawn := zombiesToSpawn state;
      waveZombiesRemaining := waveZombiesRemaining state;
      weatherType := weatherType state |}, zombieCount, s).

(** The hostile loop and the reads after it, then [state.isValid = true]. *)
Definition readBody (u : Uninit) (state : GameState) (zombieCount : Z) (s : ifstream)
  : GameState :=
  let '(zs, s) := read_zombies (Z.to_nat zombieCount) 0 u s in
  let '(wv, s) := read_obj int_bytes int_of_bytes (wave state) s in
  let '(toSpawn, s) := read_obj int_bytes int_of_bytes (zombiesToSpawn state) s in
  let '(remaining, s) := read_obj int_bytes int_of_bytes (waveZombiesRemaining state) s in
  let '(weather, s) := read_obj int_bytes int_of_bytes (weatherType state) s in
  {| playerPos := playerPos state; playerVel := playerVel state;
     playerHealth := playerHealth state; score := score state;
     startTime := startTime state; isValid := true; zombies := zs; wave := wv;
     zombiesToSpawn := toSpawn; waveZombiesRemaining := remaining;
     weatherType := weather |}.

(** [loadGameState].  Only the opening of the file is tested; no read is.
    Nothing in the program catches what [resize] throws. *)
Definition loadGameState (u : Uninit) (filename : string) (fs : FileSystem)
  : Outcome GameState :=
  let state := GameState_default u in
  match open_in fs filename with
  | Some content =>
      let '(state, zombieCount, s) := readHeader u state {| rest := content; ok := true |} in
      bind (resize u zombieCount) (fun _ => Returned (readBody u state zombieCount s))
  | None => Returned state
  end.

(** The value of the local [zombieCount] when [resize] is called. *)
Definition zombieCountRead (u : Uninit) (content : list byte) : Z :=
  snd (fst (readHeader u (GameState_default u) {| rest := content; ok := true |})).

(** [saveHighScore] and [loadHighScore]. *)
Definition saveHighScore (sc : Z) (filename : string) (fs : FileSystem) : FileSystem :=
  if open_out fs filename
  then close_out fs filename (write (int_bytes sc) [])
  else fs.

Definition loadHighScore (filename : string) (fs : FileSystem) : Z :=
  let highScore := 0 in
  match open_in fs filename with
  | Some content =>
      fst (read_obj int_bytes int_of_bytes highScore {| rest := content; ok := true |})
  | None => highScore
  end.

(** The record that [saveGameState] produces, field after field. *)
Definition zombie_bytes (zombie : float * float * ZombieType) : list byte :=
  let '(zx, zy, t) := zombie in
  float_bytes zx ++ float_bytes zy ++ int_bytes (int_of_Type t).

Definition GameState_bytes (state : GameState) : list byte :=
  Vector2D_bytes (playerPos state) ++ Vector2D_bytes (playerVel state) ++
  int_bytes (playerHealth state) ++ int_bytes (score state) ++
  double_bytes (startTime state) ++ bool_bytes (isValid state) ++
  size_t_bytes (Z.of_nat (length (zombies state))) ++
  flat_map zombie_bytes (zombies state) ++
  int_bytes (wave state) ++ int_bytes (zombiesToSpawn state) ++
  int_bytes (waveZombiesRemaining state) ++ int_bytes (weatherType state).

(** A snapshot whose members are values of their C++ types. *)
Definition wf_Vector2D (v : Vector2D) : Prop :=
  F32.valid (x v) = true /\ F32.valid (y v) = true.

Definition wf_zombie (zombie : float * float * ZombieType) : Prop :=
  F32.valid (fst (fst zombie)) = true /\ F32.valid (snd (fst zombie)) = true /\
  Int.in_range (int_of_Type (snd zombie)).

Record wf_GameState (state : GameState) : Prop := {
  wf_playerPos : wf_Vector2D (playerPos state);
  wf_playerVel : wf_Vector2D (playerVel state);
  wf_playerHealth : Int.in_range (playerHealth state);
  wf_score : Int.in_range (score state);
  wf_startTime : F64.valid (startTime state) = true;
  wf_zombies : Forall wf_zombie (zombies state);
  wf_zombieCount : Z.of_nat (length (zombies state)) <= MAX_SIZE;
  wf_wave : Int.in_range (wave state);
  wf_zombiesToSpawn : Int.in_range (zombiesToSpawn state);
  wf_waveZombiesRemaining : Int.in_range (waveZombiesRemaining state);
  wf_weatherType : Int.in_range (weatherType state)
}.

Definition set_isValid (b : bool) (state : GameState) : GameState :=
  {| playerPos := playerPos state; playerVel := playerVel state;
     playerHealth := playerHealth state; score := score state;
     startTime := startTime state; isValid := b; zombies := zombies state;
     wave := wave state; zombiesToSpawn := zombiesToSpawn state;
     waveZombiesRemaining := waveZombiesRemaining state;
     weatherType := weatherType state |}.

(** What reading back the representation of a value yields. *)
Definition recode_zombie (zombie : float * float * ZombieType)
  : float * float * ZombieType :=
  let '(zx, zy, t) := zombie in
  (float_of_bytes (float_bytes zx), float_of_bytes (float_bytes zy),
   Type_of_int (int_of_bytes (int_bytes (int_of_Type t)))).

Definition recode (state : GameState) : GameState :=
  {| playerPos := Vector2D_of_bytes (Vector2D_bytes (playerPos state));
     playerVel := Vector2D_of_bytes (Vector2D_bytes (playerVel state));
     playerHealth := int_of_bytes (int_bytes (playerHealth state));
     score := int_of_bytes (int_bytes (score state));
     startTime := double_of_bytes (double_bytes (startTime state));
     isValid := true;
     zombies := map recode_zombie (zombies state);
     wave := int_of_bytes (int_bytes (wave state));
     zombiesToSpawn := int_of_bytes (int_bytes (zombiesToSpawn state));
     waveZombiesRemaining := int_of_bytes (int_bytes (waveZombiesRemaining state));
     weatherType := int_of_bytes (int_bytes (weatherType state)) |}.

(* ===================================================================== *)
(** * Constants, terrain and rectangles *)
(* ===================================================================== *)

Definition SCREEN_WIDTH : Z := 800.
Definition SCREEN_HEIGHT : Z := 600.
Definition TILE_SIZE : Z := 32.

Definition GRAVITY : float := F32.lit 5 10.
Definition JUMP_FORCE : float := F32.of_int (-13).
Definition PLAYER_ACCEL : float := F32.lit 8 10.
Definition FRICTION : float := F32.lit 7 10.
Definition MAX_SPEED : float := F32.of_int 5.

(** [SDL_GetTicks() / 1000.0] for a tick count [ticks] in milliseconds. *)
Definition seconds (ticks : Z) : double := F64.div (F64.of_int ticks) (F64.of_int 1000).

Module SDL_Rect.
Record t := { x : Z; y : Z; w : Z; h : Z }.
End SDL_Rect.

(** [SDL_HasIntersection] of the SDL library: two non-empty rectangles
    that overlap on both axes. *)
Definition SDL_HasIntersection (A B : SDL_Rect.t) : bool :=
  let nonempty (r : SDL_Rect.t) := (0 <? SDL_Rect.w r) && (0 <? SDL_Rect.h r) in
  let overlap (amin alen bmin blen : Z) :=
    Z.max amin bmin <? Z.min (Int.add amin alen) (Int.add bmin blen) in
  nonempty A && nonempty B &&
  overlap (SDL_Rect.x A) (SDL_Rect.w A) (SDL_Rect.x B) (SDL_Rect.w B) &&
  overlap (SDL_Rect.y A) (SDL_Rect.h A) (SDL_Rect.y B) (SDL_Rect.h B).

Module Platform.
  (** Position and dimensions in tile units. *)
Record t := { x : Z; y : Z; width : Z; height : Z }.
End Platform.

Definition platformRect (platform : Platform.t) : SDL_Rect.t :=
  {| SDL_Rect.x := Int.mul (Platform.x platform) TILE_SIZE;
     SDL_Rect.y := Int.mul (Platform.y platform) TILE_SIZE;
     SDL_Rect.w := Int.mul (Platform.width platform) TILE_SIZE;
     SDL_Rect.h := Int.mul (Platform.height platform) TILE_SIZE |}.

Module Terrain.
Definition t := list Platform.t.

Definition getSolid (platforms : t) (px py : Z) : bool :=
    existsb (fun platform =>
      let r := platformRect platform in
      (SDL_Rect.x r <=? px) && (px <? Int.add (SDL_Rect.x r) (SDL_Rect.w r)) &&
      (SDL_Rect.y r <=? py) && (py <? Int.add (SDL_Rect.y r) (SDL_Rect.h r)))
      platforms.
End Terrain.

(* ===================================================================== *)
(** * Simulated bodies *)
(* ===================================================================== *)

Definition Vector2D_add (v u : Vector2D) : Vector2D :=
  {| x := F32.add (x v) (x u); y := F32.add (y v) (y u) |}.
Definition set_x (a : float) (v : Vector2D) : Vector2D := {| x := a; y := y v |}.
Definition set_y (a : float) (v : Vector2D) : Vector2D := {| x := x v; y := a |}.

Record PhysicsEntity := {
  pos : Vector2D;
  vel : Vector2D;
  col : Vector2D;
  w : Z;
  h : Z;
  onGround : bool;
  gravity : bool;
  friction : bool;
  health : Z
}.

Definition with_pos (p : Vector2D) (e : PhysicsEntity) : PhysicsEntity :=
  {| pos := p; vel := vel e; col := col e; w := w e; h := h e;
     onGround := onGround e; gravity := gravity e; friction := friction e;
     health := health e |}.
Definition with_vel (v : Vector2D) (e : PhysicsEntity) : PhysicsEntity :=
  {| pos := pos e; vel := v; col := col e; w := w e; h := h e;
     onGround := onGround e; gravity := gravity e; friction := friction e;
     health := health e |}.
Definition with_col (c : Vector2D) (e : PhysicsEntity) : PhysicsEntity :=
  {| pos := pos e; vel := vel e; col := c; w := w e; h := h e;
     onGround := onGround e; gravity := gravity e; friction := friction e;
     health := health e |}.
Definition with_onGround (b : bool) (e : PhysicsEntity) : PhysicsEntity :=
  {| pos := pos e; vel := vel e; col := col e; w := w e; h := h e;
     onGround := b; gravity := gravity e; friction := friction e;
     health := health e |}.
Definition with_friction (b : bool) (e : PhysicsEntity) : PhysicsEntity :=
  {| pos := pos e; vel := vel e; col := col e; w := w e; h := h e;
     onGround := onGround e; gravity := gravity e; friction := b;
     health := health e |}.
Definition with_health (n : Z) (e : PhysicsEntity) : PhysicsEntity :=
  {| pos := pos e; vel := vel e; col := col e; w := w e; h := h e;
     onGround := onGround e; gravity := gravity e; friction := friction e;
     health := n |}.

(** The constructor [PhysicsEntity(x, y, w_, h_, ...)]. *)
Definition PhysicsEntity_new (px py : float) (w_ h_ : Z) : PhysicsEntity :=
  {| pos := {| x := px; y := py |};
     vel := {| x := F32.zero; y := F32.zero |};
     col := {| x := F32.of_int w_; y := F32.of_int h_ |};
     w := w_; h := h_;
     onGround := false; gravity := true; friction := true; health := 100 |}.

Definition accelerate (ax ay : float) (e : PhysicsEntity) : PhysicsEntity :=
  let v := {| x := F32.add (x (vel e)) ax; y := F32.add (y (vel e)) ay |} in
  let v := if F32.gtb (x v) MAX_SPEED then set_x MAX_SPEED v else v in
  let v := if F32.ltb (x v) (F32.opp MAX_SPEED) then set_x (F32.opp MAX_SPEED) v else v in
  with_vel v e.

Definition setCol (cx cy : float) (e : PhysicsEntity) : PhysicsEntity :=
  with_col {| x := cx; y := cy |} e.

Definition grounded (terrain : Terrain.t) (e : PhysicsEntity) : bool :=
  Terrain.getSolid terrain
    (int_of_float (F32.sub (F32.add (x (pos e)) (x (col e))) (F32.of_int 1)))
    (int_of_float (F32.add (y (pos e)) (y (col e)))) ||
  Terrain.getSolid terrain
    (int_of_float (F32.add (x (pos e)) (F32.of_int 1)))
    (int_of_float (F32.add (y (pos e)) (y (col e)))).

Definition ceilingCol (terrain : Terrain.t) (e : PhysicsEntity) : bool :=
  Terrain.getSolid terrain
    (int_of_float (F32.sub (F32.add (x (pos e)) (x (col e))) (F32.of_int 1)))
    (int_of_float (y (pos e))) ||
  Terrain.getSolid terrain
    (int_of_float (F32.add (x (pos e)) (F32.of_int 1)))
    (int_of_float (y (pos e))).

Definition leftCol (terrain : Terrain.t) (e : PhysicsEntity) : bool :=
  if F32.geb (x (vel e)) (F32.of_int 0) then false
  else
    Terrain.getSolid terrain
      (int_of_float (x (pos e)))
      (int_of_float (F32.sub (F32.add (y (pos e)) (y (col e))) (F32.of_int 1))) ||
    Terrain.getSolid terrain (int_of_float (x (pos e))) (int_of_float (y (pos e))).

Definition rightCol (terrain : Terrain.t) (e : PhysicsEntity) : bool :=
  if F32.leb (x (vel e)) (F32.of_int 0) then false
  else
    Terrain.getSolid terrain
      (int_of_float (F32.add (x (pos e)) (x (col e))))
      (int_of_float (F32.sub (F32.add (y (pos e)) (y (col e))) (F32.of_int 1))) ||
    Terrain.getSolid terrain
      (int_of_float (F32.add (x (pos e)) (x (col e)))) (int_of_float (y (pos e))).

Definition getRect (e : PhysicsEntity) : SDL_Rect.t :=
  {| SDL_Rect.x := int_of_float (x (pos e)); SDL_Rect.y := int_of_float (y (pos e));
     SDL_Rect.w := w e; SDL_Rect.h := h e |}.

(** ** Collision resolution

    The four blocks below are repeated verbatim in [PhysicsEntity::update],
    [Zombie::update] and [Food::update]; each scans the platforms in
    declaration order and stops at the first match. *)

Definition first_platform (test : SDL_Rect.t -> bool) (terrain : Terrain.t)
  : option SDL_Rect.t :=
  List.find test (map platformRect terrain).

Definition hitGround (terrain : Terrain.t) (e : PhysicsEntity) : PhysicsEntity :=
  if grounded terrain e && F32.geb (y (vel e)) (F32.of_int 0) then
    let e := with_vel (set_y (F32.of_int 0) (vel e)) e in
    let e := with_onGround true e in
    let feet := F32.add (y (pos e)) (F32.of_int (h e)) in
    match first_platform (fun r =>
            F32.gtb (F32.add (x (pos e)) (F32.of_int (w e))) (F32.of_int (SDL_Rect.x r)) &&
            F32.ltb (x (pos e)) (F32.of_int (Int.add (SDL_Rect.x r) (SDL_Rect.w r))) &&
            F32.geb feet (F32.of_int (SDL_Rect.y r)) &&
            F32.leb feet (F32.of_int (Int.add (SDL_Rect.y r) 10))) terrain with
    | Some r => with_pos (set_y (F32.of_int (Int.sub (SDL_Rect.y r) (h e))) (pos e)) e
    | None => e
    end
  else e.

Definition hitCeiling (terrain : Terrain.t) (e : PhysicsEntity) : PhysicsEntity :=
  if ceilingCol terrain e && F32.ltb (y (vel e)) (F32.of_int 0) then
    let e := with_vel (set_y (F32.of_int 0) (vel e)) e in
    match first_platform (fun r =>
            F32.gtb (F32.add (x (pos e)) (F32.of_int (w e))) (F32.of_int (SDL_Rect.x r)) &&
            F32.ltb (x (pos e)) (F32.of_int (Int.add (SDL_Rect.x r) (SDL_Rect.w r))) &&
            F32.leb (y (pos e)) (F32.of_int (Int.add (SDL_Rect.y r) (SDL_Rect.h r))) &&
            F32.geb (y (pos e)) (F32.of_int (SDL_Rect.y r))) terrain with
    | Some r =>
        with_pos (set_y (F32.of_int (Int.add (SDL_Rect.y r) (SDL_Rect.h r))) (pos e)) e
    | None => e
    end
  else e.

Definition hitLeftWall (terrain : Terrain.t) (e : PhysicsEntity) : PhysicsEntity :=
  if leftCol terrain e && F32.ltb (x (vel e)) (F32.of_int 0) && negb (ceilingCol terrain e) then
    let e := with_vel (set_x (F32.of_int 0) (vel e)) e in
    match first_platform (fun r =>
            F32.gtb (F32.add (y (pos e)) (F32.of_int (h e))) (F32.of_int (SDL_Rect.y r)) &&
            F32.ltb (y (pos e)) (F32.of_int (Int.add (SDL_Rect.y r) (SDL_Rect.h r))) &&
            F32.leb (x (pos e)) (F32.of_int (Int.add (SDL_Rect.x r) (SDL_Rect.w r))) &&
            F32.geb (x (pos e)) (F32.of_int (SDL_Rect.x r))) terrain with
    | Some r =>
        with_pos (set_x (F32.of_int (Int.add (SDL_Rect.x r) (SDL_Rect.w r))) (pos e)) e
    | None => e
    end
  else e.

Definition hitRightWall (terrain : Terrain.t) (e : PhysicsEntity) : PhysicsEntity :=
  if rightCol terrain e && F32.gtb (x (vel e)) (F32.of_int 0) && negb (ceilingCol terrain e) then
    let e := with_vel (set_x (F32.of_int 0) (vel e)) e in
    let right := F32.add (x (pos e)) (F32.of_int (w e)) in
    match first_platform (fun r =>
            F32.gtb (F32.add (y (pos e)) (F32.of_int (h e))) (F32.of_int (SDL_Rect.y r)) &&
            F32.ltb (y (pos e)) (F32.of_int (Int.add (SDL_Rect.y r) (SDL_Rect.h r))) &&
            F32.geb right (F32.of_int (SDL_Rect.x r)) &&
            F32.leb right (F32.of_int (Int.add (SDL_Rect.x r) (SDL_Rect.w r)))) terrain with
    | Some r => with_pos (set_x (F32.of_int (Int.sub (SDL_Rect.x r) (w e))) (pos e)) e
    | None => e
    end
  else e.

Definition resolveCollisions (terrain : Terrain.t) (e : PhysicsEntity) : PhysicsEntity :=
  let e := with_onGround false e in
  let e := hitGround terrain e in
  let e := hitCeiling terrain e in
  let e := hitLeftWall terrain e in
  hitRightWall terrain e.

(** Gravity, friction (under the caller's condition [still]) and the Euler
    step [pos.add(vel)]. *)
Definition integrate (still : PhysicsEntity -> bool) (e : PhysicsEntity) : PhysicsEntity :=
  let e := if gravity e
           then with_vel (set_y (F32.add (y (vel e)) GRAVITY) (vel e)) e else e in
  let e := if onGround e && friction e && still e
           then with_vel (set_x (F32.mul (x (vel e)) FRICTION) (vel e)) e else e in
  with_pos (Vector2D_add (pos e) (vel e)) e.

(** "Keep entity within screen bounds": the chain at the end of
    [PhysicsEntity::update] ([floor_ = 60]) and of [Zombie::update]
    ([floor_ = 50]); the assignments store the clamped coordinate into the
    velocity as well. *)
Definition keepInScreen (floor_ : Z) (e : PhysicsEntity) : PhysicsEntity :=
  let right := Int.sub (Int.sub SCREEN_WIDTH (w e)) 60 in
  let bottom := Int.sub (Int.sub SCREEN_HEIGHT (h e)) floor_ in
  if F32.leb (x (pos e)) (F32.of_int 10) then
    with_vel (set_x (F32.of_int 10) (vel e)) (with_pos (set_x (F32.of_int 10) (pos e)) e)
  else if F32.gtb (x (pos e)) (F32.of_int (Int.sub (Int.sub SCREEN_WIDTH (w e)) 30)) then
    with_vel (set_x (F32.of_int right) (vel e)) (with_pos (set_x (F32.of_int right) (pos e)) e)
  else if F32.leb (y (pos e)) (F32.of_int 0) then
    with_vel (set_y (F32.of_int 0) (vel e)) (with_pos (set_y (F32.of_int 0) (pos e)) e)
  else if F32.geb (y (pos e)) (F32.of_int (Int.sub (Int.sub SCREEN_HEIGHT (h e)) 50)) then
    with_vel (set_y (F32.of_int bottom) (vel e)) (with_pos (set_y (F32.of_int bottom) (pos e)) e)
  else e.

(** [PhysicsEntity::update] (the animation counters at its end are
    rendering state). *)
Definition PhysicsEntity_update (terrain : Terrain.t) (hasInput : bool)
    (e : PhysicsEntity) : PhysicsEntity :=
  let e := integrate (fun _ => negb hasInput) e in
  let e := resolveCollisions terrain e in
  keepInScreen 60 e.

Record Zombie := {
  body : PhysicsEntity;
  type : ZombieType;
  speed : float;
  damage : Z;
  lastDamageTime : double
}.

Definition with_body (b : PhysicsEntity) (z : Zombie) : Zombie :=
  {| body := b; type := type z; speed := speed z; damage := damage z;
     lastDamageTime := lastDamageTime z |}.
Definition with_lastDamageTime (t : double) (z : Zombie) : Zombie :=
  {| body := body z; type := type z; speed := speed z; damage := damage z;
     lastDamageTime := t |}.

(** The constructor [Zombie(x, y, w_, h_, tex, t)]. *)
Definition Zombie_new (px py : float) (w_ h_ : Z) (t : ZombieType) : Zombie :=
  {| body := with_health (if Type_eqb t ATTACK then 50 else 100)
               (PhysicsEntity_new px py w_ h_);
     type := t;
     speed := if Type_eqb t ATTACK then F32.of_int 2 else F32.lit 5 10;
     damage := if Type_eqb t ATTACK then 5 else 10;
     lastDamageTime := F64.zero |}.

(** [Zombie::update]: steer towards the player, then the shared physics. *)
Definition Zombie_update (terrain : Terrain.t) (player : PhysicsEntity) (z : Zombie)
  : Zombie :=
  let e := body z in
  let dx := F32.sub (x (pos player)) (x (pos e)) in
  let vx := if F32.gtb (F32.abs dx) (F32.of_int 5)
            then (if F32.gtb dx (F32.of_int 0) then speed z else F32.opp (speed z))
            else F32.of_int 0 in
  let e := with_vel (set_x vx (vel e)) e in
  let e := integrate (fun e => float_is_zero (x (vel e))) e in
  let e := resolveCollisions terrain e in
  with_body (keepInScreen 50 e) z.

Record Food := {
  base : Zombie;
  spawnTime : double
}.

Definition HEALTH_RESTORE : Z := 20.
Definition LIFETIME : double := F64.of_int 10.

(** The constructor [Food(x, y, w_, h_, tex)]; [now] is the reading of
    [SDL_GetTicks()] at construction. *)
Definition Food_new (px py : float) (w_ h_ : Z) (now : Z) : Food :=
  let z := Zombie_new px py w_ h_ ATTACK in
  {| base := with_body (with_friction false (with_health 0 (body z))) z;
     spawnTime := seconds now |}.

(** [Food::update]: no steering; four independent screen clamps. *)
Definition Food_update (terrain : Terrain.t) (f : Food) : Food :=
  let e := body (base f) in
  let e := integrate (fun e => float_is_zero (x (vel e))) e in
  let e := resolveCollisions terrain e in
  let e := if F32.ltb (x (pos e)) (F32.of_int 0)
           then with_vel (set_x (F32.of_int 0) (vel e))
                  (with_pos (set_x (F32.of_int 0) (pos e)) e) else e in
  let e := if F32.gtb (x (pos e)) (F32.of_int (Int.sub SCREEN_WIDTH (w e)))
           then with_vel (set_x (F32.of_int 0) (vel e))
                  (with_pos (set_x (F32.of_int (Int.sub SCREEN_WIDTH (w e))) (pos e)) e)
           else e in
  let e := if F32.ltb (y (pos e)) (F32.of_int 0)
           then with_vel (set_y (F32.of_int 0) (vel e))
                  (with_pos (set_y (F32.of_int 0) (pos e)) e) else e in
  let e := if F32.gtb (y (pos e)) (F32.of_int SCREEN_HEIGHT)
           then with_vel (set_y (F32.of_int 0) (vel e))
                  (with_pos (set_y (F32.of_int (Int.sub SCREEN_HEIGHT (h e))) (pos e)) e)
           else e in
  {| base := with_body e (base f); spawnTime := spawnTime f |}.

(* ===================================================================== *)
(** * The run: state of [RunMainGame] *)
(* ===================================================================== *)

Inductive GameScreenState := PLAYING | PAUSED | GAME_OVER | VICTORY.
Inductive ButtonState := NORMAL | HOVERED | PRESSED.

(** [WeatherSystem] of [Weather.cpp], without its textures. *)
Inductive Weather := DAY | NIGHT.

Record WeatherSystem := {
  weatherStart : double;
  currentWeather : Weather
}.

Definition WEATHER_CHANGE_INTERVAL : double := F64.of_int 30.

Definition Weather_init (now : Z) : WeatherSystem :=
  {| weatherStart := seconds now; currentWeather := DAY |}.

Definition Weather_setType (type_ : Z) (now : Z) (ws : WeatherSystem) : WeatherSystem :=
  if (type_ =? 0) || (type_ =? 1)
  then {| weatherStart := seconds now;
          currentWeather := if type_ =? 0 then DAY else NIGHT |}
  else ws.

Definition Weather_getType (ws : WeatherSystem) : Z :=
  match currentWeather ws with DAY => 0 | NIGHT => 1 end.

Definition Weather_update (currentTime : double) (ws : WeatherSystem) : WeatherSystem :=
  let elapsedTime := F64.sub currentTime (weatherStart ws) in
  if F64.geb elapsedTime WEATHER_CHANGE_INTERVAL
  then {| weatherStart := currentTime;
          currentWeather := match currentWeather ws with DAY => NIGHT | NIGHT => DAY end |}
  else ws.

(** The local variables of [RunMainGame] that outlive one loop iteration,
    and the file system the run reads and writes. *)
Module Run.
Record t := {
    player : PhysicsEntity;
    score : Z;
    startTime : double;
    zombies : list Zombie;
    foods : list Food;
    attacking : bool;
    lastAttackTime : double;
    wave : Z;
    zombiesToSpawn : Z;
    waveZombiesRemaining : Z;
    weather : WeatherSystem;
    highScore : Z;
    gameState : GameScreenState;
    running : bool;
    jumping : bool;
    resumeState : ButtonState;
    saveState : ButtonState;
    menuState : ButtonState;
    backState : ButtonState;
    disk : FileSystem
  }.

Definition set_player (v : PhysicsEntity) (r : t) : t :=
    {| player := v; score := score r; startTime := startTime r; zombies := zombies r;
       foods := foods r; attacking := attacking r; lastAttackTime := lastAttackTime r;
       wave := wave r; zombiesToSpawn := zombiesToSpawn r;
       waveZombiesRemaining := waveZombiesRemaining r; weather := weather r;
       highScore := highScore r; gameState := gameState r; running := running r;
       jumping := jumping r; resumeState := resumeState r; saveState := saveState r;
       menuState := menuState r; backState := backState r; disk := disk r |}.
Definition set_score (v : Z) (r : t) : t :=
    {| player := player r; score := v; startTime := startTime r; zombies := zombies r;
       foods := foods r; attacking := attacking r; lastAttackTime := lastAttackTime r;
       wave := wave r; zombiesToSpawn := zombiesToSpawn r;
       waveZombiesRemaining := waveZombiesRemaining r; weather := weather r;
       highScore := highScore r; gameState := gameState r; running := running r;
       jumping := jumping r; resumeState := resumeState r; saveState := saveState r;
       menuState := menuState r; backState := backState r; disk := disk r |}.
Definition set_zombies (v : list Zombie) (r : t) : t :=
    {| player := player r; score := score r; startTime := startTime r; zombies := v;
       foods := foods r; attacking := attacking r; lastAttackTime := lastAttackTime r;
       wave := wave r; zombiesToSpawn := zombiesToSpawn r;
       waveZombiesRemaining := waveZombiesRemaining r; weather := weather r;
       highScore := highScore r; gameState := gameState r; running := running r;
       jumping := jumping r; resumeState := resumeState r; saveState := saveState r;
       menuState := menuState r; backState := backState r; disk := disk r |}.
Definition set_foods (v : list Food) (r : t) : t :=
    {| player := player r; score := score r; startTime := startTime r;
       zombies := zombies r; foods := v; attacking := attacking r;
       lastAttackTime := lastAttackTime r; wave := wave r;
       zombiesToSpawn := zombiesToSpawn r;
       waveZombiesRemaining := waveZombiesRemaining r; weather := weather r;
       highScore := highScore r; gameState := gameState r; running := running r;
       jumping := jumping r; resumeState := resumeState r; saveState := saveState r;
       menuState := menuState r; backState := backState r; disk := disk r |}.
Definition set_attacking (v : bool) (r : t) : t :=
    {| player := player r; score := score r; startTime := startTime r;
       zombies := zombies r; foods := foods r; attacking := v;
       lastAttackTime := lastAttackTime r; wave := wave r;
       zombiesToSpawn := zombiesToSpawn r;
       waveZombiesRemaining := waveZombiesRemaining r; weather := weather r;
       highScore := highScore r; gameState := gameState r; running := running r;
       jumping := jumping r; resumeState := resumeState r; saveState := saveState r;
       menuState := menuState r; backState := backState r; disk := disk r |}.
Definition set_lastAttackTime (v : double) (r : t) : t :=
    {| player := player r; score := score r; startTime := startTime r;
       zombies := zombies r; foods := foods r; attacking := attacking r;
       lastAttackTime := v; wave := wave r; zombiesToSpawn := zombiesToSpawn r;
       waveZombiesRemaining := waveZombiesRemaining r; weather := weather r;
       highScore := highScore r; gameState := gameState r; running := running r;
       jumping := jumping r; resumeState := resumeState r; saveState := saveState r;
       menuState := menuState r; backState := backState r; disk := disk r |}.
Definition set_wave (v : Z) (r : t) : t :=
    {| player := player r; score := score r; startTime := startTime r;
       zombies := zombies r; foods := foods r; attacking := attacking r;
       lastAttackTime := lastAttackTime r; wave := v;
       zombiesToSpawn := zombiesToSpawn r;
       waveZombiesRemaining := waveZombiesRemaining r; weather := weather r;
       highScore := highScore r; gameState := gameState r; running := running r;
       jumping := jumping r; resumeState := resumeState r; saveState := saveState r;
       menuState := menuState r; backState := backState r; disk := disk r |}.
Definition set_zombiesToSpawn (v : Z) (r : t) : t :=
    {| player := player r; score := score r; startTime := startTime r;
       zombies := zombies r; foods := foods r; attacking := attacking r;
       lastAttackTime := lastAttackTime r; wave := wave r; zombiesToSpawn := v;
       waveZombiesRemaining := waveZombiesRemaining r; weather := weather r;
       highScore := highScore r; gameState := gameState r; running := running r;
       jumping := jumping r; resumeState := resumeState r; saveState := saveState r;
       menuState := menuState r; backState := backState r; disk := disk r |}.
Definition set_waveZombiesRemaining (v : Z) (r : t) : t :=
    {| player := player r; score := score r; startTime := startTime r;
       zombies := zombies r; foods := foods r; attacking := attacking r;
       lastAttackTime := lastAttackTime r; wave := wave r;
       zombiesToSpawn := zombiesToSpawn r; waveZombiesRemaining := v;
       weather := weather r; highScore := highScore r; gameState := gameState r;
       running := running r; jumping := jumping r; resumeState := resumeState r;
       saveState := saveState r; menuState := menuState r; backState := backState r;
       disk := disk r |}.
Definition set_weather (v : WeatherSystem) (r : t) : t :=
    {| player := player r; score := score r; startTime := startTime r;
       zombies := zombies r; foods := foods r; attacking := attacking r;
       lastAttackTime := lastAttackTime r; wave := wave r;
       zombiesToSpawn := zombiesToSpawn r;
       waveZombiesRemaining := waveZombiesRemaining r; weather := v;
       highScore := highScore r; gameState := gameState r; running := running r;
       jumping := jumping r; resumeState := resumeState r; saveState := saveState r;
       menuState := menuState r; backState := backState r; disk := disk r |}.
Definition set_highScore (v : Z) (r : t) : t :=
    {| player := player r; score := score r; startTime := startTime r;
       zombies := zombies r; foods := foods r; attacking := attacking r;
       lastAttackTime := lastAttackTime r; wave := wave r;
       zombiesToSpawn := zombiesToSpawn r;
       waveZombiesRemaining := waveZombiesRemaining r; weather := weather r;
       highScore := v; gameState := gameState r; running := running r;
       jumping := jumping r; resumeState := resumeState r; saveState := saveState r;
       menuState := menuState r; backState := backState r; disk := disk r |}.
Definition set_gameState (v : GameScreenState) (r : t) : t :=
    {| player := player r; score := score r; startTime := startTime r;
       zombies := zombies r; foods := foods r; attacking := attacking r;
       lastAttackTime := lastAttackTime r; wave := wave r;
       zombiesToSpawn := zombiesToSpawn r;
       waveZombiesRemaining := waveZombiesRemaining r; weather := weather r;
       highScore := highScore r; gameState := v; running := running r;
       jumping := jumping r; resumeState := resumeState r; saveState := saveState r;
       menuState := menuState r; backState := backState r; disk := disk r |}.
Definition set_running (v : bool) (r : t) : t :=
    {| player := player r; score := score r; startTime := startTime r;
       zombies := zombies r; foods := foods r; attacking := attacking r;
       lastAttackTime := lastAttackTime r; wave := wave r;
       zombiesToSpawn := zombiesToSpawn r;
       waveZombiesRemaining := waveZombiesRemaining r; weather := weather r;
       highScore := highScore r; gameState := gameState r; running := v;
       jumping := jumping r; resumeState := resumeState r; saveState := saveState r;
       menuState := menuState r; backState := backState r; disk := disk r |}.
Definition set_jumping (v : bool) (r : t) : t :=
    {| player := player r; score := score r; startTime := startTime r;
       zombies := zombies r; foods := foods r; attacking := attacking r;
       lastAttackTime := lastAttackTime r; wave := wave r;
       zombiesToSpawn := zombiesToSpawn r;
       waveZombiesRemaining := waveZombiesRemaining r; weather := weather r;
       highScore := highScore r; gameState := gameState r; running := running r;
       jumping := v; resumeState := resumeState r; saveState := saveState r;
       menuState := menuState r; backState := backState r; disk := disk r |}.
Definition set_resumeState (v : ButtonState) (r : t) : t :=
    {| player := player r; score := score r; startTime := startTime r;
       zombies := zombies r; foods := foods r; attacking := attacking r;
       lastAttackTime := lastAttackTime r; wave := wave r;
       zombiesToSpawn := zombiesToSpawn r;
       waveZombiesRemaining := waveZombiesRemaining r; weather := weather r;
       highScore := highScore r; gameState := gameState r; running := running r;
       jumping := jumping r; resumeState := v; saveState := saveState r;
       menuState := menuState r; backState := backState r; disk := disk r |}.
Definition set_saveState (v : ButtonState) (r : t) : t :=
    {| player := player r; score := score r; startTime := startTime r;
       zombies := zombies r; foods := foods r; attacking := attacking r;
       lastAttackTime := lastAttackTime r; wave := wave r;
       zombiesToSpawn := zombiesToSpawn r;
       waveZombiesRemaining := waveZombiesRemaining r; weather := weather r;
       highScore := highScore r; gameState := gameState r; running := running r;
       jumping := jumping r; resumeState := resumeState r; saveState := v;
       menuState := menuState r; backState := backState r; disk := disk r |}.
Definition set_menuState (v : ButtonState) (r : t) : t :=
    {| player := player r; score := score r; startTime := startTime r;
       zombies := zombies r; foods := foods r; attacking := attacking r;
       lastAttackTime := lastAttackTime r; wave := wave r;
       zombiesToSpawn := zombiesToSpawn r;
       waveZombiesRemaining := waveZombiesRemaining r; weather := weather r;
       highScore := highScore r; gameState := gameState r; running := running r;
       jumping := jumping r; resumeState := resumeState r; saveState := saveState r;
       menuState := v; backState := backState r; disk := disk r |}.
Definition set_backState (v : ButtonState) (r : t) : t :=
    {| player := player r; score := score r; startTime := startTime r;
       zombies := zombies r; foods := foods r; attacking := attacking r;
       lastAttackTime := lastAttackTime r; wave := wave r;
       zombiesToSpawn := zombiesToSpawn r;
       waveZombiesRemaining := waveZombiesRemaining r; weather := weather r;
       highScore := highScore r; gameState := gameState r; running := running r;
       jumping := jumping r; resumeState := resumeState r; saveState := saveState r;
       menuState := menuState r; backState := v; disk := disk r |}.
Definition set_disk (v : FileSystem) (r : t) : t :=
    {| player := player r; score := score r; startTime := startTime r;
       zombies := zombies r; foods := foods r; attacking := attacking r;
       lastAttackTime := lastAttackTime r; wave := wave r;
       zombiesToSpawn := zombiesToSpawn r;
       waveZombiesRemaining := waveZombiesRemaining r; weather := weather r;
       highScore := highScore r; gameState := gameState r; running := running r;
       jumping := jumping r; resumeState := resumeState r; saveState := saveState r;
       menuState := menuState r; backState := backState r; disk := v |}.
End Run.

(* ===================================================================== *)
(** * Spawning *)
(* ===================================================================== *)

Definition ATTACK_COOLDOWN : double := F64.lit 5 10.
Definition MELEE_DAMAGE : Z := 25.
Definition MELEE_RANGE : Z := 100.
Definition MAX_ZOMBIES_ONSCREEN : Z := 5.
Definition ZOMBIES_PER_WAVE : list Z := [15; 20; 25; 30; 35].
Definition TOTAL_WAVES : Z := 5.

(** The level built in [RunMainGame]. *)
Definition platforms : Terrain.t :=
  [ {| Platform.x := 0; Platform.y := 17; Platform.width := 30; Platform.height := 2 |};
    {| Platform.x := 2; Platform.y := 12; Platform.width := 8; Platform.height := 1 |};
    {| Platform.x := 15; Platform.y := 12; Platform.width := 8; Platform.height := 1 |};
    {| Platform.x := 10; Platform.y := 8; Platform.width := 5; Platform.height := 1 |};
    {| Platform.x := 2; Platform.y := 4; Platform.width := 8; Platform.height := 1 |};
    {| Platform.x := 15; Platform.y := 4; Platform.width := 8; Platform.height := 1 |} ].

(** The three draws of one [spawnZombie] call, in the order they are made:
    [platformDist(gen)] (reduced into the index range), [xDist(gen)] and
    [typeDist(gen)]. *)
Record SpawnRoll := {
  platformDist : nat;
  xDist : double;
  typeDist : Z
}.

(** [spawnZombie]; [attackTex] and [tankTex] tell whether the texture
    pointer is non-null. *)
Definition spawnZombie (zs : list Zombie) (terrain : Terrain.t)
    (attackTex tankTex : bool) (roll : SpawnRoll) : list Zombie :=
  match terrain with
  | [] => zs
  | first :: _ =>
      let platform := nth (platformDist roll mod length terrain)%nat terrain first in
      let zx := float_of_double
                  (F64.add (F64.of_int (Int.mul (Platform.x platform) TILE_SIZE))
                     (F64.mul (xDist roll)
                        (F64.of_int (Int.sub (Int.mul (Platform.width platform) TILE_SIZE) 32)))) in
      let zy := F32.of_int (Int.sub (Int.mul (Platform.y platform) TILE_SIZE) 32) in
      let t := if typeDist roll =? 0 then ATTACK else TANK in
      let tex := if Type_eqb t ATTACK then attackTex else tankTex in
      if negb tex then zs
      else zs ++ [Zombie_new zx zy 32 32 t]
  end.

(** [spawnFood]; [chance] is the draw [chance(gen)] and [now] the clock read
    by the [Food] constructor. *)
Definition spawnFood (fs : list Food) (fx fy : float) (foodTex : bool)
    (chance : double) (now : Z) : list Food :=
  if negb foodTex then fs
  else if F64.ltb chance (double_of_float (F32.lit 5 10))
       then fs ++ [Food_new fx fy 16 16 now]
       else fs.

(* ===================================================================== *)
(** * Events *)
(* ===================================================================== *)

Inductive Key := SDLK_ESCAPE | SDLK_SPACE | SDLK_f | SDLK_other.

Inductive Event :=
  | SDL_QUIT
  | SDL_KEYDOWN (sym : Key)
  | SDL_KEYUP (sym : Key)
  | SDL_MOUSEMOTION (mx my : Z)
  | SDL_MOUSEBUTTONDOWN
  | SDL_MOUSEBUTTONUP
  | SDL_OTHER.

Definition resumeRect : SDL_Rect.t :=
  {| SDL_Rect.x := 300; SDL_Rect.y := 200; SDL_Rect.w := 200; SDL_Rect.h := 50 |}.
Definition saveRect : SDL_Rect.t :=
  {| SDL_Rect.x := 300; SDL_Rect.y := 280; SDL_Rect.w := 200; SDL_Rect.h := 50 |}.
Definition menuRect : SDL_Rect.t :=
  {| SDL_Rect.x := 300; SDL_Rect.y := 360; SDL_Rect.w := 200; SDL_Rect.h := 50 |}.
Definition backRect : SDL_Rect.t :=
  {| SDL_Rect.x := 300; SDL_Rect.y := 360; SDL_Rect.w := 200; SDL_Rect.h := 50 |}.

Definition hover (r : SDL_Rect.t) (mx my : Z) : ButtonState :=
  if (SDL_Rect.x r <=? mx) && (mx <=? Int.add (SDL_Rect.x r) (SDL_Rect.w r)) &&
     (SDL_Rect.y r <=? my) && (my <=? Int.add (SDL_Rect.y r) (SDL_Rect.h r))
  then HOVERED else NORMAL.

Definition ButtonState_eqb (a b : ButtonState) : bool :=
  match a, b with
  | NORMAL, NORMAL | HOVERED, HOVERED | PRESSED, PRESSED => true
  | _, _ => false
  end.

(** The [GameState] filled in by the "Save Game" button. *)
Definition snapshot (now : Z) (r : Run.t) : GameState :=
  {| playerPos := pos (Run.player r);
     playerVel := vel (Run.player r);
     playerHealth := health (Run.player r);
     score := Run.score r;
     startTime := F64.sub (seconds now) (Run.startTime r);
     isValid := true;
     zombies := map (fun zombie =>
                  (x (pos (body zombie)), y (pos (body zombie)), type zombie))
                  (Run.zombies r);
     wave := Run.wave r;
     zombiesToSpawn := Run.zombiesToSpawn r;
     waveZombiesRemaining := Run.waveZombiesRemaining r;
     weatherType := Weather_getType (Run.weather r) |}.

(** The jump branch: [player.accelerate(0, JUMP_FORCE)], then the two
    flags. *)
Definition jump (r : Run.t) : Run.t :=
  let p := accelerate (F32.of_int 0) JUMP_FORCE (Run.player r) in
  Run.set_jumping true (Run.set_player (with_onGround false p) r).

(** The attack branch. *)
Definition attack (now : Z) (r : Run.t) : Run.t :=
  let currentTime := seconds now in
  if F64.geb (F64.sub currentTime (Run.lastAttackTime r)) ATTACK_COOLDOWN
  then Run.set_lastAttackTime currentTime (Run.set_attacking true r)
  else r.

(** One iteration of [while (SDL_PollEvent(&e))]; [now] is what
    [SDL_GetTicks()] returns while the event is handled. *)
Definition handleEvent (e : Event) (now : Z) (r : Run.t) : Run.t :=
  match e, Run.gameState r with
  | SDL_QUIT, _ => Run.set_running false r
  | SDL_KEYDOWN SDLK_ESCAPE, PLAYING => Run.set_gameState PAUSED r
  | SDL_KEYDOWN SDLK_ESCAPE, PAUSED => Run.set_gameState PLAYING r
  | _, PLAYING =>
      match e with
      | SDL_KEYDOWN SDLK_SPACE =>
          if onGround (Run.player r) && negb (Run.jumping r) then jump r else r
      | SDL_KEYUP SDLK_SPACE => Run.set_jumping false r
      | SDL_KEYDOWN SDLK_f => attack now r
      | _ => r
      end
  | _, PAUSED =>
      match e with
      | SDL_MOUSEMOTION mx my =>
          Run.set_menuState (hover menuRect mx my)
            (Run.set_saveState (hover saveRect mx my)
               (Run.set_resumeState (hover resumeRect mx my) r))
      | SDL_MOUSEBUTTONDOWN =>
          if ButtonState_eqb (Run.resumeState r) HOVERED then Run.set_resumeState PRESSED r
          else if ButtonState_eqb (Run.saveState r) HOVERED then Run.set_saveState PRESSED r
          else if ButtonState_eqb (Run.menuState r) HOVERED then Run.set_menuState PRESSED r
          else r
      | SDL_MOUSEBUTTONUP =>
          if ButtonState_eqb (Run.resumeState r) PRESSED then
            Run.set_resumeState NORMAL (Run.set_gameState PLAYING r)
          else if ButtonState_eqb (Run.saveState r) PRESSED then
            Run.set_saveState NORMAL
              (Run.set_disk (saveGameState (snapshot now r) "savegame.dat" (Run.disk r)) r)
          else if ButtonState_eqb (Run.menuState r) PRESSED then
            Run.set_menuState NORMAL (Run.set_running false r)
          else r
      | _ => r
      end
  | _, _ =>
      match e with
      | SDL_MOUSEMOTION mx my => Run.set_backState (hover backRect mx my) r
      | SDL_MOUSEBUTTONDOWN =>
          if ButtonState_eqb (Run.backState r) HOVERED then Run.set_backState PRESSED r
          else r
      | SDL_MOUSEBUTTONUP =>
          if ButtonState_eqb (Run.backState r) PRESSED
          then Run.set_backState NORMAL (Run.set_running false r)
          else r
      | _ => r
      end
  end.

(* ===================================================================== *)
(** * One simulation tick *)
(* ===================================================================== *)

(** What the environment supplies to one loop iteration: the polled events
    (each with the clock at the time it is handled), the keyboard state, the
    clock read for [currentTime], the draws of [spawnZombie], and for the
    zombie at each position of the vector the draw and the clock of a
    [spawnFood] call. *)
Record Input := {
  events : list (Event * Z);
  keyA : bool;
  keyD : bool;
  now : Z;
  spawnRoll : SpawnRoll;
  foodChance : nat -> double;
  foodClock : nat -> Z
}.

(** Keyboard movement and [player.update]. *)
Definition movePlayer (i : Input) (r : Run.t) : Run.t :=
  let isMovingRight := keyD i in
  let isMovingLeft := keyA i in
  let p := Run.player r in
  let p := if isMovingLeft then accelerate (F32.opp PLAYER_ACCEL) (F32.of_int 0) p else p in
  let p := if isMovingRight then accelerate PLAYER_ACCEL (F32.of_int 0) p else p in
  let hasInput := isMovingLeft || isMovingRight in
  Run.set_player (PhysicsEntity_update platforms hasInput p) r.

(** "Spawn zombies if needed".  Both textures are non-null here:
    [RunMainGame] returns before the loop when one failed to load. *)
Definition spawnStep (i : Input) (r : Run.t) : Run.t :=
  if (0 <? Run.zombiesToSpawn r) &&
     (Z.of_nat (length (Run.zombies r)) <? MAX_ZOMBIES_ONSCREEN)
  then
    let r := Run.set_zombies (spawnZombie (Run.zombies r) platforms true true (spawnRoll i)) r in
    let r := Run.set_zombiesToSpawn (Int.sub (Run.zombiesToSpawn r) 1) r in
    Run.set_waveZombiesRemaining (Int.add (Run.waveZombiesRemaining r) 1) r
  else r.

(** One of the two identical contact blocks of the zombie loop. *)
Definition contactDamage (currentTime : double) (playerRect zombieRect : SDL_Rect.t)
    (zp : Zombie * PhysicsEntity) : Zombie * PhysicsEntity :=
  let '(zombie, player) := zp in
  if SDL_HasIntersection playerRect zombieRect then
    if F64.geb (F64.sub currentTime (lastDamageTime zombie)) (F64.of_int 1) then
      let player := with_health (Int.sub (health player) (damage zombie)) player in
      let zombie := with_lastDamageTime currentTime zombie in
      let player := if health player <? 0 then with_health 0 player else player in
      (zombie, player)
    else zp
  else zp.

Definition attackRect (player : PhysicsEntity) : SDL_Rect.t :=
  {| SDL_Rect.x :=
       int_of_float (F32.add (F32.sub (x (pos player)) (F32.of_int (Int.div MELEE_RANGE 2)))
                       (F32.of_int (Int.div (w player) 2)));
     SDL_Rect.y :=
       int_of_float (F32.add (F32.sub (y (pos player)) (F32.of_int (Int.div MELEE_RANGE 2)))
                       (F32.of_int (Int.div (h player) 2)));
     SDL_Rect.w := MELEE_RANGE;
     SDL_Rect.h := MELEE_RANGE |}.

(** What the zombie loop accumulates outside the zombies themselves. *)
Record Tally := {
  t_player : PhysicsEntity;
  t_score : Z;
  t_remaining : Z;
  t_foods : list Food
}.

(** The "Handle player attack" block for one zombie; the flag of the result
    tells whether the zombie was pushed on [zombiesToDelete]. *)
Definition meleeHit (i : Input) (attacking : bool) (idx : nat)
    (zombieRect : SDL_Rect.t) (zombie : Zombie) (t : Tally) : (Zombie * bool) * Tally :=
  if attacking then
    if SDL_HasIntersection (attackRect (t_player t)) zombieRect then
      let zombie := with_body (with_health (Int.sub (health (body zombie)) MELEE_DAMAGE)
                                 (body zombie)) zombie in
      if health (body zombie) <=? 0 then
        let fs := spawnFood (t_foods t) (x (pos (body zombie))) (y (pos (body zombie)))
                    true (foodChance i idx) (foodClock i idx) in
        ((zombie, true),
         {| t_player := t_player t; t_score := Int.add (t_score t) 100;
            t_remaining := Int.sub (t_remaining t) 1; t_foods := fs |})
      else ((zombie, false), t)
    else ((zombie, false), t)
  else ((zombie, false), t).

(** The body of [for (auto& zombie : zombies)] for the zombie at position
    [idx]. *)
Definition zombieBody (i : Input) (attacking : bool) (playerRect : SDL_Rect.t)
    (currentTime : double) (idx : nat) (zombie : Zombie) (t : Tally)
  : (Zombie * bool) * Tally :=
  let zombie := Zombie_update platforms (t_player t) zombie in
  let zombieRect := getRect (body zombie) in
  let '(zombie, player) := contactDamage currentTime playerRect zombieRect (zombie, t_player t) in
  let '(zombie, player) := contactDamage currentTime playerRect zombieRect (zombie, player) in
  let t := {| t_player := player; t_score := t_score t;
              t_remaining := t_remaining t; t_foods := t_foods t |} in
  meleeHit i attacking idx zombieRect zombie t.

Fixpoint zombieLoop (i : Input) (attacking : bool) (playerRect : SDL_Rect.t)
    (currentTime : double) (idx : nat) (zs : list Zombie) (t : Tally)
  : list (Zombie * bool) * Tally :=
  match zs with
  | [] => ([], t)
  | zombie :: others =>
      let '(marked, t) := zombieBody i attacking playerRect currentTime idx zombie t in
      let '(rest_, t) := zombieLoop i attacking playerRect currentTime (S idx) others t in
      (marked :: rest_, t)
  end.

(** "Remove dead zombies": every pointer of [zombiesToDelete] occurs once in
    [zombies] (each comes from its own [new]), so [find] and [erase] remove
    exactly the marked objects. *)
Definition removeDead (marked : list (Zombie * bool)) : list Zombie :=
  map fst (List.filter (fun zm => negb (snd zm)) marked).

Definition combatStep (i : Input) (r : Run.t) : Run.t :=
  let playerRect := getRect (Run.player r) in
  let currentTime := seconds (now i) in
  let '(marked, t) :=
    zombieLoop i (Run.attacking r) playerRect currentTime 0 (Run.zombies r)
      {| t_player := Run.player r; t_score := Run.score r;
         t_remaining := Run.waveZombiesRemaining r; t_foods := Run.foods r |} in
  let r := Run.set_player (t_player t) r in
  let r := Run.set_score (t_score t) r in
  let r := Run.set_waveZombiesRemaining (t_remaining t) r in
  let r := Run.set_foods (t_foods t) r in
  let r := Run.set_zombies (removeDead marked) r in
  Run.set_attacking false r.

(** The body of the food loop: the updated food if it stays in the
    container, the player's health, and the number of [foods.erase] calls
    made for this food. *)
Definition foodBody (currentTime : double) (playerRect : SDL_Rect.t)
    (food : Food) (hp : Z) : option Food * Z * nat :=
  let food := Food_update platforms food in
  if F64.geb (F64.sub currentTime (spawnTime food)) LIFETIME then (None, hp, 1%nat)
  else
    let foodRect := getRect (body (base food)) in
    if SDL_HasIntersection playerRect foodRect then
      let hp := Int.add hp HEALTH_RESTORE in
      let hp := if 100 <? hp then 100 else hp in
      (None, hp, 1%nat)
    else (Some food, hp, 0%nat).

Fixpoint foodLoop (currentTime : double) (playerRect : SDL_Rect.t)
    (fs : list Food) (hp : Z) : list Food * Z * nat :=
  match fs with
  | [] => ([], hp, 0%nat)
  | food :: others =>
      let '(kept, hp, n) := foodBody currentTime playerRect food hp in
      let '(rest_, hp, m) := foodLoop currentTime playerRect others hp in
      (match kept with Some f => f :: rest_ | None => rest_ end, hp, (n + m)%nat)
  end.

(** [playerRect] is the rectangle taken before the zombie loop; the player
    does not move in between. *)
Definition foodStep (i : Input) (r : Run.t) : Run.t :=
  let playerRect := getRect (Run.player r) in
  let currentTime := seconds (now i) in
  let '(fs, hp, _) := foodLoop currentTime playerRect (Run.foods r) (health (Run.player r)) in
  Run.set_foods fs (Run.set_player (with_health hp (Run.player r)) r).

(** "New high score" as done on victory and on game over. *)
Definition recordHighScore (r : Run.t) : Run.t :=
  if Run.highScore r <? Run.score r then
    Run.set_disk (saveHighScore (Run.score r) "highscore.dat" (Run.disk r))
      (Run.set_highScore (Run.score r) r)
  else r.

(** [ZOMBIES_PER_WAVE[wave - 1]].  For a wave number outside 1..5 the index
    is outside the array and the read is undefined; the embedding gives 0. *)
Definition quota (wave_ : Z) : Z :=
  if 1 <=? wave_ then nth (Z.to_nat (wave_ - 1)) ZOMBIES_PER_WAVE 0 else 0.

(** "Check for wave completion". *)
Definition waveCheck (r : Run.t) : Run.t :=
  if (Run.waveZombiesRemaining r =? 0) && (Run.zombiesToSpawn r =? 0) &&
     (Run.wave r <? TOTAL_WAVES) then
    let r := Run.set_wave (Int.add (Run.wave r) 1) r in
    Run.set_zombiesToSpawn (quota (Run.wave r)) r
  else if (Run.waveZombiesRemaining r =? 0) && (Run.zombiesToSpawn r =? 0) &&
          (Run.wave r =? TOTAL_WAVES) then
    Run.set_gameState VICTORY (recordHighScore r)
  else r.

(** "Check for game over conditions". *)
Definition gameOverCheck (r : Run.t) : Run.t :=
  if F32.gtb (y (pos (Run.player r))) (F32.of_int SCREEN_HEIGHT) ||
     (health (Run.player r) <=? 0)
  then Run.set_gameState GAME_OVER (recordHighScore r)
  else r.

(** [while (SDL_PollEvent(&e))]. *)
Definition pollEvents (i : Input) (r : Run.t) : Run.t :=
  fold_left (fun r ev => handleEvent (fst ev) (snd ev) r) (events i) r.

(** The state of a tick at its "Spawn zombies if needed" test. *)
Definition beforeSpawn (i : Input) (r : Run.t) : Run.t :=
  let r := movePlayer i r in
  let currentTime := seconds (now i) in
  Run.set_weather (Weather_update currentTime (Run.weather r)) r.

(** The state right before the wave check of a tick. *)
Definition simulate (i : Input) (r : Run.t) : Run.t :=
  let r := beforeSpawn i r in
  let r := spawnStep i r in
  let r := combatStep i r in
  foodStep i r.

(** The block [if (gameState == PLAYING) { ... }]. *)
Definition tick (i : Input) (r : Run.t) : Run.t :=
  gameOverCheck (waveCheck (simulate i r)).

(** One iteration of [while (running)]. *)
Definition frame (i : Input) (r : Run.t) : Run.t :=
  let r := pollEvents i r in
  match Run.gameState r with
  | PLAYING => tick i r
  | _ => r
  end.

(* ===================================================================== *)
(** * Starting a run *)
(* ===================================================================== *)

(** What the environment supplies while [RunMainGame] sets up: the
    indeterminate storage used by [loadGameState] and the four clock reads
    (weather initialisation, [startTime], restored [startTime],
    [weather.setType]). *)
Record StartEnv := {
  uninit : Uninit;
  clockWeather : Z;
  clockStart : Z;
  clockRestore : Z;
  clockSetType : Z
}.

Definition newPlayer : PhysicsEntity :=
  setCol (F32.of_int 48) (F32.of_int 48)
    (PhysicsEntity_new
       (F32.mul (F32.of_int TILE_SIZE) (F32.of_int 3))
       (F32.sub (F32.mul (F32.of_int TILE_SIZE) (F32.of_int 10)) (F32.of_int 48))
       48 48).

(** The run before the saved state is looked at. *)
Definition newRun (env : StartEnv) (fs : FileSystem) : Run.t :=
  {| Run.player := newPlayer;
     Run.score := 0;
     Run.startTime := seconds (clockStart env);
     Run.zombies := [];
     Run.foods := [];
     Run.attacking := false;
     Run.lastAttackTime := F64.zero;
     Run.wave := 1;
     Run.zombiesToSpawn := nth 0 ZOMBIES_PER_WAVE 0;
     Run.waveZombiesRemaining := 0;
     Run.weather := Weather_init (clockWeather env);
     Run.highScore := 0;
     Run.gameState := PLAYING;
     Run.running := true;
     Run.jumping := false;
     Run.resumeState := NORMAL;
     Run.saveState := NORMAL;
     Run.menuState := NORMAL;
     Run.backState := NORMAL;
     Run.disk := fs |}.

(** The block [if (state.isValid) { ... }]. *)
Definition restore (env : StartEnv) (state : GameState) (r : Run.t) : Run.t :=
  if isValid state then
    let p := with_health (playerHealth state)
               (with_vel (playerVel state) (with_pos (playerPos state) (Run.player r))) in
    let r := Run.set_player p r in
    let r := Run.set_score (score state) r in
    let r := {| Run.player := Run.player r; Run.score := Run.score r;
                Run.startTime := F64.sub (seconds (clockRestore env)) (startTime state);
                Run.zombies :=
                  Run.zombies r ++
                  map (fun zombie => let '(zx, zy, t) := zombie in Zombie_new zx zy 32 32 t)
                    (zombies state);
                Run.foods := Run.foods r; Run.attacking := Run.attacking r;
                Run.lastAttackTime := Run.lastAttackTime r; Run.wave := wave state;
                Run.zombiesToSpawn := zombiesToSpawn state;
                Run.waveZombiesRemaining := waveZombiesRemaining state;
                Run.weather := Weather_setType (weatherType state) (clockSetType env)
                                 (Run.weather r);
                Run.highScore := Run.highScore r; Run.gameState := Run.gameState r;
                Run.running := Run.running r; Run.jumping := Run.jumping r;
                Run.resumeState := Run.resumeState r; Run.saveState := Run.saveState r;
                Run.menuState := Run.menuState r; Run.backState := Run.backState r;
                Run.disk := Run.disk r |} in
    r
  else r.

(** [RunMainGame] up to its main loop, all resources loaded.  An exception
    that leaves [loadGameState] leaves [RunMainGame] too. *)
Definition startRun (loadSaved : bool) (env : StartEnv) (fs : FileSystem)
  : Outcome Run.t :=
  let r := newRun env fs in
  bind (if loadSaved
        then bind (loadGameState (uninit env) "savegame.dat" fs)
               (fun state => Returned (restore env state r))
        else Returned r)
    (fun r => Returned (Run.set_highScore (loadHighScore "highscore.dat" fs) r)).

(** The run with which a new game enters the loop:
    [startRun false env fs] returns it. *)
Definition newGame (env : StartEnv) (fs : FileSystem) : Run.t :=
  Run.set_highScore (loadHighScore "highscore.dat" fs) (newRun env fs).

(* ===================================================================== *)
(** * Reachable runs *)
(* ===================================================================== *)

(** The runs of a machine on which the game alone writes [savegame.dat]: a
    run starts when there is no save file yet or on the disk a reachable run
    has left, and proceeds by loop iterations while [running] holds. *)
Inductive reachable : Run.t -> Prop :=
  | reach_first (loadSaved : bool) (env : StartEnv) (fs : FileSystem) (r : Run.t) :
      files fs !! "savegame.dat"%string = None ->
      startRun loadSaved env fs = Returned r ->
      reachable r
  | reach_again (loadSaved : bool) (env : StartEnv) (r r' : Run.t) :
      reachable r ->
      startRun loadSaved env (Run.disk r) = Returned r' ->
      reachable r'
  | reach_frame (i : Input) (r : Run.t) :
      reachable r ->
      Run.running r = true ->
      reachable (frame i r).

(** Agreement of the wave counters with a hostile list of length [n]. *)
Definition countersOk (n : nat) (wave_ toSpawn remaining : Z) : Prop :=
  (n <= 5)%nat /\ remaining = Z.of_nat n /\ 0 <= toSpawn <= 35 /\ 1 <= wave_ <= 5.

Definition consistent (r : Run.t) : Prop :=
  countersOk (length (Run.zombies r)) (Run.wave r) (Run.zombiesToSpawn r)
    (Run.waveZombiesRemaining r).

Definition consistentState (state : GameState) : Prop :=
  countersOk (length (zombies state)) (wave state) (zombiesToSpawn state)
    (waveZombiesRemaining state).

(** The save file, if there is one, is a record written from a consistent
    snapshot. *)
Definition savedByGame (fs : FileSystem) : Prop :=
  match open_in fs "savegame.dat" with
  | None => True
  | Some content => exists state, content = GameState_bytes state /\ consistentState state
  end.

(** Number of zombies the loop pushed on [zombiesToDelete]. *)
Definition killed (marked : list (Zombie * bool)) : nat :=
  length (List.filter (fun zm => snd zm) marked).

(* ===================================================================== *)
(** * Concrete inputs used by the examples *)
(* ===================================================================== *)

Definition noFiles : FileSystem := {| files := ∅; denied := ∅ |}.

Definition junk : Uninit :=
  {| u_playerHealth := -7; u_score := 123456; u_startTime := S754_nan;
     u_zombieCount := 2;
     u_x := fun i => F32.of_int (3 + Z.of_nat i); u_y := fun _ => F32.of_int 4;
     u_type := fun i => 9 + Z.of_nat i;
     u_available := 1000 |}.

Definition someEnv : StartEnv :=
  {| uninit := junk; clockWeather := 1500; clockStart := 1600;
     clockRestore := 1601; clockSetType := 1602 |}.

(** A snapshot taken in wave 2 with a fast and a tank hostile alive. *)
Definition sampleState : GameState :=
  {| playerPos := {| x := F32.of_int 96; y := F32.of_int 496 |};
     playerVel := {| x := F32.lit (-8) 10; y := F32.zero |};
     playerHealth := 85;
     score := 1700;
     startTime := seconds 41250;
     isValid := true;
     zombies := [ (F32.of_int 300, F32.of_int 512, ATTACK);
                  (F32.lit 4805 10, F32.of_int 352, TANK) ];
     wave := 2;
     zombiesToSpawn := 16;
     waveZombiesRemaining := 2;
     weatherType := 1 |}.

(** The same snapshot without hostiles. *)
Definition calmState : GameState :=
  {| playerPos := playerPos sampleState; playerVel := playerVel sampleState;
     playerHealth := playerHealth sampleState; score := score sampleState;
     startTime := startTime sampleState; isValid := true; zombies := [];
     wave := wave sampleState; zombiesToSpawn := zombiesToSpawn sampleState;
     waveZombiesRemaining := 0; weatherType := weatherType sampleState |}.

(** A save file that ends after the hostile count: the first 41 bytes of the
    record of [calmState], without the four counters that follow the (empty)
    hostile list. *)
Definition truncatedSave : FileSystem :=
  {| files := {[ "savegame.dat"%string := firstn 41 (GameState_bytes calmState) ]};
     denied := ∅ |}.

(** A file of another program under the name of the save file: 64 bytes
    0xff. *)
Definition foreignSave : FileSystem :=
  {| files := {[ "savegame.dat"%string := List.repeat Byte.xff 64 ]}; denied := ∅ |}.

(** A snapshot with more hostiles than [junk] has memory for, and a save
    file that ends after its hostile count. *)
Definition crowdedState : GameState :=
  {| playerPos := playerPos sampleState; playerVel := playerVel sampleState;
     playerHealth := playerHealth sampleState; score := score sampleState;
     startTime := startTime sampleState; isValid := true;
     zombies := List.repeat (F32.of_int 300, F32.of_int 512, ATTACK) 1001;
     wave := wave sampleState; zombiesToSpawn := zombiesToSpawn sampleState;
     waveZombiesRemaining := 1001; weatherType := weatherType sampleState |}.

Definition hugeSave : FileSystem :=
  {| files := {[ "savegame.dat"%string := firstn 41 (GameState_bytes crowdedState) ]};
     denied := ∅ |}.

(** ** A duel: one fast hostile standing on an Actor who does not move *)

Definition idle (t : Z) : Input :=
  {| events := []; keyA := false; keyD := false; now := t;
     spawnRoll := {| platformDist := 0; xDist := F64.zero; typeDist := 0 |};
     foodChance := fun _ => F64.zero; foodClock := fun _ => t |}.

Definition duel : Run.t :=
  Run.set_zombies [Zombie_new (F32.of_int 100) (F32.of_int 512) 32 32 ATTACK]
    (Run.set_zombiesToSpawn 0
       (Run.set_waveZombiesRemaining 1
          (Run.set_player
             (with_onGround true
                (with_pos {| x := F32.of_int 100; y := F32.of_int 496 |} newPlayer))
             (newRun someEnv noFiles)))).

(** The runs after each of the loop iterations whose ticks read the clock
    values [clock], without events or keys. *)
Fixpoint play (clock : list Z) (r : Run.t) : list Run.t :=
  match clock with
  | [] => []
  | t :: later => let r := frame (idle t) r in r :: play later r
  end.

(** [n] clock readings, [step] milliseconds apart. *)
Definition schedule (start step : Z) (n : nat) : list Z :=
  map (fun k => start + step * Z.of_nat k) (seq 0 n).




(** Health after one application of [dmg]. *)
Definition clampedHit (hp dmg : Z) : Z :=
  let hit := Int.sub hp dmg in if hit <? 0 then 0 else hit.


(** ** Melee: what the loop body does to one hostile *)

(** The hostile, moved by its update, is inside the armed hitbox. *)
Definition struck (attacking : bool) (player : PhysicsEntity) (z : Zombie) : bool :=
  attacking &&
  SDL_HasIntersection (attackRect player) (getRect (body (Zombie_update platforms player z))).

Definition healthAfterMelee (attacking : bool) (player : PhysicsEntity) (z : Zombie) : Z :=
  if struck attacking player z then Int.sub (health (body z)) MELEE_DAMAGE
  else health (body z).

Definition slain (attacking : bool) (player : PhysicsEntity) (z : Zombie) : bool :=
  struck attacking player z && (healthAfterMelee attacking player z <=? 0).

(** A tank hostile next to an Actor who does not move. *)
Definition brawl : Run.t :=
  Run.set_zombies [Zombie_new (F32.of_int 120) (F32.of_int 512) 32 32 TANK]
    (Run.set_zombiesToSpawn 0
       (Run.set_waveZombiesRemaining 1
          (Run.set_player
             (with_onGround true
                (with_pos {| x := F32.of_int 100; y := F32.of_int 496 |} newPlayer))
             (newRun someEnv noFiles)))).

(** A loop iteration at clock [t] in which the attack key went down. *)
Definition pressF (t : Z) : Input :=
  {| events := [(SDL_KEYDOWN SDLK_f, t)]; keyA := false; keyD := false; now := t;
     spawnRoll := {| platformDist := 0; xDist := F64.zero; typeDist := 0 |};
     foodChance := fun _ => F64.zero; foodClock := fun _ => t |}.

Definition hostileHealth (r : Run.t) : list Z :=
  map (fun z => health (body z)) (Run.zombies r).

(** ** Walking into the left edge, and a hard landing *)

(** The Actor on the ground near the left edge, at full speed to the left. *)
Definition walkingLeft : PhysicsEntity :=
  with_onGround true
    (with_vel {| x := F32.opp MAX_SPEED; y := F32.zero |}
       (with_pos {| x := F32.of_int 12; y := F32.of_int 496 |} newPlayer)).

(** A loop iteration at clock [t] with the "A" key held. *)
Definition holdA (t : Z) : Input :=
  {| events := []; keyA := true; keyD := false; now := t;
     spawnRoll := {| platformDist := 2; xDist := F64.lit 1 2; typeDist := 1 |};
     foodChance := fun _ => F64.zero; foodClock := fun _ => t |}.

(** The loop [while (running)] over the given inputs. *)
Definition runLoop (inputs : list Input) (r : Run.t) : Run.t :=
  fold_left (fun r i => if Run.running r then frame i r else r) inputs r.

(** The Actor falling at 20 pixels per tick, 4 pixels above its resting height
    on the ground. *)
Definition falling : PhysicsEntity :=
  with_vel {| x := F32.zero; y := F32.of_int 20 |}
    (with_pos {| x := F32.of_int 100; y := F32.of_int 500 |} newPlayer).

Definition hardLanding : Run.t :=
  Run.set_player (PhysicsEntity_update platforms false falling) (newRun someEnv noFiles).

(** ** Pickups *)

(** Health after collecting a pickup. *)
Definition restored (hp : Z) : Z :=
  let hp := Int.add hp HEALTH_RESTORE in if 100 <? hp then 100 else hp.

(** A pickup created at clock 1000 where the Actor of [duel] stands. *)
Definition snack : Food := Food_new (F32.of_int 110) (F32.of_int 520) 16 16 1000.

(** A pickup created at clock 9000 far from the Actor of [duel]. *)
Definition farSnack : Food := Food_new (F32.of_int 600) (F32.of_int 520) 16 16 9000.

(** The Actor of [duel] alone, at health 70, with the two pickups. *)
Definition picnic : Run.t :=
  Run.set_foods [snack; farSnack]
    (Run.set_zombies []
       (Run.set_waveZombiesRemaining 0
          (Run.set_player (with_health 70 (Run.player duel)) duel))).

(** The three cases of a pickup in a pass of the food loop at [currentTime]
    with the Actor's box [playerRect]: its lifetime is over; it is collected
    (not expired, and its box after its update intersects the Actor's); it
    stays (neither). *)
Definition isExpired (currentTime : double) (food : Food) : bool :=
  F64.geb (F64.sub currentTime (spawnTime food)) LIFETIME.

Definition isTouching (playerRect : SDL_Rect.t) (food : Food) : bool :=
  SDL_HasIntersection playerRect (getRect (body (base (Food_update platforms food)))).

Definition isCollected (currentTime : double) (playerRect : SDL_Rect.t) (food : Food)
  : bool :=
  negb (isExpired currentTime food) && isTouching playerRect food.

Definition staysIn (currentTime : double) (playerRect : SDL_Rect.t) (food : Food) : bool :=
  negb (isExpired currentTime food) && negb (isTouching playerRect food).

(* ===================================================================== *)
(** * Observations used by the further properties *)
(* ===================================================================== *)
(** A high-score file cut off after two bytes. *)
Definition shortScore : FileSystem :=
  {| files := {[ "highscore.dat"%string := [Byte.x2c; Byte.x01] ]}; denied := ∅ |}.

(** A directory in which [savegame.dat] cannot be opened. *)
Definition readOnly : FileSystem :=
  {| files := ∅; denied := {[ "savegame.dat"%string ]} |}.

(** The members of a body that its updates only read: collision box, size,
    the two flags and the health. *)
Definition attributes (e : PhysicsEntity) : Vector2D * Z * Z * bool * bool * Z :=
  (col e, w e, h e, gravity e, friction e, health e).

(** [x] is a number and [lo <= x <= hi]. *)
Definition within (lo hi x : float) : bool := F32.leb lo x && F32.leb x hi.

(** A fast hostile standing on the ground, and a pickup lying on it. *)
Definition walker : Zombie := Zombie_new (F32.of_int 100) (F32.of_int 512) 32 32 ATTACK.
Definition crumb : Food := Food_new (F32.of_int 110) (F32.of_int 528) 16 16 1000.

(** What a run simulates, as opposed to its screen state, its buttons and its
    files. *)
Record World := {
  w_player : PhysicsEntity;
  w_score : Z;
  w_startTime : double;
  w_zombies : list Zombie;
  w_foods : list Food;
  w_attacking : bool;
  w_lastAttackTime : double;
  w_wave : Z;
  w_zombiesToSpawn : Z;
  w_waveZombiesRemaining : Z;
  w_weather : WeatherSystem;
  w_highScore : Z;
  w_jumping : bool
}.

Definition world (r : Run.t) : World :=
  {| w_player := Run.player r; w_score := Run.score r; w_startTime := Run.startTime r;
     w_zombies := Run.zombies r; w_foods := Run.foods r; w_attacking := Run.attacking r;
     w_lastAttackTime := Run.lastAttackTime r; w_wave := Run.wave r;
     w_zombiesToSpawn := Run.zombiesToSpawn r;
     w_waveZombiesRemaining := Run.waveZombiesRemaining r;
     w_weather := Run.weather r; w_highScore := Run.highScore r;
     w_jumping := Run.jumping r |}.

(** The run is over: lost or won. *)
Definition ended (r : Run.t) : bool :=
  match Run.gameState r with GAME_OVER | VICTORY => true | _ => false end.

(** An event that can end a pause or act on a pause-menu button. *)
Definition leavesPause (e : Event) : bool :=
  match e with
  | SDL_KEYDOWN SDLK_ESCAPE | SDL_MOUSEBUTTONUP => true
  | _ => false
  end.

(** The lost-or-fallen test of the game-over check. *)
Definition lost (r : Run.t) : bool :=
  F32.gtb (y (pos (Run.player r))) (F32.of_int SCREEN_HEIGHT) || (health (Run.player r) <=? 0).

(** The last hostile of the last wave is gone and so is the Actor's health. *)
Definition lastStand : Run.t :=
  Run.set_player (with_health 0 newPlayer)
    (Run.set_score 12500
       (Run.set_wave 5 (Run.set_zombiesToSpawn 0 (newRun someEnv noFiles)))).

(** Number of hostiles that the waves up to and including [wave_] bring. *)
Definition cumulativeQuota (wave_ : Z) : Z :=
  fold_right Z.add 0 (firstn (Z.to_nat wave_) ZOMBIES_PER_WAVE).

(** Number of hostiles removed so far, according to the wave counters. *)
Definition removedSoFar (wave_ toSpawn remaining : Z) : Z :=
  cumulativeQuota wave_ - toSpawn - remaining.

(** A hostile as the program makes them: the damage of its kind, and a
    positive health that is at most the initial health of its kind. *)
Definition hostileOk (z : Zombie) : Prop :=
  damage z = (if Type_eqb (type z) ATTACK then 5 else 10) /\
  0 < health (body z) <= (if Type_eqb (type z) ATTACK then 50 else 100).

(** The run is being played: it is neither lost nor won. *)
Definition inPlay (g : GameScreenState) : bool :=
  match g with PLAYING | PAUSED => true | _ => false end.

(** The part of the invariant that does not depend on the screen. *)
Definition ledger (sc wave_ toSpawn remaining hp : Z) : Prop :=
  sc = 100 * removedSoFar wave_ toSpawn remaining /\ 0 <= sc /\ 0 <= hp <= 100.

Record sound (r : Run.t) : Prop := {
  sound_counters : consistent r;
  sound_ledger : ledger (Run.score r) (Run.wave r) (Run.zombiesToSpawn r)
                   (Run.waveZombiesRemaining r) (health (Run.player r));
  sound_hostiles : Forall hostileOk (Run.zombies r);
  sound_inPlay : inPlay (Run.gameState r) = true -> 0 < health (Run.player r);
  sound_victory : Run.gameState r = VICTORY ->
                  Run.wave r = TOTAL_WAVES /\ Run.zombiesToSpawn r = 0 /\
                  Run.waveZombiesRemaining r = 0;
  sound_game_over : Run.gameState r = GAME_OVER -> lost r = true
}.

Record soundState (state : GameState) : Prop := {
  soundState_counters : consistentState state;
  soundState_ledger : ledger (score state) (wave state) (zombiesToSpawn state)
                        (waveZombiesRemaining state) (playerHealth state);
  soundState_health : 0 < playerHealth state
}.

(** The save file, if there is one, was written from a sound run in play. *)
Definition savedSound (fs : FileSystem) : Prop :=
  match open_in fs "savegame.dat" with
  | None => True
  | Some content => exists state, content = GameState_bytes state /\ soundState state
  end.

(** The high score in memory is the one in the file. *)
Definition highScoreStored (r : Run.t) : Prop :=
  Run.highScore r = loadHighScore "highscore.dat" (Run.disk r).

(** The invariant of a run inside a tick, where the screen is [PLAYING]. *)
Definition coreRun (r : Run.t) : Prop :=
  consistent r /\
  ledger (Run.score r) (Run.wave r) (Run.zombiesToSpawn r) (Run.waveZombiesRemaining r)
    (health (Run.player r)) /\
  Forall hostileOk (Run.zombies r).

(** The run [duel], paused, with the Save button held down. *)
Definition savingDuel : Run.t :=
  Run.set_saveState PRESSED (Run.set_gameState PAUSED duel).

(** ** Two complete runs

    A new game in which tanks spawn on the Actor, one loop iteration per
    second, nothing pressed: the run is lost in the twelfth iteration. *)
Definition siege (t : Z) : Input :=
  {| events := []; keyA := false; keyD := false; now := t;
     spawnRoll := {| platformDist := 1; xDist := F64.lit 15 100; typeDist := 1 |};
     foodChance := fun _ => F64.zero; foodClock := fun _ => t |}.

Definition overrun : Run.t :=
  runLoop (map siege (schedule 1000 1000 12)) (newGame someEnv noFiles).

(** A new game in which fast hostiles spawn next to the Actor and the attack
    key goes down in every loop iteration, 600 ms apart: the run is won in
    iteration 132. *)
Definition sweep (t : Z) : Input :=
  {| events := [(SDL_KEYDOWN SDLK_f, t)]; keyA := false; keyD := false; now := t;
     spawnRoll := {| platformDist := 1; xDist := F64.lit 15 100; typeDist := 0 |};
     foodChance := fun _ => F64.zero; foodClock := fun _ => t |}.

Definition conquest : Run.t :=
  runLoop (map sweep (schedule 1000 600 132)) (newGame someEnv noFiles).

(* ===================================================================== *)
(** * The menu program ([startgame.cpp]) and the call of [RunMainGame] *)
(* ===================================================================== *)

(** The character [' ']. *)
Definition space : Ascii.ascii :=
  Ascii.Ascii false false false false false true false false.

(** [text.empty() || text.find_first_not_of(' ') == npos]: the test with
    which both [renderText] functions refuse a text. *)
Fixpoint blank (text : string) : bool :=
  match text with
  | EmptyString => true
  | String c rest => Ascii.eqb c space && blank rest
  end.

(** Which of the resources that [RunMainGame] loads before its loop are
    there: the font, the two weather textures, the textures of the game
    elements and of the animations, and whether SDL_ttf renders a text that
    is not blank. *)
Record Resources := {
  fontLoaded : bool;
  weatherLoaded : bool;
  texturesLoaded : bool;
  textRendered : bool
}.

(** The loop [while (running)] until it ends; [None] when the inputs supplied
    are used up while the run is still going. *)
Fixpoint playLoop (inputs : list Input) (r : Run.t) : option Run.t :=
  match inputs with
  | [] => if Run.running r then None else Some r
  | i :: later => if Run.running r then playLoop later (frame i r) else Some r
  end.

(** [RunMainGame]: the exit status and the files it leaves, or the exception
    that leaves it; [None] when the inputs supplied are used up before the
    loop ends.  The name is used for one thing only, the texture [nameText];
    a name that [renderText] refuses makes the function return before its
    loop, after the saved state has been loaded. *)
Definition RunMainGame (playerName : string) (loadSaved : bool) (res : Resources)
    (env : StartEnv) (inputs : list Input) (fs : FileSystem)
  : option (Outcome (Z * FileSystem)) :=
  if negb (fontLoaded res) then Some (Returned (0, fs))
  else if negb (weatherLoaded res) then Some (Returned (0, fs))
  else if negb (texturesLoaded res) then Some (Returned (1, fs))
  else
    match startRun loadSaved env fs with
    | Thrown e => Some (Thrown e)
    | Returned r =>
        if negb (textRendered res) || blank playerName then Some (Returned (0, Run.disk r))
        else
          match playLoop inputs r with
          | Some r =>
              Some (Returned (match Run.gameState r with GAME_OVER => 0 | _ => 1 end,
                              Run.disk r))
          | None => None
          end
    end.

(** [hasSavedGame] of [startgame.cpp]. *)
Definition hasSavedGame (fs : FileSystem) : bool :=
  match open_in fs "savegame.dat" with
  | Some _ => true
  | None => false
  end.

Definition MAX_NAME_LENGTH : nat := 10.

Inductive ScreenState := MENU | INSTRUCTION | START_GAME | ENTER_NAME.

(** One call of [RunMainGame] by the menu: the arguments and the status
    returned. *)
Record Call := {
  c_playerName : string;
  c_loadSaved : bool;
  c_exitStatus : Z
}.

(** What a call of [RunMainGame] would meet if the menu made one now: the
    resources, the clocks and the player's inputs. *)
Record Session := {
  resources : Resources;
  startEnv : StartEnv;
  inputs : list Input
}.

Module Menu.

Inductive Key := SDLK_BACKSPACE | SDLK_RETURN | SDLK_other.

Inductive Event :=
  | SDL_QUIT
  | SDL_MOUSEMOTION (mx my : Z)
  | SDL_MOUSEBUTTONDOWN
  | SDL_MOUSEBUTTONUP
  | SDL_TEXTINPUT (text : string)
  | SDL_KEYDOWN (sym : Key)
  | SDL_OTHER.

(** The local variables of [main] that outlive one loop iteration, the file
    system, and [calls]: the calls of [RunMainGame] made so far, newest
    first, which the program does not store and the statements refer to. *)
Record t := {
  screenState : ScreenState;
  startState : ButtonState;
  continueState : ButtonState;
  instructionState : ButtonState;
  backState : ButtonState;
  newGameState : ButtonState;
  playerName : string;
  showWarning : bool;
  isGameOver : bool;
  hasSaved : bool;
  running : bool;
  disk : FileSystem;
  calls : list Call
}.

Definition set_screenState (v : ScreenState) (m : t) : t :=
  {| screenState := v;
     startState := startState m;
     continueState := continueState m;
     instructionState := instructionState m;
     backState := backState m;
     newGameState := newGameState m;
     playerName := playerName m;
     showWarning := showWarning m;
     isGameOver := isGameOver m;
     hasSaved := hasSaved m;
     running := running m;
     disk := disk m;
     calls := calls m |}.
Definition set_startState (v : ButtonState) (m : t) : t :=
  {| screenState := screenState m;
     startState := v;
     continueState := continueState m;
     instructionState := instructionState m;
     backState := backState m;
     newGameState := newGameState m;
     playerName := playerName m;
     showWarning := showWarning m;
     isGameOver := isGameOver m;
     hasSaved := hasSaved m;
     running := running m;
     disk := disk m;
     calls := calls m |}.
Definition set_continueState (v : ButtonState) (m : t) : t :=
  {| screenState := screenState m;
     startState := startState m;
     continueState := v;
     instructionState := instructionState m;
     backState := backState m;
     newGameState := newGameState m;
     playerName := playerName m;
     showWarning := showWarning m;
     isGameOver := isGameOver m;
     hasSaved := hasSaved m;
     running := running m;
     disk := disk m;
     calls := calls m |}.
Definition set_instructionState (v : ButtonState) (m : t) : t :=
  {| screenState := screenState m;
     startState := startState m;
     continueState := continueState m;
     instructionState := v;
     backState := backState m;
     newGameState := newGameState m;
     playerName := playerName m;
     showWarning := showWarning m;
     isGameOver := isGameOver m;
     hasSaved := hasSaved m;
     running := running m;
     disk := disk m;
     calls := calls m |}.
Definition set_backState (v : ButtonState) (m : t) : t :=
  {| screenState := screenState m;
     startState := startState m;
     continueState := continueState m;
     instructionState := instructionState m;
     backState := v;
     newGameState := newGameState m;
     playerName := playerName m;
     showWarning := showWarning m;
     isGameOver := isGameOver m;
     hasSaved := hasSaved m;
     running := running m;
     disk := disk m;
     calls := calls m |}.
Definition set_newGameState (v : ButtonState) (m : t) : t :=
  {| screenState := screenState m;
     startState := startState m;
     continueState := continueState m;
     instructionState := instructionState m;
     backState := backState m;
     newGameState := v;
     playerName := playerName m;
     showWarning := showWarning m;
     isGameOver := isGameOver m;
     hasSaved := hasSaved m;
     running := running m;
     disk := disk m;
     calls := calls m |}.
Definition set_playerName (v : string) (m : t) : t :=
  {| screenState := screenState m;
     startState := startState m;
     continueState := continueState m;
     instructionState := instructionState m;
     backState := backState m;
     newGameState := newGameState m;
     playerName := v;
     showWarning := showWarning m;
     isGameOver := isGameOver m;
     hasSaved := hasSaved m;
     running := running m;
     disk := disk m;
     calls := calls m |}.
Definition set_showWarning (v : bool) (m : t) : t :=
  {| screenState := screenState m;
     startState := startState m;
     continueState := continueState m;
     instructionState := instructionState m;
     backState := backState m;
     newGameState := newGameState m;
     playerName := playerName m;
     showWarning := v;
     isGameOver := isGameOver m;
     hasSaved := hasSaved m;
     running := running m;
     disk := disk m;
     calls := calls m |}.
Definition set_isGameOver (v : bool) (m : t) : t :=
  {| screenState := screenState m;
     startState := startState m;
     continueState := continueState m;
     instructionState := instructionState m;
     backState := backState m;
     newGameState := newGameState m;
     playerName := playerName m;
     showWarning := showWarning m;
     isGameOver := v;
     hasSaved := hasSaved m;
     running := running m;
     disk := disk m;
     calls := calls m |}.
Definition set_hasSaved (v : bool) (m : t) : t :=
  {| screenState := screenState m;
     startState := startState m;
     continueState := continueState m;
     instructionState := instructionState m;
     backState := backState m;
     newGameState := newGameState m;
     playerName := playerName m;
     showWarning := showWarning m;
     isGameOver := isGameOver m;
     hasSaved := v;
     running := running m;
     disk := disk m;
     calls := calls m |}.
Definition set_running (v : bool) (m : t) : t :=
  {| screenState := screenState m;
     startState := startState m;
     continueState := continueState m;
     instructionState := instructionState m;
     backState := backState m;
     newGameState := newGameState m;
     playerName := playerName m;
     showWarning := showWarning m;
     isGameOver := isGameOver m;
     hasSaved := hasSaved m;
     running := v;
     disk := disk m;
     calls := calls m |}.
Definition set_disk (v : FileSystem) (m : t) : t :=
  {| screenState := screenState m;
     startState := startState m;
     continueState := continueState m;
     instructionState := instructionState m;
     backState := backState m;
     newGameState := newGameState m;
     playerName := playerName m;
     showWarning := showWarning m;
     isGameOver := isGameOver m;
     hasSaved := hasSaved m;
     running := running m;
     disk := v;
     calls := calls m |}.
Definition set_calls (v : list Call) (m : t) : t :=
  {| screenState := screenState m;
     startState := startState m;
     continueState := continueState m;
     instructionState := instructionState m;
     backState := backState m;
     newGameState := newGameState m;
     playerName := playerName m;
     showWarning := showWarning m;
     isGameOver := isGameOver m;
     hasSaved := hasSaved m;
     running := running m;
     disk := disk m;
     calls := v |}.

Definition startRect : SDL_Rect.t :=
  {| SDL_Rect.x := 300; SDL_Rect.y := 250; SDL_Rect.w := 200; SDL_Rect.h := 50 |}.
Definition continueRect : SDL_Rect.t :=
  {| SDL_Rect.x := 300; SDL_Rect.y := 330; SDL_Rect.w := 200; SDL_Rect.h := 50 |}.
Definition instructionRect : SDL_Rect.t :=
  {| SDL_Rect.x := 300; SDL_Rect.y := 330; SDL_Rect.w := 200; SDL_Rect.h := 50 |}.
Definition backRect : SDL_Rect.t :=
  {| SDL_Rect.x := Int.sub SCREEN_WIDTH 220; SDL_Rect.y := Int.sub SCREEN_HEIGHT 70;
     SDL_Rect.w := 200; SDL_Rect.h := 50 |}.
Definition newGameRect : SDL_Rect.t :=
  {| SDL_Rect.x := 300; SDL_Rect.y := 250; SDL_Rect.w := 200; SDL_Rect.h := 50 |}.

(** The state of [main] when it enters its loop. *)
Definition initial (fs : FileSystem) : t :=
  {| screenState := MENU;
     startState := NORMAL; continueState := NORMAL; instructionState := NORMAL;
     backState := NORMAL; newGameState := NORMAL;
     playerName := ""; showWarning := false; isGameOver := true;
     hasSaved := hasSavedGame fs; running := true; disk := fs; calls := [] |}.

Definition ScreenState_eqb (a b : ScreenState) : bool :=
  match a, b with
  | MENU, MENU | INSTRUCTION, INSTRUCTION | START_GAME, START_GAME
  | ENTER_NAME, ENTER_NAME => true
  | _, _ => false
  end.

(** [playerName.pop_back()]. *)
Definition pop_back (s : string) : string := substring 0 (String.length s - 1) s.

(** The call [RunMainGame(playerName, loadSaved, window, renderer)] and the
    three assignments that follow it in both places.  [None] when the call
    does not return to the menu: the inputs are used up before the run ends,
    or an exception leaves [RunMainGame]; [main] catches none, so the program
    ends there. *)
Definition play (loadSaved : bool) (s : Session) (m : t) : option t :=
  match RunMainGame (playerName m) loadSaved (resources s) (startEnv s) (inputs s) (disk m) with
  | Some (Returned (exitStatus, fs)) =>
      Some (set_isGameOver (exitStatus =? 0)
              (set_screenState MENU
                 (set_disk fs
                    (set_calls ({| c_playerName := playerName m; c_loadSaved := loadSaved;
                                   c_exitStatus := exitStatus |} :: calls m) m))))
  | _ => None
  end.

(** One iteration of [while (SDL_PollEvent(&event))]; [s] is the session the
    event would start. *)
Definition handleEvent (e : Event) (s : Session) (m : t) : option t :=
  let shows scr := ScreenState_eqb (screenState m) scr in
  match e with
  | SDL_QUIT => Some (set_running false m)
  | SDL_MOUSEMOTION mx my =>
      match screenState m with
      | MENU =>
          Some (set_instructionState (hover instructionRect mx my)
                  (set_startState (hover startRect mx my) m))
      | INSTRUCTION => Some (set_backState (hover backRect mx my) m)
      | START_GAME =>
          let m := set_newGameState (hover newGameRect mx my) m in
          let m := if hasSaved m then set_continueState (hover continueRect mx my) m
                   else set_continueState NORMAL m in
          Some (set_backState (hover backRect mx my) m)
      | ENTER_NAME => Some m
      end
  | SDL_MOUSEBUTTONDOWN =>
      if shows MENU && ButtonState_eqb (startState m) HOVERED
      then Some (set_startState PRESSED m)
      else if shows MENU && ButtonState_eqb (instructionState m) HOVERED
      then Some (set_instructionState PRESSED m)
      else if shows INSTRUCTION && ButtonState_eqb (backState m) HOVERED
      then Some (set_backState PRESSED m)
      else if shows START_GAME && ButtonState_eqb (newGameState m) HOVERED
      then Some (set_newGameState PRESSED m)
      else if shows START_GAME && ButtonState_eqb (continueState m) HOVERED && hasSaved m
      then Some (set_continueState PRESSED m)
      else if shows START_GAME && ButtonState_eqb (backState m) HOVERED
      then Some (set_backState PRESSED m)
      else Some m
  | SDL_MOUSEBUTTONUP =>
      if shows MENU && ButtonState_eqb (startState m) PRESSED
      then Some (set_startState NORMAL (set_screenState START_GAME m))
      else if shows MENU && ButtonState_eqb (instructionState m) PRESSED
      then Some (set_instructionState NORMAL (set_screenState INSTRUCTION m))
      else if shows INSTRUCTION && ButtonState_eqb (backState m) PRESSED
      then Some (set_backState NORMAL (set_screenState MENU m))
      else if shows START_GAME && ButtonState_eqb (newGameState m) PRESSED
      then Some (set_newGameState NORMAL
                   (set_isGameOver false
                      (set_showWarning false
                         (set_playerName "" (set_screenState ENTER_NAME m)))))
      else if shows START_GAME && ButtonState_eqb (continueState m) PRESSED && hasSaved m
      then option_map (set_continueState NORMAL) (play true s m)
      else if shows START_GAME && ButtonState_eqb (backState m) PRESSED
      then Some (set_backState NORMAL (set_screenState MENU m))
      else Some m
  | SDL_TEXTINPUT text =>
      if shows ENTER_NAME then
        if (String.length (playerName m) <? MAX_NAME_LENGTH)%nat
        then Some (set_showWarning false (set_playerName (String.append (playerName m) text) m))
        else Some (set_showWarning true m)
      else Some m
  | SDL_KEYDOWN sym =>
      if shows ENTER_NAME then
        match sym with
        | SDLK_BACKSPACE =>
            if negb (String.eqb (playerName m) "")
            then Some (set_showWarning false (set_playerName (pop_back (playerName m)) m))
            else Some m
        | SDLK_RETURN =>
            if negb (String.eqb (playerName m) "")
            then option_map (set_showWarning false) (play false s m)
            else Some m
        | SDLK_other => Some m
        end
      else Some m
  | SDL_OTHER => Some m
  end.

(** [while (SDL_PollEvent(&event))]. *)
Fixpoint pollEvents (evs : list (Event * Session)) (m : t) : option t :=
  match evs with
  | [] => Some m
  | (e, s) :: later =>
      match handleEvent e s m with
      | Some m => pollEvents later m
      | None => None
      end
  end.

(** One iteration of [while (running)]: the save-availability update and
    the events.  ([window] and [renderer] are never assigned in the loop, so
    the check on them after the events does nothing.) *)
Definition iteration (evs : list (Event * Session)) (m : t) : option t :=
  let m := set_hasSaved (hasSavedGame (disk m) && negb (isGameOver m)) m in
  pollEvents evs m.

(** The loop [while (running)] over the events of its iterations. *)
Fixpoint loop (iterations : list (list (Event * Session))) (m : t) : option t :=
  match iterations with
  | [] => Some m
  | evs :: later =>
      if running m then
        match iteration evs m with
        | Some m => loop later m
        | None => None
        end
      else Some m
  end.

End Menu.

(** The invariant of the menu, for text events of at most [k] characters. *)
Record menuOk (k : nat) (m : Menu.t) : Prop := {
  ok_calls : Forall (fun c => c_playerName c <> ""%string /\
                              (String.length (c_playerName c) <= 9 + k)%nat)
               (Menu.calls m);
  ok_name : (String.length (Menu.playerName m) <= 9 + k)%nat;
  ok_named : Menu.screenState m <> ENTER_NAME -> Menu.calls m <> [] ->
             Menu.playerName m <> ""%string;
  ok_fresh : Menu.calls m = [] -> Menu.screenState m <> ENTER_NAME ->
             Menu.hasSaved m = false /\ Menu.isGameOver m = true;
  ok_first : forall c, List.last (map Some (Menu.calls m)) None = Some c ->
             c_loadSaved c = false
}.

(** The text events of an iteration carry at most [k] characters each. *)
Definition shortTexts (k : nat) (evs : list (Menu.Event * Session)) : Prop :=
  Forall (fun es => match fst es with
                    | Menu.SDL_TEXTINPUT text => (String.length text <= k)%nat
                    | _ => True
                    end) evs.

(** All resources of [RunMainGame] are there. *)
Definition allLoaded : Resources :=
  {| fontLoaded := true; weatherLoaded := true; texturesLoaded := true;
     textRendered := true |}.

(** A session in which the window is closed at once. *)
Definition quitAtOnce : Session :=
  {| resources := allLoaded; startEnv := someEnv;
     inputs := [ {| events := [(SDL_QUIT, 2000)]; keyA := false; keyD := false;
                    now := 2000;
                    spawnRoll := {| platformDist := 0; xDist := F64.zero; typeDist := 0 |};
                    foodChance := fun _ => F64.zero; foodClock := fun _ => 2000 |} ] |}.

(** ** Sessions at the menu *)

Definition click (mx my : Z) (s : Session) : list (Menu.Event * Session) :=
  [ (Menu.SDL_MOUSEMOTION mx my, s); (Menu.SDL_MOUSEBUTTONDOWN, s);
    (Menu.SDL_MOUSEBUTTONUP, s) ].

(** Start Game, New Game, the name "A" and Return, in three iterations; the
    window of the game is closed at once. *)
Definition firstGame : list (list (Menu.Event * Session)) :=
  [ click 400 270 quitAtOnce;
    click 400 270 quitAtOnce;
    [ (Menu.SDL_TEXTINPUT "A", quitAtOnce);
      (Menu.SDL_KEYDOWN Menu.SDLK_RETURN, quitAtOnce) ] ].

(** A loop iteration of the game in which the pointer moves to (400, 380)
    and the button is pressed and released there: the Back button of a lost or
    won game. *)
Definition clickBack (t : Z) : Input :=
  {| events := [ (SDL_MOUSEMOTION 400 380, t); (SDL_MOUSEBUTTONDOWN, t);
                 (SDL_MOUSEBUTTONUP, t) ];
     keyA := false; keyD := false; now := t;
     spawnRoll := {| platformDist := 0; xDist := F64.zero; typeDist := 0 |};
     foodChance := fun _ => F64.zero; foodClock := fun _ => t |}.

(** The session of [overrun], left by the Back button. *)
Definition lostGame : Session :=
  {| resources := allLoaded; startEnv := someEnv;
     inputs := map siege (schedule 1000 1000 12) ++ [clickBack 13000] |}.

(** A disk holding the game saved from [savingDuel]. *)
Definition savedDisk : FileSystem :=
  Run.disk (handleEvent SDL_MOUSEBUTTONUP 7000 savingDuel).

(** With a save file from an earlier session: Start Game and New Game, then
    in one iteration the name "A" and Return, a game that is lost, and at
    once Start Game and Continue. *)
Definition hastyContinue : list (list (Menu.Event * Session)) :=
  [ click 400 270 quitAtOnce;
    click 400 270 quitAtOnce;
    [ (Menu.SDL_TEXTINPUT "A", quitAtOnce);
      (Menu.SDL_KEYDOWN Menu.SDLK_RETURN, lostGame) ] ++
    click 400 270 quitAtOnce ++ click 400 350 quitAtOnce ].

(** The menu on the Start Game screen with the Continue button held down,
    after a game named "A" that was not lost. *)
Definition aboutToContinue : Menu.t :=
  Menu.set_continueState PRESSED
    (Menu.set_screenState START_GAME
       (Menu.set_isGameOver false (Menu.set_playerName "A" (Menu.initial savedDisk)))).

(** The menu asking for a name, with two spaces typed. *)
Definition spacesTyped : Menu.t :=
  Menu.set_playerName "  " (Menu.set_screenState ENTER_NAME (Menu.initial noFiles)).

(** A mouse click at (mx, my): the pointer moves there, the button goes down
    and up; the three events are handled at clock [now]. *)
Definition clickAt (mx my now : Z) (r : Run.t) : Run.t :=
  handleEvent SDL_MOUSEBUTTONUP now
    (handleEvent SDL_MOUSEBUTTONDOWN now (handleEvent (SDL_MOUSEMOTION mx my) now r)).

(** The three button states of the pause menu. *)
Definition pauseButtons (r : Run.t) : ButtonState * ButtonState * ButtonState :=
  (Run.resumeState r, Run.saveState r, Run.menuState r).

(* ===================================================================== *)
(** * Lemmas *)
(* ===================================================================== *)

Lemma Z_of_byte_of_Z z : Z_of_byte (byte_of_Z z) = z mod 256.
Proof.
  unfold Z_of_byte, byte_of_Z.
  assert (Hr : 0 <= z mod 256 < 256) by (apply Z.mod_pos_bound; lia).
  destruct (Byte.of_N (Z.to_N (z mod 256))) as [b|] eqn:E.
  - apply Byte.to_of_N in E. rewrite E. lia.
  - apply Byte.of_N_None_iff in E. lia.
Qed.

Lemma Z_of_byte_range b : 0 <= Z_of_byte b < 256.
Proof.
  unfold Z_of_byte. pose proof (Byte.to_N_bounded b). lia.
Qed.

Lemma le_bytes_length n z : length (le_bytes n z) = n.
Proof. revert z. induction n; intros z; simpl; [reflexivity | now rewrite IHn]. Qed.

Lemma le_value_le_bytes n z : le_value (le_bytes n z) = z mod 256 ^ Z.of_nat n.
Proof.
  revert z. induction n as [|n IH]; intros z.
  - simpl. now rewrite Z.mod_1_r.
  - cbn [le_bytes le_value]. rewrite Z_of_byte_of_Z, IH.
    rewrite Nat2Z.inj_succ, Z.pow_succ_r by lia.
    rewrite Z.rem_mul_r by lia. reflexivity.
Qed.

(** ** IEEE-754 layout: decoding undoes encoding *)

Lemma digits2_pos_bounds m :
  2 ^ (Zpos (digits2_pos m) - 1) <= Zpos m < 2 ^ Zpos (digits2_pos m).
Proof.
  induction m as [p IH|p IH|]; cbn [digits2_pos].
  - rewrite Pos2Z.inj_succ, Z.pow_succ_r by lia.
    replace (Z.succ (Zpos (digits2_pos p)) - 1) with (Z.succ (Zpos (digits2_pos p) - 1)) by lia.
    rewrite Z.pow_succ_r by lia. lia.
  - rewrite Pos2Z.inj_succ, Z.pow_succ_r by lia.
    replace (Z.succ (Zpos (digits2_pos p)) - 1) with (Z.succ (Zpos (digits2_pos p) - 1)) by lia.
    rewrite Z.pow_succ_r by lia. lia.
  - simpl. lia.
Qed.

Section LayoutRoundTrip.
Variables mw ew : Z.
Hypothesis Hmw : 0 < mw.
Hypothesis Hew : 0 < ew.

Local Abbreviation M := (2 ^ mw).
Local Abbreviation X := (2 ^ ew).

Lemma layout_M_pos : 0 < M.
Proof using Hmw. apply Z.pow_pos_nonneg; lia. Qed.

Lemma layout_X_emax : X = 2 * IEEE754.emax ew /\ 0 < IEEE754.emax ew.
Proof using Hew.
    unfold IEEE754.emax. split.
    - replace ew with (Z.succ (ew - 1)) at 1 by lia. rewrite Z.pow_succ_r by lia. reflexivity.
    - apply Z.pow_pos_nonneg; lia.
Qed.

Lemma unpack_frac s biased frac :
    0 <= frac < M -> IEEE754.pack mw ew s biased frac mod M = frac.
Proof using Hmw.
    intros H. unfold IEEE754.pack.
    rewrite Z.add_comm, Z.mod_add by lia. apply Z.mod_small; lia.
Qed.

Lemma unpack_high s biased frac :
    0 <= frac < M ->
    IEEE754.pack mw ew s biased frac / M = (if s then X else 0) + biased.
Proof using Hmw.
    intros H. unfold IEEE754.pack.
    rewrite Z.add_comm, Z.div_add by lia. rewrite Z.div_small by lia. lia.
Qed.

Lemma unpack_biased (s : bool) biased :
    0 <= biased < X -> ((if s then X else 0) + biased) mod X = biased.
Proof using Hew.
    intros H. pose proof layout_X_emax as [HX He].
    destruct s.
    - replace (2 ^ ew + biased) with (biased + 1 * 2 ^ ew) by lia.
      rewrite Z.mod_add by lia. apply Z.mod_small; lia.
    - apply Z.mod_small; lia.
Qed.

Lemma unpack_sign (s : bool) biased :
    0 <= biased < X -> (0 <? ((if s then X else 0) + biased) / X) = s.
Proof using Hew.
    intros H. pose proof layout_X_emax as [HX He].
    destruct s.
    - replace (2 ^ ew + biased) with (biased + 1 * 2 ^ ew) by lia.
      rewrite Z.div_add by lia. rewrite Z.div_small by lia. reflexivity.
    - rewrite Z.div_small by lia. reflexivity.
Qed.

Lemma of_bits_pack s biased frac :
    0 <= frac < M -> 0 <= biased < X ->
    IEEE754.of_bits mw ew (IEEE754.pack mw ew s biased frac) =
      if biased =? 0 then
        match frac with
        | Zpos p => S754_finite s p (IEEE754.emin mw ew)
        | _ => S754_zero s
        end
      else if biased =? X - 1 then
        if frac =? 0 then S754_infinity s else S754_nan
      else
        match frac + M with
        | Zpos p => S754_finite s p (biased + IEEE754.emin mw ew - 1)
        | _ => S754_nan
        end.
Proof using Hmw Hew.
    intros Hf Hb. unfold IEEE754.of_bits.
    rewrite unpack_frac, unpack_high by assumption.
    rewrite unpack_biased, unpack_sign by assumption.
    reflexivity.
Qed.

  (** A canonical significand is either normal (exactly [mw + 1] digits) or
      subnormal (at most [mw] digits, minimal exponent). *)
Lemma bounded_cases m e :
    bounded (IEEE754.prec mw) (IEEE754.emax ew) m e = true ->
    (M <= Zpos m < 2 * M /\
       IEEE754.emin mw ew <= e <= IEEE754.emax ew - IEEE754.prec mw) \/
    (Zpos m < M /\ e = IEEE754.emin mw ew).
Proof using Hmw Hew.
    unfold bounded, canonical_mantissa, fexp.
    intros H. apply andb_prop in H as [Hc Hle].
    apply Z.eqb_eq in Hc. apply Z.leb_le in Hle.
    fold (IEEE754.emin mw ew) in Hc.
    change (SpecFloat.emin (IEEE754.prec mw) (IEEE754.emax ew))
      with (IEEE754.emin mw ew) in Hc.
    pose proof (digits2_pos_bounds m) as [Hlo Hhi].
    set (d := Zpos (digits2_pos m)) in *.
    unfold IEEE754.prec in *.
    destruct (Z_le_gt_dec (IEEE754.emin mw ew) (d + e - (mw + 1))) as [Hn|Hs].
    - left. rewrite Z.max_l in Hc by lia.
      assert (d = mw + 1) as Hd by lia.
      rewrite Hd in Hlo, Hhi.
      replace (mw + 1 - 1) with mw in Hlo by lia.
      replace (mw + 1) with (Z.succ mw) in Hhi by lia.
      rewrite Z.pow_succ_r in Hhi by lia. lia.
    - right. rewrite Z.max_r in Hc by lia.
      assert (d <= mw) as Hd by lia.
      assert (2 ^ d <= M) by (apply Z.pow_le_mono_r; lia).
      lia.
Qed.

Lemma of_bits_to_bits x :
    valid_binary (IEEE754.prec mw) (IEEE754.emax ew) x = true ->
    IEEE754.of_bits mw ew (IEEE754.to_bits mw ew x) = x.
Proof using Hmw Hew.
    pose proof layout_M_pos as HM. pose proof layout_X_emax as [HX He].
    destruct x as [s|s| |s m e]; cbn [valid_binary IEEE754.to_bits]; intros Hv.
    - rewrite of_bits_pack by lia. reflexivity.
    - rewrite of_bits_pack by lia.
      destruct (X - 1 =? 0) eqn:E0; [apply Z.eqb_eq in E0; lia|].
      now rewrite Z.eqb_refl.
    - assert (0 < 2 ^ (mw - 1) < M) as Hq.
      { split; [apply Z.pow_pos_nonneg; lia | apply Z.pow_lt_mono_r; lia]. }
      rewrite of_bits_pack by lia.
      destruct (X - 1 =? 0) eqn:E0; [apply Z.eqb_eq in E0; lia|].
      rewrite Z.eqb_refl.
      destruct (2 ^ (mw - 1) =? 0) eqn:E1; [apply Z.eqb_eq in E1; lia | reflexivity].
    - apply bounded_cases in Hv as [[Hm Hr]|[Hm ->]].
      + destruct (M <=? Zpos m) eqn:Hc; [|apply Z.leb_gt in Hc; lia].
        unfold IEEE754.emin, IEEE754.prec in *.
        rewrite of_bits_pack by lia.
        fold (IEEE754.emin mw ew).
        destruct (e - (3 - IEEE754.emax ew - (mw + 1)) + 1 =? 0) eqn:E0;
          [apply Z.eqb_eq in E0; lia|].
        destruct (e - (3 - IEEE754.emax ew - (mw + 1)) + 1 =? X - 1) eqn:E1;
          [apply Z.eqb_eq in E1; lia|].
        replace (Zpos m - M + M) with (Zpos m) by lia.
        f_equal. unfold IEEE754.emin, IEEE754.prec. lia.
      + destruct (M <=? Zpos m) eqn:Hc; [apply Z.leb_le in Hc; lia|].
        rewrite of_bits_pack by lia. reflexivity.
Qed.

Lemma pack_range s biased frac :
    0 <= frac < M -> 0 <= biased < X ->
    0 <= IEEE754.pack mw ew s biased frac < 2 * X * M.
Proof using Hmw Hew.
    intros Hf Hb. unfold IEEE754.pack.
    pose proof layout_M_pos as HM. pose proof layout_X_emax as [HX He].
    destruct s; nia.
Qed.

Lemma to_bits_range x :
    valid_binary (IEEE754.prec mw) (IEEE754.emax ew) x = true ->
    0 <= IEEE754.to_bits mw ew x < 2 * X * M.
Proof using Hmw Hew.
    pose proof layout_M_pos as HM. pose proof layout_X_emax as [HX He].
    destruct x as [s|s| |s m e]; cbn [valid_binary IEEE754.to_bits]; intros Hv.
    - apply pack_range; lia.
    - apply pack_range; lia.
    - assert (0 < 2 ^ (mw - 1) < M) as Hq.
      { split; [apply Z.pow_pos_nonneg; lia | apply Z.pow_lt_mono_r; lia]. }
      apply pack_range; lia.
    - apply bounded_cases in Hv as [[Hm Hr]|[Hm ->]].
      + destruct (M <=? Zpos m) eqn:Hc; [|apply Z.leb_gt in Hc; lia].
        unfold IEEE754.emin, IEEE754.prec in *. apply pack_range; lia.
      + destruct (M <=? Zpos m) eqn:Hc; [apply Z.leb_le in Hc; lia|].
        apply pack_range; lia.
Qed.
End LayoutRoundTrip.

Lemma float_of_bits_to_bits x : F32.valid x = true -> F32.of_bits (F32.to_bits x) = x.
Proof. apply (of_bits_to_bits 23 8); lia. Qed.

Lemma double_of_bits_to_bits x : F64.valid x = true -> F64.of_bits (F64.to_bits x) = x.
Proof. apply (of_bits_to_bits 52 11); lia. Qed.

Lemma float_to_bits_range x : F32.valid x = true -> 0 <= F32.to_bits x < 2 ^ 32.
Proof. intros H. apply (to_bits_range 23 8) in H; [exact H | lia | lia]. Qed.

Lemma double_to_bits_range x : F64.valid x = true -> 0 <= F64.to_bits x < 2 ^ 64.
Proof. intros H. apply (to_bits_range 52 11) in H; [exact H | lia | lia]. Qed.

(** ** Object representations: decoding undoes encoding *)

Lemma wrap_small z : Int.in_range z -> Int.wrap z = z.
Proof.
  unfold Int.in_range, Int.MIN, Int.MAX, Int.wrap. intros H.
  rewrite Z.mod_small; lia.
Qed.

Lemma wrap_in_range z : Int.in_range (Int.wrap z).
Proof.
  unfold Int.in_range, Int.MIN, Int.MAX, Int.wrap.
  pose proof (Z.mod_pos_bound (z + 2 ^ 31) (2 ^ 32)). lia.
Qed.

Lemma int_of_bytes_int_bytes z : Int.in_range z -> int_of_bytes (int_bytes z) = z.
Proof.
  intros H. unfold int_of_bytes, int_bytes. rewrite le_value_le_bytes.
  unfold Int.in_range, Int.MIN, Int.MAX, Int.wrap in *.
  change (256 ^ Z.of_nat 4) with (2 ^ 32).
  rewrite Zplus_mod_idemp_l. rewrite Z.mod_small; lia.
Qed.

Lemma int_of_bytes_in_range bs : Int.in_range (int_of_bytes bs).
Proof. apply wrap_in_range. Qed.

Lemma size_t_of_bytes_size_t_bytes z :
  0 <= z < 2 ^ 64 -> size_t_of_bytes (size_t_bytes z) = z.
Proof.
  intros H. unfold size_t_of_bytes, size_t_bytes. rewrite le_value_le_bytes.
  change (256 ^ Z.of_nat 8) with (2 ^ 64). apply Z.mod_small; lia.
Qed.

Lemma float_of_bytes_float_bytes v : F32.valid v = true -> float_of_bytes (float_bytes v) = v.
Proof.
  intros H. unfold float_of_bytes, float_bytes. rewrite le_value_le_bytes.
  change (256 ^ Z.of_nat 4) with (2 ^ 32).
  rewrite Z.mod_small by now apply float_to_bits_range.
  now apply float_of_bits_to_bits.
Qed.

Lemma double_of_bytes_double_bytes v :
  F64.valid v = true -> double_of_bytes (double_bytes v) = v.
Proof.
  intros H. unfold double_of_bytes, double_bytes. rewrite le_value_le_bytes.
  change (256 ^ Z.of_nat 8) with (2 ^ 64).
  rewrite Z.mod_small by now apply double_to_bits_range.
  now apply double_of_bits_to_bits.
Qed.

Lemma Vector2D_of_bytes_Vector2D_bytes v :
  F32.valid (x v) = true -> F32.valid (y v) = true ->
  Vector2D_of_bytes (Vector2D_bytes v) = v.
Proof.
  intros Hx Hy. destruct v as [vx vy]. cbn [x y] in *.
  unfold Vector2D_of_bytes, Vector2D_bytes. cbn [x y].
  rewrite take_app_length' by (symmetry; apply le_bytes_length).
  rewrite drop_app_length' by (symmetry; apply le_bytes_length).
  now rewrite !float_of_bytes_float_bytes.
Qed.

Lemma Type_of_int_of_Type t : Type_of_int (int_of_Type t) = t.
Proof. reflexivity. Qed.

(** ** Reading back what was written *)

Lemma istream_read_app bs tail old :
  istream_read (length bs) old {| rest := bs ++ tail; ok := true |} =
    (bs, {| rest := tail; ok := true |}).
Proof.
  unfold istream_read. cbn [ok rest].
  destruct (Nat.leb_spec (length bs) (length (bs ++ tail))) as [_|H].
  - now rewrite take_app_length, drop_app_length.
  - rewrite length_app in H. lia.
Qed.

Lemma read_obj_app {A} (enc : A -> list byte) dec old v tail :
  length (enc old) = length (enc v) ->
  read_obj enc dec old {| rest := enc v ++ tail; ok := true |} =
    (dec (enc v), {| rest := tail; ok := true |}).
Proof.
  intros Hlen. unfold read_obj. cbn [ok]. rewrite Hlen.
  now rewrite istream_read_app.
Qed.

Lemma read_obj_failed {A} (enc : A -> list byte) dec old s :
  ok s = false -> read_obj enc dec old s = (old, s).
Proof. intros H. unfold read_obj. now rewrite H. Qed.

Lemma fold_left_write_zombie zs out :
  fold_left write_zombie zs out = out ++ flat_map zombie_bytes zs.
Proof.
  revert out. induction zs as [|[[zx zy] t] zs IH]; intros out; cbn [fold_left flat_map].
  - now rewrite app_nil_r.
  - rewrite IH. unfold write_zombie, write, zombie_bytes.
    now rewrite <- !app_assoc.
Qed.

Lemma open_in_close_out fs filename content :
  open_out fs filename = true ->
  open_in (close_out fs filename content) filename = Some content.
Proof.
  unfold open_out, open_in, close_out. cbn [denied files]. intros H.
  apply bool_decide_eq_true in H.
  destruct (decide (filename ∈ denied fs)) as [Hin|_]; [contradiction|].
  apply lookup_insert_eq.
Qed.

Lemma saveGameState_content state filename fs :
  open_out fs filename = true ->
  saveGameState state filename fs = close_out fs filename (GameState_bytes state).
Proof.
  intros H. unfold saveGameState. rewrite H. cbv zeta. f_equal.
  unfold write. rewrite fold_left_write_zombie. unfold GameState_bytes.
  cbn [app]. now rewrite <- !app_assoc.
Qed.

Lemma read_zombies_app zs i u tail :
  read_zombies (length zs) i u {| rest := flat_map zombie_bytes zs ++ tail; ok := true |} =
    (map recode_zombie zs, {| rest := tail; ok := true |}).
Proof.
  revert i. induction zs as [|[[zx zy] t] zs IH]; intros i;
    cbn [length read_zombies flat_map map].
  - reflexivity.
  - unfold zombie_bytes at 1. rewrite <- !app_assoc.
    rewrite read_obj_app by (unfold float_bytes; now rewrite !le_bytes_length).
    rewrite read_obj_app by (unfold float_bytes; now rewrite !le_bytes_length).
    rewrite read_obj_app by (unfold int_bytes; now rewrite !le_bytes_length).
    now rewrite IH.
Qed.

Lemma resize_fits u n :
  n <= MAX_SIZE -> n <= u_available u -> resize u n = Returned tt.
Proof.
  intros Hm Ha. unfold resize. destruct (n <=? 0); [reflexivity|].
  destruct (MAX_SIZE <? n) eqn:E1; [apply Z.ltb_lt in E1; lia|].
  destruct (u_available u <? n) eqn:E2; [apply Z.ltb_lt in E2; lia|reflexivity].
Qed.

(** What [loadGameState] does with a file that opens. *)
Lemma loadGameState_opened u filename fs content :
  open_in fs filename = Some content ->
  let header := readHeader u (GameState_default u) {| rest := content; ok := true |} in
  loadGameState u filename fs =
    bind (resize u (zombieCountRead u content))
      (fun _ => Returned (readBody u (fst (fst header)) (zombieCountRead u content)
                            (snd header))).
Proof.
  intros H. cbv zeta. unfold loadGameState, zombieCountRead. rewrite H.
  now destruct (readHeader _ _ _) as [[st c] s].
Qed.

Lemma isValid_readBody u state zombieCount s :
  isValid (readBody u state zombieCount s) = true.
Proof.
  unfold readBody.
  repeat match goal with
         | |- context [let '(_, _) := ?e in _] => destruct e
         end.
  reflexivity.
Qed.

(** Loading a file that holds a complete record decodes every field of it,
    once the hostile list has been resized. *)
Lemma load_written_cases u state filename fs :
  open_in fs filename = Some (GameState_bytes state) ->
  Z.of_nat (length (zombies state)) < 2 ^ 64 ->
  loadGameState u filename fs =
    bind (resize u (Z.of_nat (length (zombies state)))) (fun _ => Returned (recode state)).
Proof.
  intros Hopen Hn. unfold loadGameState. rewrite Hopen.
  unfold readHeader, GameState_bytes.
  rewrite read_obj_app by (unfold Vector2D_bytes, float_bytes; now rewrite !length_app, !le_bytes_length).
  rewrite read_obj_app by (unfold Vector2D_bytes, float_bytes; now rewrite !length_app, !le_bytes_length).
  rewrite read_obj_app by (unfold int_bytes; now rewrite !le_bytes_length).
  rewrite read_obj_app by (unfold int_bytes; now rewrite !le_bytes_length).
  rewrite read_obj_app by (unfold double_bytes; now rewrite !le_bytes_length).
  rewrite read_obj_app by (unfold bool_bytes; now rewrite !le_bytes_length).
  rewrite read_obj_app by (unfold size_t_bytes; now rewrite !le_bytes_length).
  rewrite size_t_of_bytes_size_t_bytes by lia.
  destruct (resize u _) as [[]|e]; [|reflexivity].
  cbn [bind]. f_equal. unfold readBody.
  rewrite Nat2Z.id, read_zombies_app.
  cbn [wave zombiesToSpawn waveZombiesRemaining weatherType playerPos playerVel
       playerHealth score startTime].
  rewrite read_obj_app by (unfold int_bytes; now rewrite !le_bytes_length).
  rewrite read_obj_app by (unfold int_bytes; now rewrite !le_bytes_length).
  rewrite read_obj_app by (unfold int_bytes; now rewrite !le_bytes_length).
  replace (int_bytes (weatherType state)) with (int_bytes (weatherType state) ++ [])
    by apply app_nil_r.
  rewrite read_obj_app by (unfold int_bytes; now rewrite !le_bytes_length).
  reflexivity.
Qed.

Lemma MAX_SIZE_lt : MAX_SIZE < 2 ^ 64.
Proof. vm_compute. reflexivity. Qed.

Lemma MAX_SIZE_pos : 0 < MAX_SIZE.
Proof. vm_compute. reflexivity. Qed.

Lemma load_written u state filename fs :
  open_in fs filename = Some (GameState_bytes state) ->
  Z.of_nat (length (zombies state)) <= MAX_SIZE ->
  Z.of_nat (length (zombies state)) <= u_available u ->
  loadGameState u filename fs = Returned (recode state).
Proof.
  intros Hopen Hn Ha. pose proof MAX_SIZE_lt.
  rewrite (load_written_cases u state) by (assumption || lia).
  now rewrite resize_fits.
Qed.

(** A load that returns from a complete record returns what the record
    holds. *)
Lemma load_written_returned u state filename fs loaded :
  open_in fs filename = Some (GameState_bytes state) ->
  Z.of_nat (length (zombies state)) < 2 ^ 64 ->
  loadGameState u filename fs = Returned loaded ->
  loaded = recode state.
Proof.
  intros Hopen Hn. rewrite (load_written_cases u state) by assumption.
  destruct (resize u _) as [[]|e]; cbn [bind]; congruence.
Qed.

Lemma recode_zombie_wf zombie : wf_zombie zombie -> recode_zombie zombie = zombie.
Proof.
  destruct zombie as [[zx zy] t]. intros (Hx & Hy & Ht). cbn [fst snd] in Hx, Hy, Ht.
  unfold recode_zombie.
  rewrite !float_of_bytes_float_bytes by assumption.
  rewrite int_of_bytes_int_bytes by exact Ht.
  now rewrite Type_of_int_of_Type.
Qed.

Lemma recode_wf state : wf_GameState state -> recode state = set_isValid true state.
Proof.
  intros [[Hpx Hpy] [Hvx Hvy] Hh Hs Ht Hz Hn Hw Hts Hr Hwt].
  unfold recode, set_isValid.
  rewrite !Vector2D_of_bytes_Vector2D_bytes by assumption.
  rewrite !int_of_bytes_int_bytes by assumption.
  rewrite double_of_bytes_double_bytes by assumption.
  f_equal. clear Hn. induction Hz as [|z zs Hz1 _ IH]; cbn [map].
  - reflexivity.
  - rewrite recode_zombie_wf by assumption. f_equal. apply IH.
Qed.

(** Loading the file that [saveGameState] has just written returns the saved
    snapshot, marked valid, when the hostile list can be allocated. *)
Lemma load_save u state filename fs :
  open_out fs filename = true ->
  wf_GameState state ->
  Z.of_nat (length (zombies state)) <= u_available u ->
  loadGameState u filename (saveGameState state filename fs) =
    Returned (set_isValid true state).
Proof.
  intros Hopen Hwf Ha.
  rewrite saveGameState_content by assumption.
  rewrite (load_written u state).
  - now rewrite recode_wf.
  - now apply open_in_close_out.
  - now destruct Hwf.
  - exact Ha.
Qed.

(* ===================================================================== *)
(** * Persistence *)
(* ===================================================================== *)

Lemma foods_restore env state r : Run.foods (restore env state r) = Run.foods r.
Proof. unfold restore. now destruct (isValid state). Qed.

Lemma startRun_new env fs : startRun false env fs = Returned (newGame env fs).
Proof. reflexivity. Qed.

Lemma startRun_load env fs :
  startRun true env fs =
    bind (loadGameState (uninit env) "savegame.dat" fs)
      (fun state =>
         Returned (Run.set_highScore (loadHighScore "highscore.dat" fs)
                     (restore env state (newRun env fs)))).
Proof.
  unfold startRun. now destruct (loadGameState _ _ _).
Qed.

Lemma foods_startRun loadSaved env fs r :
  startRun loadSaved env fs = Returned r -> Run.foods r = [].
Proof.
  destruct loadSaved.
  - rewrite startRun_load. destruct (loadGameState _ _ _) as [state|e]; [|discriminate].
    cbn [bind]. intros [= <-]. cbn [Run.set_highScore Run.foods].
    now rewrite foods_restore.
  - rewrite startRun_new. now intros [= <-].
Qed.

(** C1. A snapshot written by [saveGameState] and read back by
    [loadGameState] from the same file has the same Actor position, velocity
    and health, the same score, wave index, remaining-to-spawn count and
    alive count, and the same hostile list (order, positions, variant tags):
    the load returns, given that the hostile list of the saved length can be
    allocated, and what it returns has these members.  Pickups are in neither
    direction: the snapshot does not depend on the food list, and a run that
    starts (restored or not) has no food. *)
Theorem save_load_roundtrip (u : Uninit) (state : GameState) (filename : string)
    (fs : FileSystem) :
  open_out fs filename = true ->
  wf_GameState state ->
  Z.of_nat (length (zombies state)) <= u_available u ->
  exists loaded,
    loadGameState u filename (saveGameState state filename fs) = Returned loaded /\
    playerPos loaded = playerPos state /\
    playerVel loaded = playerVel state /\
    playerHealth loaded = playerHealth state /\
    score loaded = score state /\
    wave loaded = wave state /\
    zombiesToSpawn loaded = zombiesToSpawn state /\
    waveZombiesRemaining loaded = waveZombiesRemaining state /\
    zombies loaded = zombies state /\
    (forall now r fds, snapshot now (Run.set_foods fds r) = snapshot now r) /\
    (forall env r, Run.foods (restore env loaded r) = Run.foods r) /\
    (forall loadSaved env fs' r,
       startRun loadSaved env fs' = Returned r -> Run.foods r = []).
Proof.
  intros Hopen Hwf Ha. exists (set_isValid true state).
  split; [now apply load_save|].
  cbn [set_isValid playerPos playerVel playerHealth score wave zombiesToSpawn
       waveZombiesRemaining zombies].
  repeat split; intros; first [apply foods_restore | eapply foods_startRun; eassumption].
Qed.

Lemma sampleState_wf : wf_GameState sampleState.
Proof.
  split.
  - split; vm_compute; reflexivity.
  - split; vm_compute; reflexivity.
  - unfold Int.in_range, Int.MIN, Int.MAX; cbn [sampleState playerHealth]; lia.
  - unfold Int.in_range, Int.MIN, Int.MAX; cbn [sampleState score]; lia.
  - vm_compute; reflexivity.
  - repeat constructor; first [vm_compute; reflexivity | vm_compute; discriminate].
  - vm_compute; discriminate.
  - unfold Int.in_range, Int.MIN, Int.MAX; cbn [sampleState wave]; lia.
  - unfold Int.in_range, Int.MIN, Int.MAX; cbn [sampleState zombiesToSpawn]; lia.
  - unfold Int.in_range, Int.MIN, Int.MAX; cbn [sampleState waveZombiesRemaining]; lia.
  - unfold Int.in_range, Int.MIN, Int.MAX; cbn [sampleState weatherType]; lia.
Defined.

Lemma save_load_roundtrip_witness :
  exists loaded,
    loadGameState junk "savegame.dat" (saveGameState sampleState "savegame.dat" noFiles) =
      Returned loaded /\
    playerPos loaded = playerPos sampleState /\
    playerVel loaded = playerVel sampleState /\
    playerHealth loaded = playerHealth sampleState /\
    score loaded = score sampleState /\
    wave loaded = wave sampleState /\
    zombiesToSpawn loaded = zombiesToSpawn sampleState /\
    waveZombiesRemaining loaded = waveZombiesRemaining sampleState /\
    zombies loaded = zombies sampleState /\
    (forall now r fds, snapshot now (Run.set_foods fds r) = snapshot now r) /\
    (forall env r, Run.foods (restore env loaded r) = Run.foods r) /\
    (forall loadSaved env fs' r,
       startRun loadSaved env fs' = Returned r -> Run.foods r = []).
Proof.
  apply (save_load_roundtrip junk sampleState "savegame.dat" noFiles).
  - reflexivity.
  - exact sampleState_wf.
  - vm_compute; discriminate.
Defined.

Lemma GameState_bytes_length state : (57 <= length (GameState_bytes state))%nat.
Proof.
  unfold GameState_bytes, Vector2D_bytes, float_bytes, int_bytes, double_bytes,
    bool_bytes, size_t_bytes.
  rewrite !length_app, !le_bytes_length. lia.
Qed.

Lemma restore_invalid env state r : isValid state = false -> restore env state r = r.
Proof. intros H. unfold restore. now rewrite H. Qed.

(** A read that leaves the stream good has consumed the size of its object
    from a stream that was good. *)
Lemma read_obj_ok {A} (enc : A -> list byte) dec old s :
  ok (snd (read_obj enc dec old s)) = true ->
  ok s = true /\
  (length (rest (snd (read_obj enc dec old s))) + length (enc old) = length (rest s))%nat.
Proof.
  unfold read_obj, istream_read. destruct (ok s) eqn:Hok; [|cbn [snd]; congruence].
  destruct (Nat.leb_spec (length (enc old)) (length (rest s))) as [H|H];
    cbn [snd ok rest]; [|discriminate].
  intros _. split; [reflexivity|]. rewrite length_drop. lia.
Qed.

(** A read from a good stream that holds the whole object. *)
Lemma read_obj_enough {A} (enc : A -> list byte) dec old content (n : nat) :
  length (enc old) = n -> (n <= length content)%nat ->
  read_obj enc dec old {| rest := content; ok := true |} =
    (dec (firstn n content), {| rest := skipn n content; ok := true |}).
Proof.
  intros Hn Hlen. unfold read_obj, istream_read. cbn [ok rest]. rewrite Hn.
  destruct (Nat.leb_spec n (length content)) as [_|H]; [reflexivity|lia].
Qed.

(** The count with which [resize] is called is indeterminate when the file
    ends before the count, and the eight bytes at offset 33 when the file
    holds them. *)
Lemma zombieCountRead_short u content :
  (length content < 33)%nat -> zombieCountRead u content = u_zombieCount u.
Proof.
  intros Hlen. unfold zombieCountRead, readHeader.
  set (s0 := {| rest := content; ok := true |}).
  destruct (read_obj Vector2D_bytes _ _ s0) as [v1 s1] eqn:E1.
  destruct (read_obj Vector2D_bytes _ _ s1) as [v2 s2] eqn:E2.
  destruct (read_obj int_bytes _ _ s2) as [v3 s3] eqn:E3.
  destruct (read_obj int_bytes _ _ s3) as [v4 s4] eqn:E4.
  destruct (read_obj double_bytes _ _ s4) as [v5 s5] eqn:E5.
  destruct (read_obj bool_bytes _ _ s5) as [v6 s6] eqn:E6.
  destruct (ok s6) eqn:Hok.
  - exfalso.
    pose proof (read_obj_ok bool_bytes bool_of_bytes
                  (isValid (GameState_default u)) s5) as H6.
    rewrite E6 in H6. destruct (H6 Hok) as [Hok5 L6].
    pose proof (read_obj_ok double_bytes double_of_bytes
                  (startTime (GameState_default u)) s4) as H5.
    rewrite E5 in H5. destruct (H5 Hok5) as [Hok4 L5].
    pose proof (read_obj_ok int_bytes int_of_bytes
                  (score (GameState_default u)) s3) as H4.
    rewrite E4 in H4. destruct (H4 Hok4) as [Hok3 L4].
    pose proof (read_obj_ok int_bytes int_of_bytes
                  (playerHealth (GameState_default u)) s2) as H3.
    rewrite E3 in H3. destruct (H3 Hok3) as [Hok2 L3].
    pose proof (read_obj_ok Vector2D_bytes Vector2D_of_bytes
                  (playerVel (GameState_default u)) s1) as H2.
    rewrite E2 in H2. destruct (H2 Hok2) as [Hok1 L2].
    pose proof (read_obj_ok Vector2D_bytes Vector2D_of_bytes
                  (playerPos (GameState_default u)) s0) as H1.
    rewrite E1 in H1. destruct (H1 Hok1) as [_ L1].
    cbn [snd] in *. subst s0. cbn [rest] in L1.
    unfold Vector2D_bytes, float_bytes, int_bytes, double_bytes, bool_bytes in *.
    rewrite ?length_app, ?le_bytes_length in *. lia.
  - rewrite read_obj_failed by exact Hok. reflexivity.
Qed.

Lemma zombieCountRead_held u content :
  (41 <= length content)%nat ->
  zombieCountRead u content = size_t_of_bytes (firstn 8 (skipn 33 content)).
Proof.
  intros Hlen. unfold zombieCountRead, readHeader.
  rewrite (read_obj_enough _ _ _ content 8)
    by (try (unfold Vector2D_bytes, float_bytes; now rewrite !length_app, !le_bytes_length); lia).
  rewrite (read_obj_enough _ _ _ _ 8)
    by (try (unfold Vector2D_bytes, float_bytes; now rewrite !length_app, !le_bytes_length);
        rewrite ?length_drop; lia).
  rewrite (read_obj_enough _ _ _ _ 4)
    by (try (unfold int_bytes; now rewrite !le_bytes_length); rewrite ?length_drop; lia).
  rewrite (read_obj_enough _ _ _ _ 4)
    by (try (unfold int_bytes; now rewrite !le_bytes_length); rewrite ?length_drop; lia).
  rewrite (read_obj_enough _ _ _ _ 8)
    by (try (unfold double_bytes; now rewrite !le_bytes_length); rewrite ?length_drop; lia).
  rewrite (read_obj_enough _ _ _ _ 1)
    by (try (unfold bool_bytes; now rewrite !le_bytes_length); rewrite ?length_drop; lia).
  rewrite (read_obj_enough _ _ _ _ 8)
    by (try (unfold size_t_bytes; now rewrite !le_bytes_length); rewrite ?length_drop; lia).
  cbn [fst snd]. now rewrite !drop_drop.
Qed.

(** C2, as stated, fails.  A save file that ends after the hostile count
    opens, its last four reads fail, and the snapshot is returned as valid all
    the same, with the counters that could not be read at their defaults: the
    run is then restored from it (health 85, elapsed time and score of the
    file) and is not a fresh run (health 100).  And a file of another
    program, whose bytes at the place of the hostile count exceed the largest
    size of a vector, makes [resize] throw: [loadGameState] does not return,
    and neither does the caller. *)
Lemma unread_save_reported_valid :
  open_in truncatedSave "savegame.dat" = Some (firstn 41 (GameState_bytes calmState)) /\
  ~ (exists state tail,
       firstn 41 (GameState_bytes calmState) = GameState_bytes state ++ tail) /\
  (forall u, exists state,
     loadGameState u "savegame.dat" truncatedSave = Returned state /\
     isValid state = true /\
     playerHealth state = 85 /\ score state = 1700 /\
     wave state = 1 /\ zombiesToSpawn state = 15 /\ weatherType state = 0) /\
  wave calmState = 2 /\ zombiesToSpawn calmState = 16 /\ weatherType calmState = 1 /\
  (exists r, startRun true someEnv truncatedSave = Returned r /\
             health (Run.player r) = 85 /\ Run.score r = 1700) /\
  health (Run.player (newGame someEnv truncatedSave)) = 100 /\
  Run.score (newGame someEnv truncatedSave) = 0 /\
  (forall u, loadGameState u "savegame.dat" foreignSave = Thrown length_error) /\
  (forall env, startRun true env foreignSave = Thrown length_error) /\
  (forall env playerName inputs,
     RunMainGame playerName true allLoaded env inputs foreignSave =
       Some (Thrown length_error)).
Proof.
  assert (Hforeign : forall u,
            loadGameState u "savegame.dat" foreignSave = Thrown length_error).
  { intros u.
    assert (E : open_in foreignSave "savegame.dat" = Some (List.repeat Byte.xff 64))
      by (vm_compute; reflexivity).
    rewrite (loadGameState_opened u _ _ _ E). cbv zeta.
    rewrite zombieCountRead_held by (cbn [length List.repeat]; lia).
    reflexivity. }
  assert (Hstart : forall env, startRun true env foreignSave = Thrown length_error).
  { intros env. rewrite startRun_load, Hforeign. reflexivity. }
  split; [vm_compute; reflexivity|]. split.
  { intros (state & tail & H).
    pose proof (GameState_bytes_length state) as Hlen.
    apply (f_equal (@length byte)) in H.
    rewrite length_app, length_take in H. lia. }
  split.
  { intros u. eexists. split.
    - unfold loadGameState.
      assert (E : open_in truncatedSave "savegame.dat" =
                  Some (firstn 41 (GameState_bytes calmState)))
        by (vm_compute; reflexivity).
      rewrite E. vm_compute. reflexivity.
    - repeat split. }
  split; [reflexivity|]. split; [reflexivity|]. split; [reflexivity|].
  split; [eexists; split; [vm_compute; reflexivity | split; reflexivity]|].
  split; [vm_compute; reflexivity|]. split; [vm_compute; reflexivity|].
  split; [exact Hforeign|]. split; [exact Hstart|].
  intros env playerName inputs. unfold RunMainGame. cbn [allLoaded fontLoaded
    weatherLoaded texturesLoaded negb]. now rewrite Hstart.
Qed.

(** C2, amended.  [loadGameState] tests only that the file could be opened
    and never a read.  When the file cannot be opened it returns the
    default-constructed snapshot: invalid, zero position and velocity, no
    hostiles, wave 1, 15 to spawn, 0 alive, day phase 0 (health, score and
    elapsed time uninitialised); the caller ignores an invalid snapshot, and
    the run starts exactly as a new run.  When the file opens, the hostile
    list is resized to the count as it stands after its read: the eight bytes
    at offset 33 when the file holds at least 41 bytes, an indeterminate value
    when it holds fewer than 33.  A count above the largest size of the vector
    makes [resize] throw [length_error], an allocation that fails makes it
    throw [bad_alloc]; either leaves [loadGameState] and [RunMainGame],
    nothing catches it, and the call does not return to the menu.  Otherwise
    [loadGameState] returns, and the snapshot is valid whether or not the
    reads succeeded: of the snapshots returned, the valid ones are those of a
    file that opened.  When the file holds a complete record and the hostile
    list can be allocated, every field is decoded from it. *)
Theorem load_tests_only_the_open (u : Uninit) (filename : string) (fs : FileSystem) :
  (open_in fs filename = None ->
     loadGameState u filename fs = Returned (GameState_default u) /\
     isValid (GameState_default u) = false /\
     playerPos (GameState_default u) = {| x := F32.zero; y := F32.zero |} /\
     playerVel (GameState_default u) = {| x := F32.zero; y := F32.zero |} /\
     zombies (GameState_default u) = [] /\
     wave (GameState_default u) = 1 /\
     zombiesToSpawn (GameState_default u) = 15 /\
     waveZombiesRemaining (GameState_default u) = 0 /\
     weatherType (GameState_default u) = 0) /\
  (forall env state r, isValid state = false -> restore env state r = r) /\
  (forall env fs',
     open_in fs' "savegame.dat" = None ->
     startRun true env fs' = startRun false env fs' /\
     startRun false env fs' = Returned (newGame env fs')) /\
  (forall content,
     open_in fs filename = Some content ->
     let count := zombieCountRead u content in
     (MAX_SIZE < count -> loadGameState u filename fs = Thrown length_error) /\
     (0 < count <= MAX_SIZE -> u_available u < count ->
      loadGameState u filename fs = Thrown bad_alloc) /\
     (count <= 0 \/ count <= MAX_SIZE /\ count <= u_available u ->
      exists state, loadGameState u filename fs = Returned state /\ isValid state = true)) /\
  (forall content,
     ((length content < 33)%nat -> zombieCountRead u content = u_zombieCount u) /\
     ((41 <= length content)%nat ->
      zombieCountRead u content = size_t_of_bytes (firstn 8 (skipn 33 content)))) /\
  (forall state,
     loadGameState u filename fs = Returned state ->
     (isValid state = true <-> exists content, open_in fs filename = Some content)) /\
  (forall state,
     open_in fs filename = Some (GameState_bytes state) ->
     Z.of_nat (length (zombies state)) <= MAX_SIZE ->
     Z.of_nat (length (zombies state)) <= u_available u ->
     loadGameState u filename fs = Returned (recode state)) /\
  (forall env fs' e,
     loadGameState (uninit env) "savegame.dat" fs' = Thrown e ->
     startRun true env fs' = Thrown e /\
     forall playerName inputs,
       RunMainGame playerName true allLoaded env inputs fs' = Some (Thrown e)) /\
  (forall s m e,
     RunMainGame (Menu.playerName m) true (resources s) (startEnv s) (inputs s)
       (Menu.disk m) = Some (Thrown e) ->
     Menu.play true s m = None).
Proof.
  split; [|split; [|split; [|split; [|split; [|split; [|split; [|split]]]]]]].
  - intros H. unfold loadGameState. rewrite H. repeat split.
  - intros env state r H. now apply restore_invalid.
  - intros env fs' H. split; [|reflexivity].
    rewrite startRun_load, startRun_new. unfold loadGameState. rewrite H.
    cbn [bind]. now rewrite restore_invalid.
  - intros content H. cbv zeta. rewrite (loadGameState_opened u _ _ _ H). cbv zeta.
    unfold resize. split; [|split].
    + intros Hc. pose proof MAX_SIZE_pos.
      destruct (_ <=? 0) eqn:E0; [apply Z.leb_le in E0; lia|].
      apply Z.ltb_lt in Hc. now rewrite Hc.
    + intros [Hp Hm] Ha.
      destruct (_ <=? 0) eqn:E0; [apply Z.leb_le in E0; lia|].
      destruct (MAX_SIZE <? _) eqn:E1; [apply Z.ltb_lt in E1; lia|].
      apply Z.ltb_lt in Ha. now rewrite Ha.
    + intros Hc. eexists. split; [|apply isValid_readBody].
      destruct (_ <=? 0) eqn:E0; [reflexivity|]. apply Z.leb_gt in E0.
      destruct Hc as [Hc|[Hm Ha]]; [lia|].
      destruct (MAX_SIZE <? _) eqn:E1; [apply Z.ltb_lt in E1; lia|].
      destruct (u_available u <? _) eqn:E2; [apply Z.ltb_lt in E2; lia|].
      reflexivity.
  - intros content. split; [apply zombieCountRead_short | apply zombieCountRead_held].
  - intros state. destruct (open_in fs filename) as [content|] eqn:H.
    + rewrite (loadGameState_opened u _ _ _ H). cbv zeta.
      destruct (resize u _) as [[]|e]; cbn [bind]; [|discriminate].
      intros [= <-]. rewrite isValid_readBody. split; [eauto|reflexivity].
    + unfold loadGameState. rewrite H. intros [= <-].
      split; [discriminate | intros [content Hc]; discriminate].
  - intros state Hopen Hn Ha. now apply load_written.
  - intros env fs' e H.
    assert (Hs : startRun true env fs' = Thrown e) by now rewrite startRun_load, H.
    split; [exact Hs|]. intros playerName inputs. unfold RunMainGame.
    cbn [allLoaded fontLoaded weatherLoaded texturesLoaded negb]. now rewrite Hs.
  - intros s m e H. unfold Menu.play. now rewrite H.
Qed.

Lemma load_tests_only_the_open_witness :
  loadGameState junk "savegame.dat" noFiles = Returned (GameState_default junk) /\
  startRun true someEnv noFiles = startRun false someEnv noFiles /\
  zombieCountRead junk [] = u_zombieCount junk /\
  loadGameState junk "savegame.dat" hugeSave = Thrown bad_alloc.
Proof.
  split; [|split; [|split]].
  - apply (load_tests_only_the_open junk "savegame.dat" noFiles). reflexivity.
  - apply (load_tests_only_the_open junk "savegame.dat" noFiles). reflexivity.
  - apply (load_tests_only_the_open junk "savegame.dat" noFiles).
    cbn [length]. lia.
  - refine (proj1 (proj2 (proj1 (proj2 (proj2 (proj2
              (load_tests_only_the_open junk "savegame.dat" hugeSave))))
              (firstn 41 (GameState_bytes crowdedState)) _)) _ _).
    + vm_compute; reflexivity.
    + vm_compute. split; [reflexivity | discriminate].
    + vm_compute; reflexivity.
Defined.

(* ===================================================================== *)
(** * Wave scheduling *)
(* ===================================================================== *)

Ltac run_simpl :=
  cbn [Run.player Run.score Run.startTime Run.zombies Run.foods Run.attacking
       Run.lastAttackTime Run.wave Run.zombiesToSpawn Run.waveZombiesRemaining
       Run.weather Run.highScore Run.gameState Run.running Run.jumping
       Run.resumeState Run.saveState Run.menuState Run.backState Run.disk
       Run.set_player Run.set_score Run.set_zombies Run.set_foods Run.set_attacking
       Run.set_lastAttackTime Run.set_wave Run.set_zombiesToSpawn
       Run.set_waveZombiesRemaining Run.set_weather Run.set_highScore
       Run.set_gameState Run.set_running Run.set_jumping Run.set_resumeState
       Run.set_saveState Run.set_menuState Run.set_backState Run.set_disk] in *.

Lemma spawnZombie_platforms zs roll :
  exists z, spawnZombie zs platforms true true roll = zs ++ [z].
Proof.
  unfold spawnZombie, platforms.
  destruct (typeDist roll =? 0); cbn [negb]; eexists; reflexivity.
Qed.

Lemma meleeHit_remaining i att idx rect z t :
  t_remaining (snd (meleeHit i att idx rect z t)) =
    if snd (fst (meleeHit i att idx rect z t)) then Int.sub (t_remaining t) 1
    else t_remaining t.
Proof.
  unfold meleeHit. destruct att; [|reflexivity].
  destruct (SDL_HasIntersection _ _); [|reflexivity].
  cbn [body with_body health with_health].
  destruct (_ <=? 0); reflexivity.
Qed.

Lemma zombieBody_remaining i att rect ct idx z t :
  t_remaining (snd (zombieBody i att rect ct idx z t)) =
    if snd (fst (zombieBody i att rect ct idx z t)) then Int.sub (t_remaining t) 1
    else t_remaining t.
Proof.
  unfold zombieBody.
  destruct (contactDamage ct rect _ (_, t_player t)) as [z1 p1].
  destruct (contactDamage ct rect _ (z1, p1)) as [z2 p2].
  rewrite meleeHit_remaining. reflexivity.
Qed.

Lemma zombieLoop_length i att rect ct idx zs t :
  length (fst (zombieLoop i att rect ct idx zs t)) = length zs.
Proof.
  revert idx t. induction zs as [|z zs IH]; intros idx t; cbn [zombieLoop].
  - reflexivity.
  - destruct (zombieBody i att rect ct idx z t) as [m t1].
    specialize (IH (S idx) t1).
    destruct (zombieLoop i att rect ct (S idx) zs t1) as [ms t2].
    cbn [fst length] in *. now rewrite IH.
Qed.

Lemma zombieLoop_remaining i att rect ct idx zs t :
  Int.MIN + Z.of_nat (length zs) <= t_remaining t <= Int.MAX ->
  t_remaining (snd (zombieLoop i att rect ct idx zs t)) =
    t_remaining t - Z.of_nat (killed (fst (zombieLoop i att rect ct idx zs t))).
Proof.
  revert idx t. induction zs as [|z zs IH]; intros idx t Hr; cbn [zombieLoop].
  - cbn. lia.
  - pose proof (zombieBody_remaining i att rect ct idx z t) as Hb.
    destruct (zombieBody i att rect ct idx z t) as [[z' dead] t1].
    cbn [fst snd] in Hb.
    specialize (IH (S idx) t1).
    destruct (zombieLoop i att rect ct (S idx) zs t1) as [ms t2].
    cbn [fst snd] in *. unfold killed in *. cbn [List.filter snd length] in *.
    cbn [length] in Hr.
    destruct dead.
    + unfold Int.sub in Hb. rewrite wrap_small in Hb
        by (unfold Int.in_range, Int.MIN, Int.MAX in *; lia).
      rewrite IH by (unfold Int.MIN, Int.MAX in *; lia).
      cbn [length]. lia.
    + rewrite IH by (unfold Int.MIN, Int.MAX in *; lia). lia.
Qed.

Lemma removeDead_length marked :
  (length (removeDead marked) + killed marked = length marked)%nat.
Proof.
  unfold removeDead, killed. rewrite length_map.
  induction marked as [|[z b] ms IH]; cbn [List.filter snd negb length].
  - reflexivity.
  - destruct b; cbn [negb length]; lia.
Qed.

(** ** Steps of a tick and the wave counters *)

Lemma spawnStep_cases i r :
  (spawnStep i r = r /\
     ((0 <? Run.zombiesToSpawn r) &&
        (Z.of_nat (length (Run.zombies r)) <? MAX_ZOMBIES_ONSCREEN) = false)) \/
  (0 < Run.zombiesToSpawn r /\
   Z.of_nat (length (Run.zombies r)) < MAX_ZOMBIES_ONSCREEN /\
   (exists z, Run.zombies (spawnStep i r) = Run.zombies r ++ [z]) /\
   Run.zombiesToSpawn (spawnStep i r) = Int.sub (Run.zombiesToSpawn r) 1 /\
   Run.waveZombiesRemaining (spawnStep i r) = Int.add (Run.waveZombiesRemaining r) 1 /\
   Run.wave (spawnStep i r) = Run.wave r /\
   Run.disk (spawnStep i r) = Run.disk r /\
   Run.gameState (spawnStep i r) = Run.gameState r).
Proof.
  unfold spawnStep.
  destruct ((0 <? Run.zombiesToSpawn r) &&
            (Z.of_nat (length (Run.zombies r)) <? MAX_ZOMBIES_ONSCREEN)) eqn:E.
  - right. apply andb_prop in E as [E1 E2].
    apply Z.ltb_lt in E1. apply Z.ltb_lt in E2.
    run_simpl. destruct (spawnZombie_platforms (Run.zombies r) (spawnRoll i)) as [z Hz].
    repeat split; try assumption; try reflexivity. exists z. exact Hz.
  - left. split; reflexivity.
Qed.

Lemma spawnStep_consistent i r : consistent r -> consistent (spawnStep i r).
Proof.
  intros (Hn & Hrem & Hts & Hw).
  destruct (spawnStep_cases i r) as [[-> _]|(H1 & H2 & [z Hz] & Hs & Hr & Hwv & _)].
  - exact (conj Hn (conj Hrem (conj Hts Hw))).
  - unfold consistent, countersOk. unfold MAX_ZOMBIES_ONSCREEN in H2.
    rewrite Hz, Hs, Hr, Hwv, length_app. cbn [length].
    unfold Int.sub, Int.add. rewrite !wrap_small
      by (unfold Int.in_range, Int.MIN, Int.MAX; lia).
    repeat split; lia.
Qed.

Lemma combatStep_fields i r :
  Run.wave (combatStep i r) = Run.wave r /\
  Run.zombiesToSpawn (combatStep i r) = Run.zombiesToSpawn r /\
  Run.disk (combatStep i r) = Run.disk r /\
  Run.gameState (combatStep i r) = Run.gameState r /\
  Run.attacking (combatStep i r) = false.
Proof.
  unfold combatStep.
  destruct (zombieLoop _ _ _ _ _ _ _) as [marked t]. run_simpl.
  repeat split.
Qed.

Lemma combatStep_zombies i r :
  exists marked,
    length marked = length (Run.zombies r) /\
    Run.zombies (combatStep i r) = removeDead marked /\
    (Int.MIN + Z.of_nat (length (Run.zombies r)) <= Run.waveZombiesRemaining r <= Int.MAX ->
     Run.waveZombiesRemaining (combatStep i r) =
       Run.waveZombiesRemaining r - Z.of_nat (killed marked)).
Proof.
  unfold combatStep.
  set (t0 := {| t_player := Run.player r; t_score := Run.score r;
                t_remaining := Run.waveZombiesRemaining r; t_foods := Run.foods r |}).
  pose proof (zombieLoop_length i (Run.attacking r) (getRect (Run.player r))
                (seconds (now i)) 0 (Run.zombies r) t0) as Hlen.
  pose proof (zombieLoop_remaining i (Run.attacking r) (getRect (Run.player r))
                (seconds (now i)) 0 (Run.zombies r) t0) as Hrem.
  destruct (zombieLoop _ _ _ _ _ _ _) as [marked t]. run_simpl.
  cbn [fst snd] in *. exists marked. repeat split; [assumption|].
  intros H. now apply Hrem.
Qed.

Lemma combatStep_consistent i r : consistent r -> consistent (combatStep i r).
Proof.
  intros (Hn & Hrem & Hts & Hw).
  destruct (combatStep_fields i r) as (Hwv & Hs & _).
  destruct (combatStep_zombies i r) as (marked & Hlen & Hz & Hr).
  pose proof (removeDead_length marked) as Hd.
  unfold consistent, countersOk. rewrite Hwv, Hs, Hz.
  rewrite Hr by (unfold Int.MIN, Int.MAX; lia).
  repeat split; lia.
Qed.

Lemma foodStep_fields i r :
  Run.zombies (foodStep i r) = Run.zombies r /\
  Run.wave (foodStep i r) = Run.wave r /\
  Run.zombiesToSpawn (foodStep i r) = Run.zombiesToSpawn r /\
  Run.waveZombiesRemaining (foodStep i r) = Run.waveZombiesRemaining r /\
  Run.disk (foodStep i r) = Run.disk r /\
  Run.gameState (foodStep i r) = Run.gameState r.
Proof.
  unfold foodStep. destruct (foodLoop _ _ _ _) as [[fs hp] n]. run_simpl.
  repeat split.
Qed.

Lemma beforeSpawn_fields i r :
  Run.zombies (beforeSpawn i r) = Run.zombies r /\
  Run.wave (beforeSpawn i r) = Run.wave r /\
  Run.zombiesToSpawn (beforeSpawn i r) = Run.zombiesToSpawn r /\
  Run.waveZombiesRemaining (beforeSpawn i r) = Run.waveZombiesRemaining r /\
  Run.disk (beforeSpawn i r) = Run.disk r /\
  Run.gameState (beforeSpawn i r) = Run.gameState r.
Proof. unfold beforeSpawn, movePlayer. run_simpl. repeat split. Qed.

Lemma consistent_fields r r' :
  Run.zombies r' = Run.zombies r ->
  Run.wave r' = Run.wave r ->
  Run.zombiesToSpawn r' = Run.zombiesToSpawn r ->
  Run.waveZombiesRemaining r' = Run.waveZombiesRemaining r ->
  consistent r -> consistent r'.
Proof. unfold consistent. intros -> -> -> ->. exact id. Qed.

Lemma simulate_consistent i r : consistent r -> consistent (simulate i r).
Proof.
  intros H. unfold simulate.
  destruct (foodStep_fields i (combatStep i (spawnStep i (beforeSpawn i r))))
    as (Hz & Hw & Hs & Hr & _).
  apply (consistent_fields _ _ Hz Hw Hs Hr).
  apply combatStep_consistent, spawnStep_consistent.
  destruct (beforeSpawn_fields i r) as (Hz' & Hw' & Hs' & Hr' & _).
  now apply (consistent_fields _ _ Hz' Hw' Hs' Hr').
Qed.

Lemma simulate_fields i r :
  Run.wave (simulate i r) = Run.wave r /\
  Run.disk (simulate i r) = Run.disk r /\
  Run.gameState (simulate i r) = Run.gameState r.
Proof.
  unfold simulate.
  destruct (foodStep_fields i (combatStep i (spawnStep i (beforeSpawn i r))))
    as (_ & Hw & _ & _ & Hd & Hg).
  destruct (combatStep_fields i (spawnStep i (beforeSpawn i r))) as (Hw1 & _ & Hd1 & Hg1 & _).
  destruct (beforeSpawn_fields i r) as (_ & Hw3 & _ & _ & Hd3 & Hg3).
  rewrite Hw, Hd, Hg, Hw1, Hd1, Hg1.
  destruct (spawnStep_cases i (beforeSpawn i r))
    as [[-> _]|(_ & _ & _ & _ & _ & Hw2 & Hd2 & Hg2)].
  - now rewrite Hw3, Hd3, Hg3.
  - now rewrite Hw2, Hd2, Hg2, Hw3, Hd3, Hg3.
Qed.

Lemma quota_range w : 0 <= quota w <= 35.
Proof.
  unfold quota. destruct (1 <=? w) eqn:E; [|lia].
  apply Z.leb_le in E. unfold ZOMBIES_PER_WAVE.
  destruct (Z.to_nat (w - 1)) as [|[|[|[|[|n]]]]]; cbn [nth]; try lia.
  destruct n; lia.
Qed.

Lemma recordHighScore_fields r :
  Run.zombies (recordHighScore r) = Run.zombies r /\
  Run.wave (recordHighScore r) = Run.wave r /\
  Run.zombiesToSpawn (recordHighScore r) = Run.zombiesToSpawn r /\
  Run.waveZombiesRemaining (recordHighScore r) = Run.waveZombiesRemaining r /\
  Run.gameState (recordHighScore r) = Run.gameState r /\
  open_in (Run.disk (recordHighScore r)) "savegame.dat" = open_in (Run.disk r) "savegame.dat".
Proof.
  unfold recordHighScore. destruct (Run.highScore r <? Run.score r); run_simpl; [|repeat split].
  repeat split. unfold saveHighScore.
  destruct (open_out (Run.disk r) "highscore.dat"); [|reflexivity].
  unfold open_in, close_out. cbn [denied files].
  destruct (decide ("savegame.dat"%string ∈ denied (Run.disk r))); [reflexivity|].
  now rewrite lookup_insert_ne.
Qed.

(** The wave check advances the wave, declares victory or does nothing. *)
Lemma waveCheck_cases r :
  (Run.waveZombiesRemaining r = 0 /\ Run.zombiesToSpawn r = 0 /\ Run.wave r < TOTAL_WAVES /\
   waveCheck r = Run.set_zombiesToSpawn (quota (Int.add (Run.wave r) 1))
                   (Run.set_wave (Int.add (Run.wave r) 1) r)) \/
  (Run.waveZombiesRemaining r = 0 /\ Run.zombiesToSpawn r = 0 /\ Run.wave r = TOTAL_WAVES /\
   waveCheck r = Run.set_gameState VICTORY (recordHighScore r)) \/
  (waveCheck r = r /\
   ~ (Run.waveZombiesRemaining r = 0 /\ Run.zombiesToSpawn r = 0 /\ Run.wave r <= TOTAL_WAVES)).
Proof.
  unfold waveCheck.
  destruct (Run.waveZombiesRemaining r =? 0) eqn:E1;
    [apply Z.eqb_eq in E1|apply Z.eqb_neq in E1; right; right; cbn [andb]; split; [reflexivity|tauto]].
  destruct (Run.zombiesToSpawn r =? 0) eqn:E2;
    [apply Z.eqb_eq in E2|apply Z.eqb_neq in E2; right; right; cbn [andb]; split; [reflexivity|tauto]].
  cbn [andb].
  destruct (Run.wave r <? TOTAL_WAVES) eqn:E3.
  - apply Z.ltb_lt in E3. left. repeat split; assumption.
  - apply Z.ltb_ge in E3. destruct (Run.wave r =? TOTAL_WAVES) eqn:E4.
    + apply Z.eqb_eq in E4. right; left. repeat split; assumption.
    + apply Z.eqb_neq in E4. right; right. split; [reflexivity|]. lia.
Qed.

Lemma waveCheck_consistent r : consistent r -> consistent (waveCheck r).
Proof.
  intros H. pose proof H as (Hn & Hrem & Hts & Hw).
  destruct (waveCheck_cases r) as [(H1 & H2 & H3 & ->)|[(H1 & H2 & H3 & ->)|[-> _]]].
  - unfold consistent, countersOk. run_simpl. unfold TOTAL_WAVES in H3.
    unfold Int.add. rewrite wrap_small by (unfold Int.in_range, Int.MIN, Int.MAX; lia).
    pose proof (quota_range (Run.wave r + 1)). repeat split; lia.
  - destruct (recordHighScore_fields r) as (Hz & Hwv & Hs & Hr & _).
    unfold consistent. run_simpl. now rewrite Hz, Hwv, Hs, Hr.
  - assumption.
Qed.

Lemma waveCheck_disk r :
  open_in (Run.disk (waveCheck r)) "savegame.dat" = open_in (Run.disk r) "savegame.dat".
Proof.
  destruct (waveCheck_cases r) as [(_ & _ & _ & ->)|[(_ & _ & _ & ->)|[-> _]]];
    run_simpl; try reflexivity.
  apply recordHighScore_fields.
Qed.

Lemma gameOverCheck_fields r :
  Run.zombies (gameOverCheck r) = Run.zombies r /\
  Run.wave (gameOverCheck r) = Run.wave r /\
  Run.zombiesToSpawn (gameOverCheck r) = Run.zombiesToSpawn r /\
  Run.waveZombiesRemaining (gameOverCheck r) = Run.waveZombiesRemaining r /\
  open_in (Run.disk (gameOverCheck r)) "savegame.dat" = open_in (Run.disk r) "savegame.dat" /\
  (Run.gameState (gameOverCheck r) = VICTORY -> Run.gameState r = VICTORY).
Proof.
  unfold gameOverCheck.
  destruct (_ || _); run_simpl.
  - destruct (recordHighScore_fields r) as (Hz & Hwv & Hs & Hr & _ & Hd).
    repeat split; try assumption. discriminate.
  - repeat split. exact id.
Qed.

Lemma tick_consistent i r : consistent r -> consistent (tick i r).
Proof.
  intros H. unfold tick.
  destruct (gameOverCheck_fields (waveCheck (simulate i r))) as (Hz & Hw & Hs & Hr & _).
  apply (consistent_fields _ _ Hz Hw Hs Hr).
  now apply waveCheck_consistent, simulate_consistent.
Qed.

Lemma tick_disk i r :
  open_in (Run.disk (tick i r)) "savegame.dat" = open_in (Run.disk r) "savegame.dat".
Proof.
  unfold tick.
  destruct (gameOverCheck_fields (waveCheck (simulate i r))) as (_ & _ & _ & _ & Hd & _).
  rewrite Hd, waveCheck_disk. now destruct (simulate_fields i r) as (_ & -> & _).
Qed.

(** ** Events, start-up and the invariant of reachable runs *)

Lemma consistentState_snapshot now r : consistent r -> consistentState (snapshot now r).
Proof.
  unfold consistent, consistentState, snapshot.
  cbn [zombies wave zombiesToSpawn waveZombiesRemaining]. now rewrite length_map.
Qed.

Lemma savedByGame_save now r :
  consistent r -> savedByGame (Run.disk r) ->
  savedByGame (saveGameState (snapshot now r) "savegame.dat" (Run.disk r)).
Proof.
  intros Hc Hd. unfold saveGameState at 1.
  destruct (open_out (Run.disk r) "savegame.dat") eqn:E; [|exact Hd].
  fold (saveGameState (snapshot now r) "savegame.dat" (Run.disk r)).
  pose proof (saveGameState_content (snapshot now r) "savegame.dat" (Run.disk r) E) as Hs.
  unfold saveGameState in Hs. rewrite E in Hs. cbv zeta in Hs. rewrite Hs.
  unfold savedByGame. rewrite open_in_close_out by assumption.
  exists (snapshot now r). split; [reflexivity|]. now apply consistentState_snapshot.
Qed.

Lemma handleEvent_fields e now r :
  Run.zombies (handleEvent e now r) = Run.zombies r /\
  Run.wave (handleEvent e now r) = Run.wave r /\
  Run.zombiesToSpawn (handleEvent e now r) = Run.zombiesToSpawn r /\
  Run.waveZombiesRemaining (handleEvent e now r) = Run.waveZombiesRemaining r /\
  (Run.gameState (handleEvent e now r) = VICTORY -> Run.gameState r = VICTORY) /\
  (consistent r -> savedByGame (Run.disk r) -> savedByGame (Run.disk (handleEvent e now r))).
Proof.
  unfold handleEvent, jump, attack.
  destruct e as [|[]|[]|mx my| | |]; destruct (Run.gameState r) eqn:G;
    repeat match goal with
           | |- context [if ?c then _ else _] => destruct c
           end;
    run_simpl; repeat split; try discriminate; try (intros; assumption);
    try (intros; congruence).
  all: intros Hc Hd; now apply savedByGame_save.
Qed.

Lemma pollEvents_fields i r :
  Run.zombies (pollEvents i r) = Run.zombies r /\
  Run.wave (pollEvents i r) = Run.wave r /\
  Run.zombiesToSpawn (pollEvents i r) = Run.zombiesToSpawn r /\
  Run.waveZombiesRemaining (pollEvents i r) = Run.waveZombiesRemaining r /\
  (Run.gameState (pollEvents i r) = VICTORY -> Run.gameState r = VICTORY) /\
  (consistent r -> savedByGame (Run.disk r) -> savedByGame (Run.disk (pollEvents i r))).
Proof.
  unfold pollEvents. generalize (events i) as evs. intros evs. revert r.
  induction evs as [|[e t] evs IH]; intros r; cbn [fold_left fst snd].
  - repeat split; auto.
  - destruct (handleEvent_fields e t r) as (Hz & Hw & Hs & Hr & Hv & Hd).
    destruct (IH (handleEvent e t r)) as (Hz' & Hw' & Hs' & Hr' & Hv' & Hd').
    rewrite Hz', Hw', Hs', Hr', Hz, Hw, Hs, Hr. repeat split; auto.
    intros Hc Hdisk. apply Hd'; [|now apply Hd].
    now apply (consistent_fields _ _ Hz Hw Hs Hr).
Qed.

Lemma newRun_consistent env fs : consistent (newRun env fs).
Proof. unfold consistent, countersOk, newRun. cbn. lia. Qed.

Lemma restore_consistent env state r :
  Run.zombies r = [] -> consistent r -> consistentState (recode state) ->
  consistent (restore env (recode state) r).
Proof.
  intros Hz Hc Hs. unfold restore. cbn [isValid recode].
  unfold consistent. cbn [Run.zombies Run.wave Run.zombiesToSpawn Run.waveZombiesRemaining].
  run_simpl. rewrite Hz. cbn [app]. rewrite length_map.
  exact Hs.
Qed.

Lemma consistentState_recode state : consistentState state -> consistentState (recode state).
Proof.
  unfold consistentState, countersOk, recode.
  cbn [zombies wave zombiesToSpawn waveZombiesRemaining].
  rewrite length_map. intros (Hn & Hr & Hs & Hw).
  rewrite !int_of_bytes_int_bytes by (unfold Int.in_range, Int.MIN, Int.MAX; lia).
  repeat split; lia.
Qed.

Lemma startRun_consistent loadSaved env fs r :
  savedByGame fs ->
  startRun loadSaved env fs = Returned r ->
  consistent r /\ Run.disk r = fs.
Proof.
  intros Hd.
  assert (Hnew : forall r0, consistent r0 -> Run.disk r0 = fs ->
            consistent (Run.set_highScore (loadHighScore "highscore.dat" fs) r0) /\
            Run.disk (Run.set_highScore (loadHighScore "highscore.dat" fs) r0) = fs).
  { intros r0 Hc Hfs. split; [exact Hc | exact Hfs]. }
  destruct loadSaved.
  2:{ rewrite startRun_new. intros [= <-].
      apply Hnew; [apply newRun_consistent | reflexivity]. }
  rewrite startRun_load.
  destruct (loadGameState (uninit env) "savegame.dat" fs) as [loaded|e] eqn:Hload;
    [|discriminate].
  cbn [bind]. intros [= <-].
  unfold savedByGame in Hd.
  destruct (open_in fs "savegame.dat") as [content|] eqn:E.
  - destruct Hd as (state & -> & Hs).
    assert (Hn : Z.of_nat (length (zombies state)) < 2 ^ 64).
    { destruct Hs as (Hn & _). lia. }
    rewrite (load_written_returned (uninit env) state "savegame.dat" fs loaded E Hn Hload).
    apply Hnew.
    + apply restore_consistent; [reflexivity | apply newRun_consistent |].
      now apply consistentState_recode.
    + unfold restore. cbn [isValid recode]. reflexivity.
  - unfold loadGameState in Hload. rewrite E in Hload. injection Hload as <-.
    rewrite restore_invalid by reflexivity.
    apply Hnew; [apply newRun_consistent | reflexivity].
Qed.

Lemma frame_consistent i r :
  consistent r -> savedByGame (Run.disk r) ->
  consistent (frame i r) /\ savedByGame (Run.disk (frame i r)).
Proof.
  intros Hc Hd. unfold frame.
  destruct (pollEvents_fields i r) as (Hz & Hw & Hs & Hr & _ & Hdisk).
  assert (Hc' : consistent (pollEvents i r)) by now apply (consistent_fields _ _ Hz Hw Hs Hr).
  specialize (Hdisk Hc Hd).
  destruct (Run.gameState (pollEvents i r)); try (split; assumption).
  split; [now apply tick_consistent|].
  unfold savedByGame. rewrite tick_disk. exact Hdisk.
Qed.

(** Every reachable run has at most five hostiles, an alive counter equal to
    their number, a wave index between 1 and 5 and a spawn quota between 0 and
    35; its save file, if any, was written from such a run. *)
Lemma reachable_consistent r : reachable r -> consistent r /\ savedByGame (Run.disk r).
Proof.
  induction 1 as [loadSaved env fs r Hnone Hstart|loadSaved env r r' Hr [Hc Hd] Hstart
                  |i r Hr [Hc Hd] Hrun].
  - assert (Hs : savedByGame fs).
    { unfold savedByGame, open_in. rewrite Hnone. now destruct (decide _). }
    destruct (startRun_consistent loadSaved env fs r Hs Hstart) as [Hc ->]. now split.
  - destruct (startRun_consistent loadSaved env (Run.disk r) r' Hd Hstart) as [Hc' ->].
    now split.
  - now apply frame_consistent.
Qed.

Lemma tick_wave i r : Run.wave (tick i r) = Run.wave (waveCheck (simulate i r)).
Proof. unfold tick. apply gameOverCheck_fields. Qed.

Lemma consistent_no_zombies r :
  consistent r -> Run.waveZombiesRemaining r = 0 -> Run.zombies r = [].
Proof.
  intros (_ & Hr & _) H0. rewrite Hr in H0.
  destruct (Run.zombies r); [reflexivity | cbn [length] in H0; lia].
Qed.

(** The wave check on three concrete runs: wave 1 cleared (the wave becomes
    2 and 20 hostiles are to spawn), wave 5 cleared (victory), and one hostile
    alive with nothing left to spawn (nothing happens). *)
Lemma waveCheck_examples :
  let cleared := Run.set_zombiesToSpawn 0 (newRun someEnv noFiles) in
  let last := Run.set_wave 5 cleared in
  Run.wave (waveCheck cleared) = 2 /\
  Run.zombiesToSpawn (waveCheck cleared) = 20 /\
  Run.gameState (waveCheck cleared) = PLAYING /\
  Run.gameState (waveCheck last) = VICTORY /\
  Run.wave (waveCheck last) = 5 /\
  Run.wave (waveCheck duel) = 1 /\
  Run.gameState (waveCheck duel) = PLAYING.
Proof. vm_compute. repeat split. Qed.

(** C4. In a reachable run, a loop iteration changes the wave index only by
    the wave check of its tick, by one, below the last wave, and only when at
    that check no hostile is alive and nothing of the wave's quota is left to
    spawn; and it enters Victory only when at that check both counts are zero
    in wave 5, the last of the 5 waves. *)
Theorem wave_advance_only_when_cleared (i : Input) (r : Run.t) :
  reachable r ->
  let s := simulate i (pollEvents i r) in
  (Run.wave (frame i r) <> Run.wave r ->
     Run.zombies s = [] /\ Run.waveZombiesRemaining s = 0 /\
     Run.zombiesToSpawn s = 0 /\ Run.wave s = Run.wave r /\
     Run.wave r < TOTAL_WAVES /\ Run.wave (frame i r) = Run.wave r + 1) /\
  (Run.gameState (frame i r) = VICTORY -> Run.gameState r <> VICTORY ->
     Run.zombies s = [] /\ Run.waveZombiesRemaining s = 0 /\
     Run.zombiesToSpawn s = 0 /\ Run.wave s = TOTAL_WAVES /\ TOTAL_WAVES = 5).
Proof.
  intros Hreach s.
  destruct (reachable_consistent r Hreach) as [Hc _].
  destruct (pollEvents_fields i r) as (Hz & Hw & Hs & Hr & Hv & _).
  assert (Hc' : consistent (pollEvents i r)) by now apply (consistent_fields _ _ Hz Hw Hs Hr).
  assert (Hcs : consistent s) by now apply simulate_consistent.
  destruct (simulate_fields i (pollEvents i r)) as (Hws & _ & Hgs).
  fold s in Hws, Hgs.
  unfold frame.
  destruct (Run.gameState (pollEvents i r)) eqn:G;
    try (split; [intros Hne; congruence
               | intros Hvic Hnv; first [congruence | destruct (Hnv (Hv eq_refl))]]).
  rewrite tick_wave. fold s.
  assert (Hg : Run.gameState (tick i (pollEvents i r)) = VICTORY ->
               Run.gameState (waveCheck s) = VICTORY).
  { unfold tick. fold s. apply gameOverCheck_fields. }
  pose proof Hcs as (_ & _ & _ & Hwr).
  destruct (waveCheck_cases s) as [(H1 & H2 & H3 & E)|[(H1 & H2 & H3 & E)|[E _]]].
  - split.
    + intros _. rewrite E. run_simpl.
      unfold Int.add. rewrite wrap_small by (unfold Int.in_range, Int.MIN, Int.MAX; lia).
      repeat split; try assumption; try congruence.
      now apply consistent_no_zombies.
    + intros Hvic _. apply Hg in Hvic. rewrite E in Hvic. run_simpl. congruence.
  - split.
    + intros Hne. exfalso. apply Hne. rewrite E. run_simpl.
      destruct (recordHighScore_fields s) as (_ & -> & _). congruence.
    + intros _ _. repeat split; try assumption. now apply consistent_no_zombies.
  - split.
    + intros Hne. exfalso. apply Hne. rewrite E. congruence.
    + intros Hvic _. apply Hg in Hvic. rewrite E in Hvic. congruence.
Qed.

Lemma reachable_newGame : reachable (newGame someEnv noFiles).
Proof. apply (reach_first false someEnv noFiles); reflexivity. Defined.

Lemma wave_advance_only_when_cleared_witness :
  let i := {| events := [(SDL_KEYDOWN SDLK_f, 2000)]; keyA := true; keyD := false;
              now := 2001;
              spawnRoll := {| platformDist := 1; xDist := F64.lit 1 4; typeDist := 0 |};
              foodChance := fun _ => F64.lit 1 4; foodClock := fun _ => 2001 |} in
  let r := newGame someEnv noFiles in
  let s := simulate i (pollEvents i r) in
  (Run.wave (frame i r) <> Run.wave r ->
     Run.zombies s = [] /\ Run.waveZombiesRemaining s = 0 /\
     Run.zombiesToSpawn s = 0 /\ Run.wave s = Run.wave r /\
     Run.wave r < TOTAL_WAVES /\ Run.wave (frame i r) = Run.wave r + 1) /\
  (Run.gameState (frame i r) = VICTORY -> Run.gameState r <> VICTORY ->
     Run.zombies s = [] /\ Run.waveZombiesRemaining s = 0 /\
     Run.zombiesToSpawn s = 0 /\ Run.wave s = TOTAL_WAVES /\ TOTAL_WAVES = 5).
Proof.
  intros i r. apply (wave_advance_only_when_cleared i r).
  exact reachable_newGame.
Defined.

Lemma tick_zombies_le i r :
  (length (Run.zombies (tick i r)) <= length (Run.zombies (spawnStep i (beforeSpawn i r))))%nat.
Proof.
  unfold tick.
  destruct (gameOverCheck_fields (waveCheck (simulate i r))) as (-> & _).
  assert (Hw : Run.zombies (waveCheck (simulate i r)) = Run.zombies (simulate i r)).
  { destruct (waveCheck_cases (simulate i r)) as [(_ & _ & _ & ->)|[(_ & _ & _ & ->)|[-> _]]];
      run_simpl; try reflexivity.
    apply recordHighScore_fields. }
  rewrite Hw. unfold simulate.
  destruct (foodStep_fields i (combatStep i (spawnStep i (beforeSpawn i r)))) as (-> & _).
  destruct (combatStep_zombies i (spawnStep i (beforeSpawn i r))) as (marked & Hlen & -> & _).
  pose proof (removeDead_length marked). lia.
Qed.

Lemma spawnStep_length i r :
  (length (Run.zombies r) <= length (Run.zombies (spawnStep i r)) <= S (length (Run.zombies r)))%nat.
Proof.
  destruct (spawnStep_cases i r) as [[-> _]|(_ & _ & [z ->] & _)].
  - lia.
  - rewrite length_app. cbn [length]. lia.
Qed.

(** C5. In a reachable run there are never more than 5 live hostiles, also
    right after the spawn step of a tick.  The spawn step adds a hostile only
    when the wave's remaining-to-spawn count is positive and fewer than 5 are
    alive; with 5 alive it changes nothing, whatever quota remains.  No other
    part of a loop iteration adds a hostile. *)
Theorem spawn_cap_respected (i : Input) (r : Run.t) :
  reachable r ->
  let s := beforeSpawn i (pollEvents i r) in
  Z.of_nat (length (Run.zombies r)) <= MAX_ZOMBIES_ONSCREEN /\
  Z.of_nat (length (Run.zombies (spawnStep i s))) <= MAX_ZOMBIES_ONSCREEN /\
  Z.of_nat (length (Run.zombies (frame i r))) <= MAX_ZOMBIES_ONSCREEN /\
  (length (Run.zombies (spawnStep i s)) <> length (Run.zombies s) ->
     0 < Run.zombiesToSpawn s /\
     Z.of_nat (length (Run.zombies s)) < MAX_ZOMBIES_ONSCREEN /\
     length (Run.zombies (spawnStep i s)) = S (length (Run.zombies s))) /\
  (Z.of_nat (length (Run.zombies s)) = MAX_ZOMBIES_ONSCREEN -> spawnStep i s = s) /\
  (length (Run.zombies (frame i r)) <= length (Run.zombies (spawnStep i s)))%nat.
Proof.
  intros Hreach s.
  destruct (reachable_consistent r Hreach) as [Hc Hd].
  destruct (frame_consistent i r Hc Hd) as [Hcf _].
  destruct (pollEvents_fields i r) as (Hz & Hw & Hs & Hr & _).
  assert (Hcp : consistent (pollEvents i r)) by now apply (consistent_fields _ _ Hz Hw Hs Hr).
  destruct (beforeSpawn_fields i (pollEvents i r)) as (Hz' & Hw' & Hs' & Hr' & _).
  fold s in Hz', Hw', Hs', Hr'.
  assert (Hcs : consistent s) by now apply (consistent_fields _ _ Hz' Hw' Hs' Hr').
  pose proof (spawnStep_consistent i s Hcs) as (Hn & _).
  destruct Hc as (Hn0 & _). destruct Hcf as (Hnf & _).
  unfold MAX_ZOMBIES_ONSCREEN.
  split; [lia|]. split; [lia|]. split; [lia|]. split; [|split].
  - intros Hne.
    destruct (spawnStep_cases i s) as [[E _]|(H1 & H2 & [z Hzs] & _)].
    + rewrite E in Hne. contradiction.
    + unfold MAX_ZOMBIES_ONSCREEN in H2. rewrite Hzs, length_app. cbn [length].
      repeat split; lia.
  - intros H5.
    destruct (spawnStep_cases i s) as [[E _]|(_ & H2 & _)]; [exact E|].
    unfold MAX_ZOMBIES_ONSCREEN in H2. lia.
  - unfold frame. destruct (Run.gameState (pollEvents i r));
      [unfold s; apply tick_zombies_le | | | ].
    all: rewrite <- Hz'; apply spawnStep_length.
Qed.

Lemma spawn_cap_respected_witness :
  let i := {| events := []; keyA := false; keyD := true; now := 2001;
              spawnRoll := {| platformDist := 4; xDist := F64.lit 3 4; typeDist := 1 |};
              foodChance := fun _ => F64.lit 1 4; foodClock := fun _ => 2001 |} in
  let r := newGame someEnv noFiles in
  let s := beforeSpawn i (pollEvents i r) in
  Z.of_nat (length (Run.zombies r)) <= MAX_ZOMBIES_ONSCREEN /\
  Z.of_nat (length (Run.zombies (spawnStep i s))) <= MAX_ZOMBIES_ONSCREEN /\
  Z.of_nat (length (Run.zombies (frame i r))) <= MAX_ZOMBIES_ONSCREEN /\
  (length (Run.zombies (spawnStep i s)) <> length (Run.zombies s) ->
     0 < Run.zombiesToSpawn s /\
     Z.of_nat (length (Run.zombies s)) < MAX_ZOMBIES_ONSCREEN /\
     length (Run.zombies (spawnStep i s)) = S (length (Run.zombies s))) /\
  (Z.of_nat (length (Run.zombies s)) = MAX_ZOMBIES_ONSCREEN -> spawnStep i s = s) /\
  (length (Run.zombies (frame i r)) <= length (Run.zombies (spawnStep i s)))%nat.
Proof.
  intros i r. apply (spawn_cap_respected i r). exact reachable_newGame.
Defined.

Lemma waveCheck_zombiesToSpawn r :
  Run.zombiesToSpawn r <= Run.zombiesToSpawn (waveCheck r).
Proof.
  destruct (waveCheck_cases r) as [(_ & H2 & _ & ->)|[(_ & _ & _ & ->)|[-> _]]]; run_simpl.
  - rewrite H2. apply quota_range.
  - destruct (recordHighScore_fields r) as (_ & _ & -> & _). lia.
  - lia.
Qed.

Lemma spawnStep_zombiesToSpawn i r :
  Int.in_range (Run.zombiesToSpawn r) ->
  Run.zombiesToSpawn r - 1 <= Run.zombiesToSpawn (spawnStep i r) <= Run.zombiesToSpawn r.
Proof.
  intros Hr.
  destruct (spawnStep_cases i r) as [[-> _]|(H1 & _ & _ & -> & _)]; [lia|].
  unfold Int.sub. rewrite wrap_small; [lia|].
  unfold Int.in_range, Int.MIN, Int.MAX in *. lia.
Qed.

(** C10. A tick admits at most one new hostile: its spawn step lengthens the
    hostile list by at most one and lowers the remaining-to-spawn count by at
    most one, and over the whole tick, and over the whole loop iteration, the
    live count increases by at most one and the remaining-to-spawn count
    decreases by at most one. *)
Theorem at_most_one_spawn_per_tick (i : Input) (r : Run.t) :
  Int.in_range (Run.zombiesToSpawn r) ->
  (length (Run.zombies (spawnStep i r)) <= S (length (Run.zombies r)))%nat /\
  Run.zombiesToSpawn r - 1 <= Run.zombiesToSpawn (spawnStep i r) /\
  (length (Run.zombies (tick i r)) <= S (length (Run.zombies r)))%nat /\
  Run.zombiesToSpawn r - 1 <= Run.zombiesToSpawn (tick i r) /\
  (length (Run.zombies (frame i r)) <= S (length (Run.zombies r)))%nat /\
  Run.zombiesToSpawn r - 1 <= Run.zombiesToSpawn (frame i r).
Proof.
  intros Hr.
  assert (Htick : forall r0, Int.in_range (Run.zombiesToSpawn r0) ->
            (length (Run.zombies (tick i r0)) <= S (length (Run.zombies r0)))%nat /\
            Run.zombiesToSpawn r0 - 1 <= Run.zombiesToSpawn (tick i r0)).
  { intros r0 Hr0.
    destruct (beforeSpawn_fields i r0) as (Hz & _ & Hs & _).
    split.
    - pose proof (tick_zombies_le i r0). pose proof (spawnStep_length i (beforeSpawn i r0)).
      rewrite Hz in *. lia.
    - unfold tick.
      destruct (gameOverCheck_fields (waveCheck (simulate i r0))) as (_ & _ & -> & _).
      assert (Hsim : Run.zombiesToSpawn (simulate i r0) =
                     Run.zombiesToSpawn (spawnStep i (beforeSpawn i r0))).
      { unfold simulate.
        destruct (foodStep_fields i (combatStep i (spawnStep i (beforeSpawn i r0))))
          as (_ & _ & -> & _).
        apply combatStep_fields. }
      pose proof (spawnStep_zombiesToSpawn i (beforeSpawn i r0)) as Hsp.
      rewrite Hs in Hsp. specialize (Hsp Hr0).
      pose proof (waveCheck_zombiesToSpawn (simulate i r0)). lia. }
  pose proof (spawnStep_length i r). pose proof (spawnStep_zombiesToSpawn i r Hr).
  destruct (Htick r Hr) as [Ht1 Ht2].
  repeat split; try lia.
  - unfold frame. destruct (pollEvents_fields i r) as (Hz & _ & Hs & _).
    destruct (Run.gameState (pollEvents i r)); rewrite <- ?Hz; try lia.
    apply Htick. now rewrite Hs.
  - unfold frame. destruct (pollEvents_fields i r) as (Hz & _ & Hs & _).
    destruct (Run.gameState (pollEvents i r)); rewrite <- ?Hs; try lia.
    apply Htick. now rewrite Hs.
Qed.

Lemma at_most_one_spawn_per_tick_witness :
  let i := {| events := []; keyA := false; keyD := true; now := 2001;
              spawnRoll := {| platformDist := 4; xDist := F64.lit 3 4; typeDist := 1 |};
              foodChance := fun _ => F64.lit 1 4; foodClock := fun _ => 2001 |} in
  let r := newRun someEnv noFiles in
  (length (Run.zombies (spawnStep i r)) <= S (length (Run.zombies r)))%nat /\
  Run.zombiesToSpawn r - 1 <= Run.zombiesToSpawn (spawnStep i r) /\
  (length (Run.zombies (tick i r)) <= S (length (Run.zombies r)))%nat /\
  Run.zombiesToSpawn r - 1 <= Run.zombiesToSpawn (tick i r) /\
  (length (Run.zombies (frame i r)) <= S (length (Run.zombies r)))%nat /\
  Run.zombiesToSpawn r - 1 <= Run.zombiesToSpawn (frame i r).
Proof.
  intros i r. apply (at_most_one_spawn_per_tick i r).
  unfold Int.in_range, Int.MIN, Int.MAX. cbn. lia.
Defined.

(* ===================================================================== *)
(** * Combat *)
(* ===================================================================== *)

(** ** Contact damage *)

Lemma sub_self_below (t : double) : F64.geb (F64.sub t t) (F64.of_int 1) = false.
Proof.
  unfold F64.geb, F64.sub. destruct t as [s|s| |s m e].
  - destruct s; reflexivity.
  - destruct s; reflexivity.
  - reflexivity.
  - cbn [SFsub]. rewrite Z.sub_diag. reflexivity.
Qed.

Lemma contactDamage_spec ct pr zr z p :
  let applies := SDL_HasIntersection pr zr &&
                 F64.geb (F64.sub ct (lastDamageTime z)) (F64.of_int 1) in
  contactDamage ct pr zr (z, p) =
    if applies
    then (with_lastDamageTime ct z, with_health (clampedHit (health p) (damage z)) p)
    else (z, p).
Proof.
  unfold contactDamage, clampedHit.
  destruct (SDL_HasIntersection pr zr); [|reflexivity].
  destruct (F64.geb _ _); [|reflexivity].
  cbn [andb health with_health].
  destruct (Int.sub (health p) (damage z) <? 0); [|reflexivity].
  destruct p; reflexivity.
Qed.

Lemma contactDamage_twice ct pr zr zp :
  contactDamage ct pr zr (contactDamage ct pr zr zp) = contactDamage ct pr zr zp.
Proof.
  destruct zp as [z p]. rewrite (contactDamage_spec ct pr zr z p). cbv zeta.
  destruct (SDL_HasIntersection pr zr && _) eqn:E; [|now rewrite contactDamage_spec, E].
  rewrite contactDamage_spec. cbv zeta. cbn [lastDamageTime with_lastDamageTime].
  now rewrite sub_self_below, andb_false_r.
Qed.

Lemma meleeHit_player i att idx rect z t :
  t_player (snd (meleeHit i att idx rect z t)) = t_player t /\
  lastDamageTime (fst (fst (meleeHit i att idx rect z t))) = lastDamageTime z.
Proof.
  unfold meleeHit. destruct att; [|split; reflexivity].
  destruct (SDL_HasIntersection _ _); [|split; reflexivity].
  cbn [body with_body health with_health].
  destruct (_ <=? 0); split; reflexivity.
Qed.

(** The second contact block of the loop body never applies. *)
Lemma zombieBody_once i att pr ct idx z t :
  zombieBody i att pr ct idx z t =
    let moved := Zombie_update platforms (t_player t) z in
    let zp := contactDamage ct pr (getRect (body moved)) (moved, t_player t) in
    meleeHit i att idx (getRect (body moved)) (fst zp)
      {| t_player := snd zp; t_score := t_score t;
         t_remaining := t_remaining t; t_foods := t_foods t |}.
Proof.
  unfold zombieBody. cbv zeta.
  destruct (contactDamage ct pr _ (_, t_player t)) as [z1 p1] eqn:E1.
  assert (E2 : contactDamage ct pr
                 (getRect (body (Zombie_update platforms (t_player t) z))) (z1, p1) = (z1, p1)).
  { rewrite <- E1. apply contactDamage_twice. }
  rewrite E2. reflexivity.
Qed.



(** ** Melee *)

Ltac split_ifs :=
  repeat match goal with
         | |- context [if ?c then _ else _] => destruct c
         | |- context [match ?c with Some _ => _ | None => _ end] => destruct c
         end.

Lemma integrate_health still e : health (integrate still e) = health e.
Proof. unfold integrate. split_ifs; reflexivity. Qed.

Lemma resolveCollisions_health terrain e : health (resolveCollisions terrain e) = health e.
Proof.
  unfold resolveCollisions.
  assert (H1 : forall e0, health (hitRightWall terrain e0) = health e0)
    by (intros e0; unfold hitRightWall; split_ifs; reflexivity).
  assert (H2 : forall e0, health (hitLeftWall terrain e0) = health e0)
    by (intros e0; unfold hitLeftWall; split_ifs; reflexivity).
  assert (H3 : forall e0, health (hitCeiling terrain e0) = health e0)
    by (intros e0; unfold hitCeiling; split_ifs; reflexivity).
  assert (H4 : forall e0, health (hitGround terrain e0) = health e0)
    by (intros e0; unfold hitGround; split_ifs; reflexivity).
  now rewrite H1, H2, H3, H4.
Qed.

Lemma keepInScreen_health floor_ e : health (keepInScreen floor_ e) = health e.
Proof. unfold keepInScreen. split_ifs; reflexivity. Qed.

Lemma Zombie_update_health terrain player z :
  health (body (Zombie_update terrain player z)) = health (body z).
Proof.
  unfold Zombie_update. cbn [body with_body].
  now rewrite keepInScreen_health, resolveCollisions_health, integrate_health.
Qed.

Lemma Zombie_update_player terrain p p' z :
  pos p = pos p' -> Zombie_update terrain p z = Zombie_update terrain p' z.
Proof. intros H. unfold Zombie_update. now rewrite H. Qed.

Lemma attackRect_place p p' :
  pos p = pos p' -> w p = w p' -> h p = h p' -> attackRect p = attackRect p'.
Proof. intros H1 H2 H3. unfold attackRect. now rewrite H1, H2, H3. Qed.

Lemma contactDamage_place ct pr zr z p :
  pos (snd (contactDamage ct pr zr (z, p))) = pos p /\
  w (snd (contactDamage ct pr zr (z, p))) = w p /\
  h (snd (contactDamage ct pr zr (z, p))) = h p /\
  body (fst (contactDamage ct pr zr (z, p))) = body z.
Proof.
  rewrite contactDamage_spec. cbv zeta. destruct (_ && _); repeat split.
Qed.

Lemma meleeHit_health i att idx rect z t :
  let inReach := att && SDL_HasIntersection (attackRect (t_player t)) rect in
  health (body (fst (fst (meleeHit i att idx rect z t)))) =
    (if inReach then Int.sub (health (body z)) MELEE_DAMAGE else health (body z)) /\
  snd (fst (meleeHit i att idx rect z t)) =
    inReach && (Int.sub (health (body z)) MELEE_DAMAGE <=? 0).
Proof.
  unfold meleeHit. destruct att; [|split; reflexivity].
  destruct (SDL_HasIntersection _ _); [|split; reflexivity].
  cbn [body with_body health with_health andb].
  destruct (_ <=? 0); split; reflexivity.
Qed.

Lemma zombieBody_melee i att pr ct idx z t :
  let after := zombieBody i att pr ct idx z t in
  health (body (fst (fst after))) = healthAfterMelee att (t_player t) z /\
  snd (fst after) = slain att (t_player t) z /\
  pos (t_player (snd after)) = pos (t_player t) /\
  w (t_player (snd after)) = w (t_player t) /\
  h (t_player (snd after)) = h (t_player t).
Proof.
  cbv zeta. rewrite zombieBody_once. cbv zeta.
  set (moved := Zombie_update platforms (t_player t) z).
  set (zp := contactDamage ct pr (getRect (body moved)) (moved, t_player t)).
  destruct (contactDamage_place ct pr (getRect (body moved)) moved (t_player t))
    as (Hp & Hw & Hh & Hb).
  fold zp in Hp, Hw, Hh, Hb.
  set (t' := {| t_player := snd zp; t_score := t_score t;
                t_remaining := t_remaining t; t_foods := t_foods t |}).
  destruct (meleeHit_health i att idx (getRect (body moved)) (fst zp) t') as [H1 H2].
  destruct (meleeHit_player i att idx (getRect (body moved)) (fst zp) t') as [H3 _].
  cbv zeta in H1, H2.
  change (t_player t') with (snd zp) in H1, H2, H3.
  rewrite (attackRect_place (snd zp) (t_player t) Hp Hw Hh) in H1, H2.
  rewrite Hb in H1, H2.
  assert (Hm : health (body moved) = health (body z)) by apply Zombie_update_health.
  rewrite Hm in H1, H2.
  split; [exact H1|]. split.
  - rewrite H2. unfold slain, healthAfterMelee, struck. fold moved.
    now destruct (att && _).
  - rewrite H3. auto.
Qed.

Lemma struck_place att p p' z :
  pos p = pos p' -> w p = w p' -> h p = h p' -> struck att p z = struck att p' z.
Proof.
  intros Hp Hw Hh. unfold struck.
  now rewrite (Zombie_update_player platforms p p' z Hp), (attackRect_place p p' Hp Hw Hh).
Qed.

Lemma healthAfterMelee_place att p p' z :
  pos p = pos p' -> w p = w p' -> h p = h p' ->
  healthAfterMelee att p z = healthAfterMelee att p' z /\ slain att p z = slain att p' z.
Proof.
  intros Hp Hw Hh. unfold slain, healthAfterMelee.
  now rewrite (struck_place att p p' z Hp Hw Hh).
Qed.

Lemma zombieLoop_melee i att pr ct p idx zs t :
  pos (t_player t) = pos p -> w (t_player t) = w p -> h (t_player t) = h p ->
  map (fun zm => (health (body (fst zm)), snd zm)) (fst (zombieLoop i att pr ct idx zs t)) =
    map (fun z => (healthAfterMelee att p z, slain att p z)) zs.
Proof.
  revert idx t. induction zs as [|z zs IH]; intros idx t Hp Hw Hh; cbn [zombieLoop].
  - reflexivity.
  - destruct (zombieBody_melee i att pr ct idx z t) as (H1 & H2 & H3 & H4 & H5).
    cbv zeta in *.
    destruct (zombieBody i att pr ct idx z t) as [[z' dead] t1]. cbn [fst snd] in *.
    specialize (IH (S idx) t1).
    destruct (zombieLoop i att pr ct (S idx) zs t1) as [ms t2]. cbn [fst map] in *.
    rewrite IH by congruence. rewrite H1, H2.
    destruct (healthAfterMelee_place att (t_player t) p z Hp Hw Hh) as [-> ->].
    reflexivity.
Qed.

Lemma removeDead_health (marked : list (Zombie * bool)) (zs : list Zombie)
    (after : Zombie -> Z) (dead : Zombie -> bool) :
  map (fun zm => (health (body (fst zm)), snd zm)) marked =
    map (fun z => (after z, dead z)) zs ->
  map (fun z => health (body z)) (removeDead marked) =
    map after (List.filter (fun z => negb (dead z)) zs).
Proof.
  revert zs. induction marked as [|[z' b] ms IH]; intros [|z zs] H; cbn [map] in H;
    try discriminate; [reflexivity|].
  injection H as H1 H2 H3. subst b. unfold removeDead in *.
  cbn [List.filter snd]. destruct (dead z); cbn [negb map fst].
  - now apply IH.
  - rewrite <- H1. f_equal. now apply IH.
Qed.

Lemma combatStep_health i r :
  hostileHealth (combatStep i r) =
    map (healthAfterMelee (Run.attacking r) (Run.player r))
      (List.filter (fun z => negb (slain (Run.attacking r) (Run.player r) z)) (Run.zombies r)).
Proof.
  unfold hostileHealth, combatStep.
  set (t0 := {| t_player := Run.player r; t_score := Run.score r;
                t_remaining := Run.waveZombiesRemaining r; t_foods := Run.foods r |}).
  pose proof (zombieLoop_melee i (Run.attacking r) (getRect (Run.player r))
                (seconds (now i)) (Run.player r) 0 (Run.zombies r) t0
                eq_refl eq_refl eq_refl) as H.
  destruct (zombieLoop _ _ _ _ _ _ _) as [marked t]. run_simpl. cbn [fst] in H.
  now apply removeDead_health.
Qed.

Lemma filter_all {A} (f : A -> bool) (l : list A) :
  (forall a, f a = true) -> List.filter f l = l.
Proof.
  intros H. induction l as [|a l IH]; cbn [List.filter]; [reflexivity|].
  now rewrite H, IH.
Qed.

Lemma attack_rejected now r :
  F64.geb (F64.sub (seconds now) (Run.lastAttackTime r)) ATTACK_COOLDOWN = false ->
  handleEvent (SDL_KEYDOWN SDLK_f) now r = r.
Proof.
  intros H. unfold handleEvent, attack. rewrite H. now destruct (Run.gameState r).
Qed.

(** C7. The zombie loop of a tick turns every hostile into exactly one
    hostile or none: a hostile inside the armed hitbox has its health lowered
    by [MELEE_DAMAGE = 25] once and is removed when that leaves none; any
    other hostile keeps its health; the order is kept.  The tick disarms the
    hitbox, and without an armed hitbox the loop leaves every health as it
    was.  An attack key that goes down before [ATTACK_COOLDOWN] has elapsed
    since the last activation changes nothing at all.  A tank at health 100
    is at 75 after one activation, still at 75 after a second key press 16 ms
    later, and at 50 after one 500 ms later. *)
Theorem melee_damage_once (i : Input) (r : Run.t) (now : Z) :
  hostileHealth (combatStep i r) =
    map (healthAfterMelee (Run.attacking r) (Run.player r))
      (List.filter (fun z => negb (slain (Run.attacking r) (Run.player r) z)) (Run.zombies r)) /\
  (forall z, healthAfterMelee (Run.attacking r) (Run.player r) z =
             if struck (Run.attacking r) (Run.player r) z
             then Int.sub (health (body z)) MELEE_DAMAGE else health (body z)) /\
  MELEE_DAMAGE = 25 /\
  Run.attacking (combatStep i r) = false /\
  Run.attacking (tick i r) = false /\
  (Run.attacking r = false -> hostileHealth (combatStep i r) = hostileHealth r) /\
  (F64.geb (F64.sub (seconds now) (Run.lastAttackTime r)) ATTACK_COOLDOWN = false ->
   handleEvent (SDL_KEYDOWN SDLK_f) now r = r) /\
  hostileHealth brawl = [100] /\
  hostileHealth (frame (pressF 2000) brawl) = [75] /\
  hostileHealth (frame (pressF 2016) (frame (pressF 2000) brawl)) = [75] /\
  hostileHealth (frame (pressF 2500) (frame (pressF 2016) (frame (pressF 2000) brawl))) = [50].
Proof.
  split; [apply combatStep_health|]. split; [reflexivity|]. split; [reflexivity|].
  split; [apply combatStep_fields|]. split.
  { unfold tick, gameOverCheck, waveCheck, recordHighScore, simulate, foodStep.
    destruct (foodLoop _ _ _ _) as [[fs hp] n].
    repeat match goal with
           | |- context [if ?c then _ else _] => destruct c
           end; run_simpl; apply combatStep_fields. }
  split.
  { intros Hatt. rewrite combatStep_health, Hatt.
    rewrite filter_all by reflexivity. reflexivity. }
  split; [apply attack_rejected|].
  vm_compute. repeat split.
Qed.

Lemma melee_damage_once_witness :
  handleEvent (SDL_KEYDOWN SDLK_f) 2016 (frame (pressF 2000) brawl) =
    frame (pressF 2000) brawl.
Proof.
  apply (melee_damage_once (pressF 2000) (frame (pressF 2000) brawl) 2016).
  vm_compute. reflexivity.
Defined.

(* ===================================================================== *)
(** * Kinematics *)
(* ===================================================================== *)

Lemma reachable_runLoop inputs r : reachable r -> reachable (runLoop inputs r).
Proof.
  unfold runLoop. revert r. induction inputs as [|i inputs IH]; intros r Hr; cbn [fold_left].
  - exact Hr.
  - apply IH. destruct (Run.running r) eqn:E; [now apply reach_frame | exact Hr].
Qed.

(** C3, evaluated where the code departs from it.  The Actor walks left on
    the ground at the speed cap; [accelerate] keeps the velocity at
    [-MAX_SPEED], and the update that follows moves the Actor to x = 7, where
    the screen clamp stores the coordinate 10 in [vel.x], twice [MAX_SPEED].
    A new run in which the "A" key is held reaches such a state within 20
    loop iterations. *)
Theorem screen_clamp_exceeds_MAX_SPEED :
  let before := accelerate (F32.opp PLAYER_ACCEL) (F32.of_int 0) walkingLeft in
  let after := PhysicsEntity_update platforms true before in
  let r := runLoop (map holdA (schedule 2000 16 20)) (newGame someEnv noFiles) in
  MAX_SPEED = F32.of_int 5 /\
  x (vel before) = F32.opp MAX_SPEED /\
  x (vel after) = F32.of_int 10 /\
  F32.leb (x (vel after)) MAX_SPEED = false /\
  reachable r /\
  x (vel (Run.player r)) = F32.of_int 10 /\
  F32.leb (x (vel (Run.player r))) MAX_SPEED = false.
Proof.
  cbv zeta. split; [reflexivity|]. split; [vm_compute; reflexivity|].
  split; [vm_compute; reflexivity|]. split; [vm_compute; reflexivity|].
  split; [apply reachable_runLoop, reachable_newGame|].
  vm_compute. split; reflexivity.
Qed.

(** C8, as stated, fails: the Actor of [hardLanding] is on the ground with
    the vertical velocity 492 that the screen clamp has stored; the jump adds
    [JUMP_FORCE] and leaves 479, not -13. *)
Lemma jump_after_hard_landing :
  let r := hardLanding in
  let r' := handleEvent (SDL_KEYDOWN SDLK_SPACE) 2000 r in
  Run.gameState r = PLAYING /\
  Run.jumping r = false /\
  onGround (Run.player r) = true /\
  y (vel (Run.player r)) = F32.of_int 492 /\
  onGround (Run.player r') = false /\
  y (vel (Run.player r')) = F32.of_int 479 /\
  y (vel (Run.player r')) <> JUMP_FORCE.
Proof. vm_compute. repeat split. discriminate. Qed.

Lemma add_zero_JUMP_FORCE v : float_is_zero v = true -> F32.add v JUMP_FORCE = JUMP_FORCE.
Proof.
  destruct v as [s|[]| |[] m e]; intros H; try (cbv in H; discriminate).
  reflexivity.
Qed.

(** C8, amended. The jump key changes the run only while playing, with the
    Actor on the ground and no jump key already held.  It then adds
    [JUMP_FORCE = -13.0] to [velocity.y], which makes it exactly [JUMP_FORCE]
    when it was zero, clears [onGround] and marks the key as held.  With
    [onGround] false the key changes nothing. *)
Theorem jump_adds_JUMP_FORCE (now : Z) (r : Run.t) :
  let r' := handleEvent (SDL_KEYDOWN SDLK_SPACE) now r in
  JUMP_FORCE = F32.of_int (-13) /\
  (r' <> r ->
     Run.gameState r = PLAYING /\ onGround (Run.player r) = true /\ Run.jumping r = false) /\
  (Run.gameState r = PLAYING -> onGround (Run.player r) = true -> Run.jumping r = false ->
     y (vel (Run.player r')) = F32.add (y (vel (Run.player r))) JUMP_FORCE /\
     (float_is_zero (y (vel (Run.player r))) = true ->
        y (vel (Run.player r')) = JUMP_FORCE) /\
     onGround (Run.player r') = false /\
     Run.jumping r' = true) /\
  (onGround (Run.player r) = false -> r' = r).
Proof.
  cbv zeta. split; [reflexivity|]. unfold handleEvent.
  split; [|split].
  - destruct (Run.gameState r); try (intros H; now destruct H).
    destruct (onGround (Run.player r)); [|intros H; now destruct H].
    destruct (Run.jumping r); [intros H; now destruct H|]. now intros _.
  - intros -> -> ->. cbn [andb negb]. unfold jump, accelerate. run_simpl.
    assert (Hy : forall v : Vector2D,
               y (if F32.ltb
                       (x (if F32.gtb (x v) MAX_SPEED then set_x MAX_SPEED v else v))
                       (F32.opp MAX_SPEED)
                  then set_x (F32.opp MAX_SPEED)
                         (if F32.gtb (x v) MAX_SPEED then set_x MAX_SPEED v else v)
                  else if F32.gtb (x v) MAX_SPEED then set_x MAX_SPEED v else v) = y v).
    { intros v. destruct (F32.gtb (x v) MAX_SPEED); destruct (F32.ltb _ _); reflexivity. }
    cbn [vel with_vel with_onGround onGround]. rewrite Hy. cbn [y].
    repeat split. intros Hz. now apply add_zero_JUMP_FORCE.
  - intros ->. now destruct (Run.gameState r).
Qed.

Lemma jump_adds_JUMP_FORCE_witness :
  let r := Run.set_player (with_onGround true newPlayer) (newRun someEnv noFiles) in
  let r' := handleEvent (SDL_KEYDOWN SDLK_SPACE) 2000 r in
  y (vel (Run.player r')) = F32.add (y (vel (Run.player r))) JUMP_FORCE /\
  (float_is_zero (y (vel (Run.player r))) = true -> y (vel (Run.player r')) = JUMP_FORCE) /\
  onGround (Run.player r') = false /\
  Run.jumping r' = true.
Proof.
  intros r r'.
  apply (jump_adds_JUMP_FORCE 2000 r); reflexivity.
Defined.

(* ===================================================================== *)
(** * Pickups *)
(* ===================================================================== *)

Lemma Food_update_spawnTime terrain f : spawnTime (Food_update terrain f) = spawnTime f.
Proof. reflexivity. Qed.

Lemma foodBody_spec ct pr food hp :
  let moved := Food_update platforms food in
  let expired := F64.geb (F64.sub ct (spawnTime food)) LIFETIME in
  let touching := SDL_HasIntersection pr (getRect (body (base moved))) in
  foodBody ct pr food hp =
    if expired then (None, hp, 1%nat)
    else if touching then (None, restored hp, 1%nat)
    else (Some moved, hp, 0%nat).
Proof.
  cbv zeta. unfold foodBody. rewrite Food_update_spawnTime.
  destruct (F64.geb _ _); [reflexivity|].
  destruct (SDL_HasIntersection _ _); reflexivity.
Qed.

Lemma foodLoop_erases ct pr fs hp :
  (length (fst (fst (foodLoop ct pr fs hp))) + snd (foodLoop ct pr fs hp) = length fs)%nat.
Proof.
  revert hp. induction fs as [|f fs IH]; intros hp; cbn [foodLoop].
  - reflexivity.
  - rewrite foodBody_spec. cbv zeta.
    destruct (F64.geb _ _); [|destruct (SDL_HasIntersection _ _)].
    all: match goal with
         | |- context [foodLoop ?c ?p ?l ?h] =>
             specialize (IH h); destruct (foodLoop c p l h) as [[kept hp'] m]
         end; cbn [fst snd length] in *; lia.
Qed.

Lemma restored_min hp : 0 <= hp <= 100 -> restored hp = Z.min 100 (hp + 20).
Proof.
  intros H. unfold restored, HEALTH_RESTORE, Int.add.
  rewrite wrap_small by (unfold Int.in_range, Int.MIN, Int.MAX; lia).
  destruct (100 <? hp + 20) eqn:E; [apply Z.ltb_lt in E | apply Z.ltb_ge in E]; lia.
Qed.

Lemma iter_restored n hp :
  0 <= hp <= 100 -> Nat.iter n restored hp = Z.min 100 (hp + 20 * Z.of_nat n).
Proof.
  intros H. induction n as [|n IH].
  - change (Nat.iter 0 restored hp) with hp. lia.
  - rewrite Nat.iter_succ, IH, restored_min by lia. lia.
Qed.

Lemma iter_restored_shift n hp : Nat.iter n restored (restored hp) = Nat.iter (S n) restored hp.
Proof. symmetry. apply Nat.iter_succ_r. Qed.

(** The pass over the container: the pickups that stay, the health of the
    Actor after it and the number of erasures. *)
Lemma foodLoop_spec ct pr fs hp :
  foodLoop ct pr fs hp =
    (map (Food_update platforms) (List.filter (staysIn ct pr) fs),
     Nat.iter (length (List.filter (isCollected ct pr) fs)) restored hp,
     (length (List.filter (isExpired ct) fs) +
      length (List.filter (isCollected ct pr) fs))%nat).
Proof.
  revert hp. induction fs as [|f fs IH]; intros hp; cbn [foodLoop List.filter].
  - reflexivity.
  - rewrite foodBody_spec. cbv zeta.
    unfold staysIn, isCollected, isExpired, isTouching in *.
    destruct (F64.geb _ _); cbn [negb andb].
    + rewrite IH. cbn [length]. reflexivity.
    + destruct (SDL_HasIntersection _ _); cbn [negb andb].
      * rewrite IH. cbn [length map]. rewrite iter_restored_shift.
        now rewrite Nat.add_succ_r.
      * rewrite IH. cbn [length map]. reflexivity.
Qed.

Lemma foodStep_spec i r :
  let ct := seconds (now i) in
  let pr := getRect (Run.player r) in
  Run.foods (foodStep i r) =
    map (Food_update platforms) (List.filter (staysIn ct pr) (Run.foods r)) /\
  health (Run.player (foodStep i r)) =
    Nat.iter (length (List.filter (isCollected ct pr) (Run.foods r))) restored
      (health (Run.player r)).
Proof.
  cbv zeta. unfold foodStep. rewrite foodLoop_spec.
  cbn [Run.set_foods Run.set_player Run.foods Run.player health with_health].
  split; reflexivity.
Qed.

(** C9. For each pickup the food loop first tests expiry
    ([currentTime - spawnTime >= LIFETIME], [LIFETIME = 10.0]): an expired
    pickup is erased and the Actor's health stays as it is, whether or not
    their boxes intersect.  A pickup that has not expired and intersects the
    Actor is erased and the health grows by 20, capped at 100.  Any other
    pickup stays.  So the pass of a tick over the container keeps exactly the
    pickups that have neither expired nor touch the Actor, in their order and
    updated; it raises the health once for each pickup that touches the Actor
    and has not expired, and for no other; and it erases each pickup at most
    once: one erasure for each expired and for each collected pickup, and the
    erasures and the pickups that stay add up to the pickups there were.  In
    a tick at 11.000 with a pickup of 1.000 in the Actor's box the pickup is
    gone and the health is as before (70); at 10.999 it is gone and the
    health is 90; a pickup that is far away and younger stays. *)
Theorem pickup_expiry_before_collection (currentTime : double) (playerRect : SDL_Rect.t)
    (food : Food) (fs : list Food) (hp : Z) (i : Input) (r : Run.t) :
  let moved := Food_update platforms food in
  let expired := F64.geb (F64.sub currentTime (spawnTime food)) LIFETIME in
  let touching := SDL_HasIntersection playerRect (getRect (body (base moved))) in
  let collected := List.filter (isCollected currentTime playerRect) fs in
  foodBody currentTime playerRect food hp =
    (if expired then (None, hp, 1%nat)
     else if touching then (None, restored hp, 1%nat)
     else (Some moved, hp, 0%nat)) /\
  (0 <= hp <= 100 -> restored hp = Z.min 100 (hp + 20)) /\
  LIFETIME = F64.of_int 10 /\
  (length (fst (fst (foodLoop currentTime playerRect fs hp))) +
   snd (foodLoop currentTime playerRect fs hp) = length fs)%nat /\
  foodLoop currentTime playerRect fs hp =
    (map (Food_update platforms) (List.filter (staysIn currentTime playerRect) fs),
     Nat.iter (length collected) restored hp,
     (length (List.filter (isExpired currentTime) fs) + length collected)%nat) /\
  (0 <= hp <= 100 ->
   snd (fst (foodLoop currentTime playerRect fs hp)) =
     Z.min 100 (hp + 20 * Z.of_nat (length collected))) /\
  (expired = true ->
   fst (foodLoop currentTime playerRect (food :: fs) hp) =
     fst (foodLoop currentTime playerRect fs hp) /\
   snd (foodLoop currentTime playerRect (food :: fs) hp) =
     S (snd (foodLoop currentTime playerRect fs hp))) /\
  isExpired currentTime food = expired /\
  isCollected currentTime playerRect food = negb expired && touching /\
  staysIn currentTime playerRect food = negb expired && negb touching /\
  Run.foods (foodStep i r) =
    map (Food_update platforms)
      (List.filter (staysIn (seconds (now i)) (getRect (Run.player r))) (Run.foods r)) /\
  health (Run.player (foodStep i r)) =
    Nat.iter (length (List.filter (isCollected (seconds (now i)) (getRect (Run.player r)))
                        (Run.foods r)))
      restored (health (Run.player r)) /\
  simulate i r = foodStep i (combatStep i (spawnStep i (beforeSpawn i r))) /\
  SDL_HasIntersection (getRect (Run.player duel))
    (getRect (body (base (Food_update platforms snack)))) = true /\
  foodBody (seconds 11000) (getRect (Run.player duel)) snack 70 = (None, 70, 1%nat) /\
  fst (foodBody (seconds 10999) (getRect (Run.player duel)) snack 70) = (None, 90) /\
  fst (foodBody (seconds 5000) (getRect (Run.player duel)) snack 95) = (None, 100) /\
  (Run.gameState picnic, health (Run.player picnic), Run.foods picnic) =
    (PLAYING, 70, [snack; farSnack]) /\
  (health (Run.player (frame (idle 11000) picnic)), Run.foods (frame (idle 11000) picnic)) =
    (70, [Food_update platforms farSnack]) /\
  (health (Run.player (frame (idle 10999) picnic)), Run.foods (frame (idle 10999) picnic)) =
    (90, [Food_update platforms farSnack]).
Proof.
  cbv zeta. split; [apply foodBody_spec|]. split; [apply restored_min|].
  split; [reflexivity|]. split; [apply foodLoop_erases|].
  split; [apply foodLoop_spec|].
  split; [intros H; rewrite foodLoop_spec; cbn [fst snd]; now apply iter_restored|].
  split.
  { intros He. cbn [foodLoop]. rewrite foodBody_spec. cbv zeta. rewrite He.
    destruct (foodLoop currentTime playerRect fs hp) as [[kept hp'] m].
    cbn [fst snd]. split; reflexivity. }
  split; [reflexivity|]. split; [reflexivity|]. split; [reflexivity|].
  split; [apply (foodStep_spec i r)|]. split; [apply (foodStep_spec i r)|].
  split; [reflexivity|].
  vm_compute. repeat split.
Qed.

Lemma pickup_expiry_before_collection_witness :
  restored 95 = Z.min 100 (95 + 20) /\
  snd (fst (foodLoop (seconds 10999) (getRect (Run.player duel)) [snack; farSnack] 70)) =
    Z.min 100 (70 + 20 * Z.of_nat
      (length (List.filter (isCollected (seconds 10999) (getRect (Run.player duel)))
                 [snack; farSnack]))) /\
  fst (foodLoop (seconds 11000) (getRect (Run.player duel)) [snack; farSnack] 70) =
    fst (foodLoop (seconds 11000) (getRect (Run.player duel)) [farSnack] 70).
Proof.
  split; [|split].
  - destruct (pickup_expiry_before_collection (seconds 5000) (getRect (Run.player duel))
                snack [] 95 (idle 0) duel) as (_ & H & _).
    apply H. lia.
  - destruct (pickup_expiry_before_collection (seconds 10999) (getRect (Run.player duel))
                snack [snack; farSnack] 70 (idle 0) duel) as (_ & _ & _ & _ & _ & H & _).
    apply H. lia.
  - destruct (pickup_expiry_before_collection (seconds 11000) (getRect (Run.player duel))
                snack [farSnack] 70 (idle 0) duel) as (_ & _ & _ & _ & _ & _ & H & _).
    apply H. vm_compute. reflexivity.
Defined.

(* ===================================================================== *)
(** * Further properties of the persistence code *)
(* ===================================================================== *)

Lemma zombie_bytes_length zombie : length (zombie_bytes zombie) = 12%nat.
Proof.
  destruct zombie as [[zx zy] t]. unfold zombie_bytes, float_bytes, int_bytes.
  now rewrite !length_app, !le_bytes_length.
Qed.

Lemma flat_map_zombie_bytes_length zs :
  length (flat_map zombie_bytes zs) = (12 * length zs)%nat.
Proof.
  induction zs as [|z zs IH]; cbn [flat_map length]; [reflexivity|].
  rewrite length_app, zombie_bytes_length, IH. lia.
Qed.

Lemma saveGameState_other state filename other fs :
  other <> filename ->
  files (saveGameState state filename fs) !! other = files fs !! other.
Proof.
  intros Hne. destruct (open_out fs filename) eqn:E.
  - rewrite saveGameState_content by assumption. unfold close_out. cbn [files].
    now apply lookup_insert_ne.
  - unfold saveGameState. now rewrite E.
Qed.

Lemma saveGameState_denied state filename fs :
  denied (saveGameState state filename fs) = denied fs.
Proof.
  destruct (open_out fs filename) eqn:E.
  - now rewrite saveGameState_content by assumption.
  - unfold saveGameState. now rewrite E.
Qed.

(** X1. The record written for a snapshot with [n] hostiles has 57 + 12 n
    bytes, whatever the values of its fields; a path that cannot be opened is
    left alone, and no other file is touched. *)
Theorem save_file_size (state : GameState) (filename other : string) (fs : FileSystem) :
  (open_out fs filename = true ->
     files (saveGameState state filename fs) !! filename = Some (GameState_bytes state) /\
     length (GameState_bytes state) = (57 + 12 * length (zombies state))%nat) /\
  (open_out fs filename = false -> saveGameState state filename fs = fs) /\
  (other <> filename ->
     files (saveGameState state filename fs) !! other = files fs !! other) /\
  denied (saveGameState state filename fs) = denied fs.
Proof.
  split; [|split; [|split]].
  - intros H. rewrite saveGameState_content by assumption. split.
    + unfold close_out. cbn [files]. apply lookup_insert_eq.
    + unfold GameState_bytes, Vector2D_bytes, float_bytes, int_bytes, double_bytes,
        bool_bytes, size_t_bytes.
      rewrite !length_app, !le_bytes_length, flat_map_zombie_bytes_length. lia.
  - intros H. unfold saveGameState. now rewrite H.
  - apply saveGameState_other.
  - apply saveGameState_denied.
Qed.

Lemma save_file_size_witness :
  (files (saveGameState sampleState "savegame.dat" noFiles) !! "savegame.dat"%string =
     Some (GameState_bytes sampleState) /\
   length (GameState_bytes sampleState) = (57 + 12 * length (zombies sampleState))%nat) /\
  saveGameState sampleState "savegame.dat" readOnly = readOnly /\
  files (saveGameState sampleState "savegame.dat" shortScore) !! "highscore.dat"%string =
    files shortScore !! "highscore.dat"%string.
Proof.
  split; [|split].
  - apply (save_file_size sampleState "savegame.dat" "highscore.dat" noFiles). reflexivity.
  - apply (save_file_size sampleState "savegame.dat" "highscore.dat" readOnly).
    vm_compute. reflexivity.
  - apply (save_file_size sampleState "savegame.dat" "highscore.dat" shortScore).
    discriminate.
Defined.

Lemma loadHighScore_written sc filename fs :
  open_in fs filename = Some (int_bytes sc) ->
  loadHighScore filename fs = int_of_bytes (int_bytes sc).
Proof.
  intros H. unfold loadHighScore. rewrite H.
  replace (int_bytes sc) with (int_bytes sc ++ []) at 1 by apply app_nil_r.
  rewrite read_obj_app by (unfold int_bytes; now rewrite !le_bytes_length).
  reflexivity.
Qed.

(** X2. A high score that was saved is the one loaded, for every [int]; and
    saving the game in between does not disturb it. *)
Theorem high_score_roundtrip (sc : Z) (state : GameState) (fs : FileSystem) :
  Int.in_range sc ->
  open_out fs "highscore.dat" = true ->
  loadHighScore "highscore.dat" (saveHighScore sc "highscore.dat" fs) = sc /\
  loadHighScore "highscore.dat"
    (saveGameState state "savegame.dat" (saveHighScore sc "highscore.dat" fs)) = sc.
Proof.
  intros Hr Hopen.
  assert (Hs : saveHighScore sc "highscore.dat" fs =
               close_out fs "highscore.dat" (int_bytes sc)).
  { unfold saveHighScore. now rewrite Hopen. }
  assert (Hin : open_in (saveHighScore sc "highscore.dat" fs) "highscore.dat" =
                Some (int_bytes sc)).
  { rewrite Hs. now apply open_in_close_out. }
  split.
  - rewrite (loadHighScore_written sc) by assumption. now apply int_of_bytes_int_bytes.
  - rewrite (loadHighScore_written sc); [now apply int_of_bytes_int_bytes|].
    set (fs1 := saveHighScore sc "highscore.dat" fs) in *.
    unfold open_in in *.
    rewrite saveGameState_denied.
    destruct (decide ("highscore.dat"%string ∈ denied fs1)); [discriminate|].
    rewrite saveGameState_other by discriminate. exact Hin.
Qed.

Lemma high_score_roundtrip_witness :
  loadHighScore "highscore.dat" (saveHighScore (-1700) "highscore.dat" noFiles) = -1700 /\
  loadHighScore "highscore.dat"
    (saveGameState sampleState "savegame.dat"
       (saveHighScore (-1700) "highscore.dat" noFiles)) = -1700.
Proof.
  apply (high_score_roundtrip (-1700) sampleState noFiles).
  - unfold Int.in_range, Int.MIN, Int.MAX. lia.
  - reflexivity.
Defined.

Lemma le_value_bound bs : 0 <= le_value bs < 256 ^ Z.of_nat (length bs).
Proof.
  induction bs as [|b bs IH]; cbn [le_value length].
  - cbn. lia.
  - pose proof (Z_of_byte_range b). rewrite Nat2Z.inj_succ, Z.pow_succ_r by lia. lia.
Qed.

Lemma le_value_app_zero bs n : le_value (bs ++ le_bytes n 0) = le_value bs.
Proof.
  induction bs as [|b bs IH]; cbn [app le_value].
  - rewrite le_value_le_bytes. apply Z.mod_0_l. apply Z.pow_nonzero; lia.
  - now rewrite IH.
Qed.

Lemma skipn_le_bytes_zero k n : skipn k (le_bytes n 0) = le_bytes (n - k) 0.
Proof.
  revert k. induction n as [|n IH]; intros k.
  - now destruct k.
  - destruct k; [reflexivity|]. cbn [le_bytes skipn Nat.sub].
    change (0 / 256) with 0. apply IH.
Qed.

(** X3. [loadHighScore] never fails: without a file that can be opened the high
    score is 0, and a file shorter than an [int] gives the value of the bytes
    it has, read as the low-order bytes of a number whose other bytes are 0. *)
Theorem high_score_of_missing_or_short_file (filename : string) (fs : FileSystem)
    (content : list byte) :
  (open_in fs filename = None -> loadHighScore filename fs = 0) /\
  (open_in fs filename = Some content -> (length content < 4)%nat ->
     loadHighScore filename fs = le_value content /\
     0 <= loadHighScore filename fs < 2 ^ 24).
Proof.
  split.
  - intros H. unfold loadHighScore. now rewrite H.
  - intros H Hlen. unfold loadHighScore. rewrite H.
    unfold read_obj, istream_read. cbn [ok rest fst].
    assert (E : length (int_bytes 0) = 4%nat) by reflexivity. rewrite E.
    destruct (Nat.leb_spec 4 (length content)) as [Hge|_]; [lia|]. cbn beta iota. cbn [fst].
    unfold int_bytes. rewrite skipn_le_bytes_zero.
    unfold int_of_bytes. rewrite le_value_app_zero.
    pose proof (le_value_bound content) as Hb.
    assert (256 ^ Z.of_nat (length content) <= 256 ^ 3) by (apply Z.pow_le_mono_r; lia).
    change (256 ^ 3) with (2 ^ 24) in *.
    rewrite wrap_small; [lia|].
    unfold Int.in_range, Int.MIN, Int.MAX. lia.
Qed.

Lemma high_score_of_missing_or_short_file_witness :
  loadHighScore "highscore.dat" noFiles = 0 /\
  loadHighScore "highscore.dat" shortScore = 300.
Proof.
  split.
  - exact (proj1 (high_score_of_missing_or_short_file "highscore.dat" noFiles [])
             eq_refl).
  - assert (E : open_in shortScore "highscore.dat" = Some [Byte.x2c; Byte.x01])
      by (vm_compute; reflexivity).
    destruct (proj2 (high_score_of_missing_or_short_file "highscore.dat" shortScore
                       [Byte.x2c; Byte.x01]) E) as [H _].
    + cbn [length]. lia.
    + exact H.
Defined.

(* ===================================================================== *)
(** * Comparisons *)
(* ===================================================================== *)

Lemma SFcompare_antisym x y : SFcompare y x = option_map CompOpp (SFcompare x y).
Proof.
  destruct x as [[]|[]| |[] mx ex], y as [[]|[]| |[] my ey];
    cbn [SFcompare option_map CompOpp]; try reflexivity.
  - rewrite (Z.compare_antisym ex ey). destruct (ex ?= ey) eqn:E; cbn [CompOpp]; try reflexivity.
    change (Pcompare my mx Eq) with (my ?= mx)%positive.
    change (Pcompare mx my Eq) with (mx ?= my)%positive.
    rewrite (Pos.compare_antisym mx my). now rewrite CompOpp_involutive.
  - rewrite (Z.compare_antisym ex ey). destruct (ex ?= ey) eqn:E; cbn [CompOpp]; try reflexivity.
    change (Pcompare my mx Eq) with (my ?= mx)%positive.
    change (Pcompare mx my Eq) with (mx ?= my)%positive.
    now rewrite (Pos.compare_antisym mx my).
Qed.

(** For numbers, "not [x <= y]" is [y < x]. *)
Lemma SFleb_false_ltb x y :
  x <> S754_nan -> y <> S754_nan -> SFleb x y = false -> SFltb y x = true.
Proof.
  unfold SFleb, SFltb. rewrite (SFcompare_antisym x y).
  destruct (SFcompare x y) as [[]|] eqn:E; cbn; try discriminate; try reflexivity.
  intros Hx Hy _. destruct x, y; cbn in E; try discriminate; congruence.
Qed.

Lemma SFltb_false_leb x y :
  x <> S754_nan -> y <> S754_nan -> SFltb x y = false -> SFleb y x = true.
Proof.
  unfold SFleb, SFltb. rewrite (SFcompare_antisym x y).
  destruct (SFcompare x y) as [[]|] eqn:E; cbn; try discriminate; try reflexivity.
  intros Hx Hy _. destruct x, y; cbn in E; try discriminate; congruence.
Qed.

Lemma SFltb_leb x y : SFltb x y = true -> SFleb x y = true.
Proof. unfold SFleb, SFltb. destruct (SFcompare x y) as [[]|]; congruence. Qed.

Lemma SFleb_nan_l y : SFleb S754_nan y = false.
Proof. reflexivity. Qed.

Lemma SFleb_nan_r x : SFleb x S754_nan = false.
Proof. destruct x; reflexivity. Qed.

(* ===================================================================== *)
(** * Bodies *)
(* ===================================================================== *)

Lemma SFleb_ltb_false x y : SFleb x y = true -> SFltb y x = false.
Proof.
  unfold SFleb, SFltb. rewrite (SFcompare_antisym x y).
  destruct (SFcompare x y) as [[]|]; cbn; congruence.
Qed.

Lemma below_not_above v :
  SFltb v (F32.opp MAX_SPEED) = true -> SFltb MAX_SPEED v = false.
Proof.
  destruct v as [[]|[]| |[] m e]; intros H; try reflexivity; vm_compute in H; try discriminate H.
Qed.

(** X4. [accelerate] adds the two components to the velocity and then limits the
    horizontal one: unless the sum is not a number, the new horizontal
    velocity lies in [-MAX_SPEED, MAX_SPEED].  The vertical velocity is not
    limited, and nothing but the velocity changes.  The new horizontal
    velocity is the sum when the sum lies in that interval, [MAX_SPEED] when
    the sum is above it and [-MAX_SPEED] when the sum is below it. *)
Theorem accelerate_limits_horizontal_speed (ax ay : float) (e : PhysicsEntity) :
  let e' := accelerate ax ay e in
  (F32.add (x (vel e)) ax <> S754_nan ->
     within (F32.opp MAX_SPEED) MAX_SPEED (x (vel e')) = true) /\
  (F32.add (x (vel e)) ax = S754_nan -> x (vel e') = S754_nan) /\
  y (vel e') = F32.add (y (vel e)) ay /\
  with_vel (vel e) e' = e /\
  (within (F32.opp MAX_SPEED) MAX_SPEED (F32.add (x (vel e)) ax) = true ->
     x (vel e') = F32.add (x (vel e)) ax) /\
  (F32.gtb (F32.add (x (vel e)) ax) MAX_SPEED = true -> x (vel e') = MAX_SPEED) /\
  (F32.ltb (F32.add (x (vel e)) ax) (F32.opp MAX_SPEED) = true ->
     x (vel e') = F32.opp MAX_SPEED).
Proof.
  cbv zeta. unfold accelerate, within, F32.gtb, F32.ltb, F32.leb.
  set (v := F32.add (x (vel e)) ax).
  cbn [x y].
  assert (Hmax : MAX_SPEED <> S754_nan) by (vm_compute; discriminate).
  assert (Hmin : F32.opp MAX_SPEED <> S754_nan) by (vm_compute; discriminate).
  split; [|split; [|split; [|split; [|split; [|split]]]]].
  - intros Hv.
    destruct (SFltb MAX_SPEED v) eqn:Hgt; cbn [set_x x y vel with_vel].
    + assert (E : SFltb MAX_SPEED (F32.opp MAX_SPEED) = false) by (vm_compute; reflexivity).
      rewrite E. cbn [x vel with_vel]. vm_compute. reflexivity.
    + destruct (SFltb v (F32.opp MAX_SPEED)) eqn:Hlt; cbn [set_x x y vel with_vel].
      * vm_compute. reflexivity.
      * rewrite (SFltb_false_leb _ _ Hv Hmin Hlt), (SFltb_false_leb _ _ Hmax Hv Hgt).
        reflexivity.
  - intros Hv. rewrite Hv. reflexivity.
  - destruct (SFltb MAX_SPEED v); cbn [set_x x y];
      match goal with |- context [if ?c then _ else _] => destruct c end; reflexivity.
  - destruct e as [p vl c w0 h0 og g fr hp]. reflexivity.
  - intros H. apply andb_prop in H as [Hlo Hhi].
    rewrite (SFleb_ltb_false _ _ Hhi). cbn [x].
    now rewrite (SFleb_ltb_false _ _ Hlo).
  - intros H. rewrite H. cbn [set_x x].
    assert (E : SFltb MAX_SPEED (F32.opp MAX_SPEED) = false) by (vm_compute; reflexivity).
    rewrite E. reflexivity.
  - intros H. rewrite (below_not_above v H). cbn [x]. rewrite H. reflexivity.
Qed.

Lemma accelerate_limits_horizontal_speed_witness :
  within (F32.opp MAX_SPEED) MAX_SPEED
    (x (vel (accelerate (F32.opp PLAYER_ACCEL) (F32.of_int 0) walkingLeft))) = true /\
  x (vel (accelerate PLAYER_ACCEL (F32.of_int 0)
            (with_vel {| x := S754_nan; y := F32.zero |} newPlayer))) = S754_nan.
Proof.
  split.
  - destruct (accelerate_limits_horizontal_speed (F32.opp PLAYER_ACCEL) (F32.of_int 0)
                walkingLeft) as (H & _).
    apply H. vm_compute. discriminate.
  - destruct (accelerate_limits_horizontal_speed PLAYER_ACCEL (F32.of_int 0)
                (with_vel {| x := S754_nan; y := F32.zero |} newPlayer)) as (_ & H & _).
    apply H. reflexivity.
Defined.

Lemma integrate_attributes still e : attributes (integrate still e) = attributes e.
Proof. unfold integrate. split_ifs; reflexivity. Qed.

Lemma resolveCollisions_attributes terrain e :
  attributes (resolveCollisions terrain e) = attributes e.
Proof.
  unfold resolveCollisions.
  assert (H1 : forall e0, attributes (hitRightWall terrain e0) = attributes e0)
    by (intros e0; unfold hitRightWall; split_ifs; reflexivity).
  assert (H2 : forall e0, attributes (hitLeftWall terrain e0) = attributes e0)
    by (intros e0; unfold hitLeftWall; split_ifs; reflexivity).
  assert (H3 : forall e0, attributes (hitCeiling terrain e0) = attributes e0)
    by (intros e0; unfold hitCeiling; split_ifs; reflexivity).
  assert (H4 : forall e0, attributes (hitGround terrain e0) = attributes e0)
    by (intros e0; unfold hitGround; split_ifs; reflexivity).
  now rewrite H1, H2, H3, H4.
Qed.

Lemma keepInScreen_attributes floor_ e : attributes (keepInScreen floor_ e) = attributes e.
Proof. unfold keepInScreen. split_ifs; reflexivity. Qed.

(** X5. The three [update] functions move a body and set its velocity and its
    [onGround] flag, and nothing else: collision box, size, gravity and
    friction flags and health are the same afterwards, and so are a
    hostile's kind, speed, damage and damage timer and a pickup's spawn
    time. *)
Theorem update_keeps_attributes (terrain : Terrain.t) (hasInput : bool)
    (e player : PhysicsEntity) (z : Zombie) (f : Food) :
  attributes (PhysicsEntity_update terrain hasInput e) = attributes e /\
  with_body (body z) (Zombie_update terrain player z) = z /\
  attributes (body (Zombie_update terrain player z)) = attributes (body z) /\
  with_body (body (base f)) (base (Food_update terrain f)) = base f /\
  attributes (body (base (Food_update terrain f))) = attributes (body (base f)) /\
  spawnTime (Food_update terrain f) = spawnTime f.
Proof.
  repeat apply conj.
  - unfold PhysicsEntity_update.
    now rewrite keepInScreen_attributes, resolveCollisions_attributes, integrate_attributes.
  - destruct z. reflexivity.
  - unfold Zombie_update. cbn [body with_body].
    now rewrite keepInScreen_attributes, resolveCollisions_attributes, integrate_attributes.
  - destruct f as [[] ?]. reflexivity.
  - unfold Food_update. cbn [base body with_body].
    set (e0 := resolveCollisions terrain _).
    assert (H0 : attributes e0 = attributes (body (base f)))
      by (unfold e0; now rewrite resolveCollisions_attributes, integrate_attributes).
    rewrite <- H0. clear H0. generalize e0. clear e0. intros e0.
    split_ifs; reflexivity.
  - reflexivity.
Qed.

(** ** Standing on the ground *)

Lemma hitGround_cases terrain e :
  (onGround (hitGround terrain e) = true /\ y (vel (hitGround terrain e)) = F32.of_int 0) \/
  hitGround terrain e = e.
Proof.
  unfold hitGround. destruct (grounded terrain e && _); [left|now right].
  cbn zeta. split_ifs; split; reflexivity.
Qed.

Lemma hitCeiling_grounded terrain e :
  y (vel e) = F32.of_int 0 -> hitCeiling terrain e = e.
Proof.
  intros H. unfold hitCeiling. rewrite H.
  replace (F32.ltb (F32.of_int 0) (F32.of_int 0)) with false by (vm_compute; reflexivity).
  now rewrite andb_false_r.
Qed.

Lemma hitCeiling_onGround terrain e : onGround (hitCeiling terrain e) = onGround e.
Proof. unfold hitCeiling. split_ifs; reflexivity. Qed.

Lemma hitLeftWall_vertical terrain e :
  onGround (hitLeftWall terrain e) = onGround e /\
  y (vel (hitLeftWall terrain e)) = y (vel e).
Proof. unfold hitLeftWall. split_ifs; split; reflexivity. Qed.

Lemma hitRightWall_vertical terrain e :
  onGround (hitRightWall terrain e) = onGround e /\
  y (vel (hitRightWall terrain e)) = y (vel e).
Proof. unfold hitRightWall. split_ifs; split; reflexivity. Qed.

(** After the collision blocks the flag is set only by the ground block, which
    also zeroes the vertical velocity. *)
Lemma resolveCollisions_grounded terrain e :
  onGround (resolveCollisions terrain e) = true ->
  y (vel (resolveCollisions terrain e)) = F32.of_int 0.
Proof.
  unfold resolveCollisions. cbv zeta.
  set (e1 := hitGround terrain (with_onGround false e)).
  destruct (hitRightWall_vertical terrain (hitLeftWall terrain (hitCeiling terrain e1)))
    as [-> ->].
  destruct (hitLeftWall_vertical terrain (hitCeiling terrain e1)) as [-> ->].
  rewrite hitCeiling_onGround. intros Hg.
  destruct (hitGround_cases terrain (with_onGround false e)) as [[_ Hv]|Hsame].
  - fold e1 in Hv. now rewrite hitCeiling_grounded.
  - fold e1 in Hsame. rewrite Hsame in Hg. discriminate.
Qed.

Lemma keepInScreen_onGround floor_ e : onGround (keepInScreen floor_ e) = onGround e.
Proof. unfold keepInScreen. split_ifs; reflexivity. Qed.

Lemma keepInScreen_vertical floor_ e :
  y (vel (keepInScreen floor_ e)) = y (vel e) \/
  y (vel (keepInScreen floor_ e)) = F32.of_int 0 \/
  (y (vel (keepInScreen floor_ e)) =
     F32.of_int (Int.sub (Int.sub SCREEN_HEIGHT (h e)) floor_) /\
   y (pos (keepInScreen floor_ e)) = y (vel (keepInScreen floor_ e))).
Proof.
  unfold keepInScreen. cbv zeta. split_ifs; cbn [vel pos with_vel with_pos set_x set_y x y];
    auto.
Qed.

(** X6. A body that an update leaves with [onGround] set has vertical velocity 0,
    with one exception: when the bottom clause of the screen clamp fired, the
    vertical velocity is the clamped coordinate [SCREEN_HEIGHT - h - 60] (50
    for a hostile), the same number as its vertical position.  A pickup on
    the ground always has vertical velocity 0. *)
Theorem grounded_vertical_velocity (terrain : Terrain.t) (hasInput : bool)
    (e player : PhysicsEntity) (z : Zombie) (f : Food) :
  (let e' := PhysicsEntity_update terrain hasInput e in
   onGround e' = true ->
   y (vel e') = F32.of_int 0 \/
   (y (vel e') = F32.of_int (Int.sub (Int.sub SCREEN_HEIGHT (h e)) 60) /\
    y (pos e') = y (vel e'))) /\
  (let b' := body (Zombie_update terrain player z) in
   onGround b' = true ->
   y (vel b') = F32.of_int 0 \/
   (y (vel b') = F32.of_int (Int.sub (Int.sub SCREEN_HEIGHT (h (body z))) 50) /\
    y (pos b') = y (vel b'))) /\
  (let b' := body (base (Food_update terrain f)) in
   onGround b' = true -> y (vel b') = F32.of_int 0).
Proof.
  assert (Hh : forall still e0,
             h (resolveCollisions terrain (integrate still e0)) = h e0).
  { intros still e0.
    pose proof (resolveCollisions_attributes terrain (integrate still e0)) as H1.
    pose proof (integrate_attributes still e0) as H2.
    unfold attributes in H1, H2. congruence. }
  repeat apply conj; cbv zeta.
  - unfold PhysicsEntity_update. rewrite keepInScreen_onGround. intros Hg.
    apply resolveCollisions_grounded in Hg.
    destruct (keepInScreen_vertical 60
                (resolveCollisions terrain (integrate (fun _ => negb hasInput) e)))
      as [E|[E|E]].
    + left. congruence.
    + now left.
    + right. now rewrite Hh in E.
  - unfold Zombie_update. cbn [body with_body]. rewrite keepInScreen_onGround. intros Hg.
    apply resolveCollisions_grounded in Hg.
    match goal with
    | |- context [keepInScreen 50 ?b] => destruct (keepInScreen_vertical 50 b) as [E|[E|E]]
    end.
    + left. congruence.
    + now left.
    + right. now rewrite Hh in E.
  - unfold Food_update. cbn [base body with_body].
    set (e0 := resolveCollisions terrain _).
    intros Hg.
    assert (H0 : onGround e0 = true -> y (vel e0) = F32.of_int 0)
      by apply resolveCollisions_grounded.
    revert Hg H0. generalize e0. clear e0. intros e0.
    split_ifs; cbn [onGround vel pos with_vel with_pos set_x set_y x y]; auto.
Qed.

Lemma grounded_vertical_velocity_witness :
  (y (vel (PhysicsEntity_update platforms false falling)) = F32.of_int 0 \/
   (y (vel (PhysicsEntity_update platforms false falling)) =
      F32.of_int (Int.sub (Int.sub SCREEN_HEIGHT (h falling)) 60) /\
    y (pos (PhysicsEntity_update platforms false falling)) =
      y (vel (PhysicsEntity_update platforms false falling)))) /\
  (y (vel (body (Zombie_update platforms newPlayer walker))) = F32.of_int 0 \/
   (y (vel (body (Zombie_update platforms newPlayer walker))) =
      F32.of_int (Int.sub (Int.sub SCREEN_HEIGHT (h (body walker))) 50) /\
    y (pos (body (Zombie_update platforms newPlayer walker))) =
      y (vel (body (Zombie_update platforms newPlayer walker))))) /\
  y (vel (body (base (Food_update platforms crumb)))) = F32.of_int 0.
Proof.
  split; [|split].
  - apply (grounded_vertical_velocity platforms false falling newPlayer walker crumb).
    vm_compute. reflexivity.
  - apply (grounded_vertical_velocity platforms false falling newPlayer walker crumb).
    vm_compute. reflexivity.
  - apply (grounded_vertical_velocity platforms false falling newPlayer walker crumb).
    vm_compute. reflexivity.
Defined.

(** ** The side margins *)

Lemma keepInScreen_horizontal floor_ e :
  w e = 32 \/ w e = 48 ->
  x (pos (keepInScreen floor_ e)) = S754_nan \/
  within (F32.of_int 10) (F32.of_int (Int.sub (Int.sub SCREEN_WIDTH (w e)) 30))
    (x (pos (keepInScreen floor_ e))) = true.
Proof.
  intros Hw. unfold keepInScreen, within, F32.leb, F32.gtb. cbv zeta.
  set (R := F32.of_int (Int.sub (Int.sub SCREEN_WIDTH (w e)) 30)).
  assert (HR : R <> S754_nan) by (unfold R; destruct Hw as [-> | ->]; vm_compute; discriminate).
  assert (H10 : F32.of_int 10 <> S754_nan) by (vm_compute; discriminate).
  destruct (SFleb (x (pos e)) (F32.of_int 10)) eqn:Hlo.
  { right. cbn [pos with_pos with_vel set_x x]. unfold R.
    destruct Hw as [-> | ->]; vm_compute; reflexivity. }
  fold R.
  destruct (SFltb R (x (pos e))) eqn:Hhi.
  { right. cbn [pos with_pos with_vel set_x x]. unfold R.
    destruct Hw as [-> | ->]; vm_compute; reflexivity. }
  assert (Hx : x (pos e) = S754_nan \/
               SFleb (F32.of_int 10) (x (pos e)) && SFleb (x (pos e)) R = true).
  { destruct (x (pos e)) as [s|s| |s m ex] eqn:Ex; [right|right|now left|right].
    all: match type of Hlo with
         | SFleb ?v _ = false =>
             assert (Hn : v <> S754_nan) by discriminate;
             rewrite (SFltb_leb _ _ (SFleb_false_ltb _ _ Hn H10 Hlo));
             rewrite (SFltb_false_leb _ _ HR Hn Hhi)
         end.
    all: reflexivity. }
  split_ifs; cbn [pos with_pos with_vel set_x set_y x y]; exact Hx.
Qed.

(** X7. After its update the Actor (48 wide) and every hostile (32 wide) is
    between the side margins: unless its horizontal position is not a number,
    it is at least 10 and at most [SCREEN_WIDTH - w - 30].  (The vertical
    clauses of the clamp are skipped in an update in which a horizontal one
    fired.) *)
Theorem horizontal_position_between_margins (terrain : Terrain.t) (hasInput : bool)
    (e player : PhysicsEntity) (z : Zombie) :
  (w e = 48 ->
   let e' := PhysicsEntity_update terrain hasInput e in
   x (pos e') = S754_nan \/ within (F32.of_int 10) (F32.of_int 722) (x (pos e')) = true) /\
  (w (body z) = 32 ->
   let b' := body (Zombie_update terrain player z) in
   x (pos b') = S754_nan \/ within (F32.of_int 10) (F32.of_int 738) (x (pos b')) = true).
Proof.
  assert (Hw : forall still e0,
             w (resolveCollisions terrain (integrate still e0)) = w e0).
  { intros still e0.
    pose proof (resolveCollisions_attributes terrain (integrate still e0)) as H1.
    pose proof (integrate_attributes still e0) as H2.
    unfold attributes in H1, H2. congruence. }
  split; intros Hsize; cbv zeta.
  - unfold PhysicsEntity_update.
    pose proof (keepInScreen_horizontal 60
                  (resolveCollisions terrain (integrate (fun _ => negb hasInput) e))) as H.
    rewrite Hw, Hsize in H. apply H. now right.
  - unfold Zombie_update. cbn [body with_body].
    match goal with
    | |- context [keepInScreen 50 ?b] => pose proof (keepInScreen_horizontal 50 b) as H
    end.
    rewrite Hw in H. cbn [w with_vel] in H. rewrite Hsize in H. apply H. now left.
Qed.

Lemma horizontal_position_between_margins_witness :
  (x (pos (PhysicsEntity_update platforms true walkingLeft)) = S754_nan \/
   within (F32.of_int 10) (F32.of_int 722)
     (x (pos (PhysicsEntity_update platforms true walkingLeft))) = true) /\
  (x (pos (body (Zombie_update platforms walkingLeft walker))) = S754_nan \/
   within (F32.of_int 10) (F32.of_int 738)
     (x (pos (body (Zombie_update platforms walkingLeft walker)))) = true).
Proof.
  split.
  - apply (horizontal_position_between_margins platforms true walkingLeft walkingLeft
             walker).
    reflexivity.
  - apply (horizontal_position_between_margins platforms true walkingLeft walkingLeft
             walker).
    reflexivity.
Defined.

(* ===================================================================== *)
(** * Day and night *)
(* ===================================================================== *)

Lemma sub_self_below_interval (t : double) :
  F64.geb (F64.sub t t) WEATHER_CHANGE_INTERVAL = false.
Proof.
  unfold F64.geb, F64.sub. destruct t as [s|s| |s m e].
  - destruct s; reflexivity.
  - destruct s; reflexivity.
  - reflexivity.
  - cbn [SFsub]. rewrite Z.sub_diag. reflexivity.
Qed.

(** X8. [WeatherSystem::update] switches between day and night exactly when
    at least [WEATHER_CHANGE_INTERVAL] has elapsed since the last switch, and
    then restarts the interval at the current time; otherwise it changes
    nothing.  Calling it again with the same time never switches back. *)
Theorem weather_switches_once_per_interval (currentTime : double) (ws : WeatherSystem) :
  let due := F64.geb (F64.sub currentTime (weatherStart ws)) WEATHER_CHANGE_INTERVAL in
  let ws' := Weather_update currentTime ws in
  (due = true ->
     Weather_getType ws' = 1 - Weather_getType ws /\ weatherStart ws' = currentTime) /\
  (due = false -> ws' = ws) /\
  Weather_update currentTime ws' = ws'.
Proof.
  cbv zeta.
  assert (Hagain : forall w, Weather_update currentTime
                     {| weatherStart := currentTime; currentWeather := w |} =
                     {| weatherStart := currentTime; currentWeather := w |}).
  { intros w. unfold Weather_update. cbn [weatherStart].
    now rewrite sub_self_below_interval. }
  assert (Hcases :
    (F64.geb (F64.sub currentTime (weatherStart ws)) WEATHER_CHANGE_INTERVAL = true /\
     Weather_update currentTime ws =
       {| weatherStart := currentTime;
          currentWeather := match currentWeather ws with DAY => NIGHT | NIGHT => DAY end |}) \/
    (F64.geb (F64.sub currentTime (weatherStart ws)) WEATHER_CHANGE_INTERVAL = false /\
     Weather_update currentTime ws = ws)).
  { unfold Weather_update. destruct (F64.geb _ _); [left|right]; split; reflexivity. }
  destruct Hcases as [[E ->]|[E Hsame]].
  - rewrite E. repeat split; try discriminate.
    + unfold Weather_getType. cbn [currentWeather]. now destruct (currentWeather ws).
    + apply Hagain.
  - rewrite E, Hsame. repeat split; try discriminate. exact Hsame.
Qed.

Lemma weather_switches_once_per_interval_witness :
  (Weather_getType (Weather_update (seconds 31500) (Weather_init 1500)) =
     1 - Weather_getType (Weather_init 1500) /\
   weatherStart (Weather_update (seconds 31500) (Weather_init 1500)) = seconds 31500) /\
  Weather_update (seconds 20000) (Weather_init 1500) = Weather_init 1500.
Proof.
  split.
  - apply (weather_switches_once_per_interval (seconds 31500) (Weather_init 1500)).
    vm_compute. reflexivity.
  - refine (proj1 (proj2 (weather_switches_once_per_interval (seconds 20000)
                            (Weather_init 1500))) _).
    vm_compute. reflexivity.
Defined.

(** X9. The phase that [getType] reports is the one [setType] sets: restoring the
    saved number gives the saved phase and restarts the interval at the
    current clock, and [setType] ignores every number other than 0 and 1. *)
Theorem weather_type_roundtrip (type_ now : Z) (saved ws : WeatherSystem) :
  Weather_getType (Weather_setType (Weather_getType saved) now ws) = Weather_getType saved /\
  weatherStart (Weather_setType (Weather_getType saved) now ws) = seconds now /\
  (type_ <> 0 -> type_ <> 1 -> Weather_setType type_ now ws = ws) /\
  (0 <= Weather_getType ws <= 1).
Proof.
  unfold Weather_setType, Weather_getType.
  repeat split.
  - destruct (currentWeather saved); reflexivity.
  - destruct (currentWeather saved); reflexivity.
  - intros H0 H1. apply Z.eqb_neq in H0, H1. now rewrite H0, H1.
  - destruct (currentWeather ws); lia.
  - destruct (currentWeather ws); lia.
Qed.

Lemma weather_type_roundtrip_witness :
  Weather_setType 2 1602 (Weather_init 1500) = Weather_init 1500.
Proof.
  apply (weather_type_roundtrip 2 1602 (Weather_init 1500) (Weather_init 1500)); lia.
Defined.

(* ===================================================================== *)
(** * Spawning *)
(* ===================================================================== *)

(** X10. [spawnZombie] adds nothing when the terrain has no platform or when the
    texture of the drawn kind is null.  Otherwise it appends exactly one
    hostile and leaves the others as they are: the new one is of the drawn
    kind, 32 by 32, with the full health, the damage and the speed of its
    kind, a damage timer of 0, and its top 32 pixels above the top of one of
    the platforms. *)
Theorem spawnZombie_appends_one (zs : list Zombie) (terrain : Terrain.t)
    (attackTex tankTex : bool) (roll : SpawnRoll) :
  let kind := if typeDist roll =? 0 then ATTACK else TANK in
  let tex := if Type_eqb kind ATTACK then attackTex else tankTex in
  (terrain = [] \/ tex = false -> spawnZombie zs terrain attackTex tankTex roll = zs) /\
  (terrain <> [] -> tex = true ->
     exists zx platform,
       In platform terrain /\
       spawnZombie zs terrain attackTex tankTex roll =
         zs ++ [Zombie_new zx
                  (F32.of_int (Int.sub (Int.mul (Platform.y platform) TILE_SIZE) 32))
                  32 32 kind]).
Proof.
  cbv zeta. unfold spawnZombie. split.
  - intros [-> | H]; [reflexivity|].
    destruct terrain as [|first others]; [reflexivity|].
    cbv zeta. now rewrite H.
  - intros Hne Htex. destruct terrain as [|first others]; [congruence|].
    cbv zeta. rewrite Htex. cbn [negb].
    eexists. exists (nth (platformDist roll mod length (first :: others))%nat
                          (first :: others) first).
    split; [|reflexivity].
    apply nth_In. apply Nat.mod_upper_bound. discriminate.
Qed.

Lemma spawnZombie_appends_one_witness :
  spawnZombie [] [] true true (spawnRoll (idle 0)) = [] /\
  exists zx platform,
    In platform platforms /\
    spawnZombie [] platforms true false (spawnRoll (idle 0)) =
      [] ++ [Zombie_new zx
               (F32.of_int (Int.sub (Int.mul (Platform.y platform) TILE_SIZE) 32))
               32 32 ATTACK].
Proof.
  split.
  - apply (spawnZombie_appends_one [] [] true true (spawnRoll (idle 0))). now left.
  - apply (spawnZombie_appends_one [] platforms true false (spawnRoll (idle 0))).
    + discriminate.
    + reflexivity.
Defined.

(* ===================================================================== *)
(** * Screens of a run *)
(* ===================================================================== *)

Lemma handleEvent_ended e now r :
  ended r = true ->
  ended (handleEvent e now r) = true /\
  Run.gameState (handleEvent e now r) = Run.gameState r /\
  world (handleEvent e now r) = world r /\
  Run.disk (handleEvent e now r) = Run.disk r /\
  Run.resumeState (handleEvent e now r) = Run.resumeState r /\
  Run.saveState (handleEvent e now r) = Run.saveState r /\
  Run.menuState (handleEvent e now r) = Run.menuState r /\
  (Run.running (handleEvent e now r) = true -> Run.running r = true).
Proof.
  unfold ended, handleEvent. intros He.
  destruct (Run.gameState r) eqn:G; try discriminate;
    destruct e as [|[]|[]|mx my| | |];
    repeat match goal with
           | |- context [if ?c then _ else _] => destruct c
           end;
    run_simpl; unfold world; run_simpl; rewrite ?G; repeat split; try discriminate; auto.
Qed.

Lemma pollEvents_ended i r :
  ended r = true ->
  Run.gameState (pollEvents i r) = Run.gameState r /\
  world (pollEvents i r) = world r /\
  Run.disk (pollEvents i r) = Run.disk r /\
  Run.resumeState (pollEvents i r) = Run.resumeState r /\
  Run.saveState (pollEvents i r) = Run.saveState r /\
  Run.menuState (pollEvents i r) = Run.menuState r /\
  (Run.running (pollEvents i r) = true -> Run.running r = true).
Proof.
  unfold pollEvents. generalize (events i) as evs. intros evs. revert r.
  induction evs as [|[e t] evs IH]; intros r He; cbn [fold_left fst snd].
  - repeat split; auto.
  - destruct (handleEvent_ended e t r He) as (He' & Hg & Hw & Hd & H1 & H2 & H3 & Hr).
    destruct (IH _ He') as (Hg' & Hw' & Hd' & H1' & H2' & H3' & Hr').
    rewrite Hg', Hw', Hd', H1', H2', H3', Hg, Hw, Hd, H1, H2, H3.
    repeat split; auto.
Qed.

(** X11. Once the run is lost or won it stays so: a loop iteration then runs no
    tick, whatever the events and keys.  The Actor, the hostiles, the pickups,
    the score, the wave counters, the day phase and the high score stay as
    they are and no file is written; of the buttons, the three of the pause
    menu stay as they are; only the Back button and the [running] flag can
    change, and [running] can only be cleared. *)
Theorem ended_run_is_frozen (i : Input) (r : Run.t) :
  ended r = true ->
  Run.gameState (frame i r) = Run.gameState r /\
  world (frame i r) = world r /\
  Run.disk (frame i r) = Run.disk r /\
  (Run.running (frame i r) = true -> Run.running r = true) /\
  Run.resumeState (frame i r) = Run.resumeState r /\
  Run.saveState (frame i r) = Run.saveState r /\
  Run.menuState (frame i r) = Run.menuState r.
Proof.
  intros He. destruct (pollEvents_ended i r He) as (Hg & Hw & Hd & H1 & H2 & H3 & Hr).
  unfold frame. cbv zeta. unfold ended in He. rewrite Hg.
  destruct (Run.gameState r); try discriminate; repeat split; auto.
Qed.

Lemma handleEvent_paused e now r :
  Run.gameState r = PAUSED ->
  world (handleEvent e now r) = world r /\
  (Run.disk (handleEvent e now r) = Run.disk r \/
   e = SDL_MOUSEBUTTONUP /\
   Run.disk (handleEvent e now r) =
     saveGameState (snapshot now r) "savegame.dat" (Run.disk r)) /\
  (leavesPause e = false ->
   Run.gameState (handleEvent e now r) = PAUSED /\
   Run.disk (handleEvent e now r) = Run.disk r /\
   Run.running (handleEvent e now r) = Run.running r \/
   e = SDL_QUIT /\ Run.gameState (handleEvent e now r) = PAUSED /\
   Run.disk (handleEvent e now r) = Run.disk r).
Proof.
  unfold handleEvent, leavesPause. intros G. rewrite G.
  destruct e as [|[]|[]|mx my| | |];
    repeat match goal with
           | |- context [if ?c then _ else _] => destruct c
           end;
    run_simpl; unfold world; run_simpl; rewrite ?G;
    repeat split; try discriminate; auto.
Qed.

(** X12. While the game is paused no event touches the simulation: the Actor, the
    hostiles, the pickups, the score, the wave counters, the day phase and the
    high score are the same after any event, and the only file operation is
    the save made on releasing the Save button.  A loop iteration whose events
    contain neither an Escape key press, nor a button release, nor a quit
    request leaves the run paused with its files untouched. *)
Theorem paused_run_is_frozen (i : Input) (e : Event) (now : Z) (r : Run.t) :
  Run.gameState r = PAUSED ->
  (world (handleEvent e now r) = world r /\
   (Run.disk (handleEvent e now r) = Run.disk r \/
    e = SDL_MOUSEBUTTONUP /\
    Run.disk (handleEvent e now r) =
      saveGameState (snapshot now r) "savegame.dat" (Run.disk r))) /\
  (forallb (fun ev => negb (leavesPause (fst ev)) &&
                      match fst ev with SDL_QUIT => false | _ => true end) (events i) = true ->
   Run.gameState (frame i r) = PAUSED /\
   world (frame i r) = world r /\
   Run.disk (frame i r) = Run.disk r /\
   Run.running (frame i r) = Run.running r).
Proof.
  intros G. split.
  - destruct (handleEvent_paused e now r G) as (Hw & Hd & _). now split.
  - assert (Hpoll : forall evs r0, Run.gameState r0 = PAUSED ->
      forallb (fun ev => negb (leavesPause (fst ev)) &&
                         match fst ev with SDL_QUIT => false | _ => true end) evs = true ->
      Run.gameState (fold_left (fun r ev => handleEvent (fst ev) (snd ev) r) evs r0) = PAUSED /\
      world (fold_left (fun r ev => handleEvent (fst ev) (snd ev) r) evs r0) = world r0 /\
      Run.disk (fold_left (fun r ev => handleEvent (fst ev) (snd ev) r) evs r0) = Run.disk r0 /\
      Run.running (fold_left (fun r ev => handleEvent (fst ev) (snd ev) r) evs r0) =
        Run.running r0).
    { induction evs as [|[e0 t0] evs IH]; intros r0 G0 Hall; cbn [fold_left fst snd].
      - repeat split; auto.
      - cbn [forallb fst] in Hall. apply andb_prop in Hall as [Hev Hall].
        apply andb_prop in Hev as [Hl Hq]. apply negb_true_iff in Hl.
        destruct (handleEvent_paused e0 t0 r0 G0) as (Hw & _ & Hstay).
        destruct (Hstay Hl) as [(Hg & Hd & Hr)|(-> & _)]; [|discriminate].
        destruct (IH _ Hg Hall) as (Hg' & Hw' & Hd' & Hr').
        rewrite Hg', Hw', Hd', Hr', Hw, Hd, Hr. repeat split. }
    intros Hall. destruct (Hpoll (events i) r G Hall) as (Hg & Hw & Hd & Hr).
    unfold frame. cbv zeta. fold (pollEvents i r) in Hg, Hw, Hd, Hr.
    rewrite Hg. repeat split; assumption.
Qed.

Lemma paused_run_is_frozen_witness :
  (world (handleEvent SDL_MOUSEBUTTONUP 7000
            (Run.set_saveState PRESSED (Run.set_gameState PAUSED duel))) =
     world (Run.set_saveState PRESSED (Run.set_gameState PAUSED duel)) /\
   (Run.disk (handleEvent SDL_MOUSEBUTTONUP 7000
                (Run.set_saveState PRESSED (Run.set_gameState PAUSED duel))) =
      Run.disk (Run.set_saveState PRESSED (Run.set_gameState PAUSED duel)) \/
    SDL_MOUSEBUTTONUP = SDL_MOUSEBUTTONUP /\
    Run.disk (handleEvent SDL_MOUSEBUTTONUP 7000
                (Run.set_saveState PRESSED (Run.set_gameState PAUSED duel))) =
      saveGameState
        (snapshot 7000 (Run.set_saveState PRESSED (Run.set_gameState PAUSED duel)))
        "savegame.dat"
        (Run.disk (Run.set_saveState PRESSED (Run.set_gameState PAUSED duel))))) /\
  (Run.gameState (frame (idle 7000) (Run.set_gameState PAUSED duel)) = PAUSED /\
   world (frame (idle 7000) (Run.set_gameState PAUSED duel)) =
     world (Run.set_gameState PAUSED duel) /\
   Run.disk (frame (idle 7000) (Run.set_gameState PAUSED duel)) =
     Run.disk (Run.set_gameState PAUSED duel) /\
   Run.running (frame (idle 7000) (Run.set_gameState PAUSED duel)) =
     Run.running (Run.set_gameState PAUSED duel)).
Proof.
  split.
  - exact (proj1 (paused_run_is_frozen (idle 7000) SDL_MOUSEBUTTONUP 7000
                    (Run.set_saveState PRESSED (Run.set_gameState PAUSED duel)) eq_refl)).
  - exact (proj2 (paused_run_is_frozen (idle 7000) SDL_MOUSEBUTTONUP 7000
                    (Run.set_gameState PAUSED duel) eq_refl) eq_refl).
Defined.

Lemma ended_run_is_frozen_witness :
  world (frame (pressF 9000) (Run.set_gameState GAME_OVER duel)) =
    world (Run.set_gameState GAME_OVER duel).
Proof.
  exact (proj1 (proj2 (ended_run_is_frozen (pressF 9000)
                         (Run.set_gameState GAME_OVER duel) eq_refl))).
Defined.

(** ** End of a tick *)

Lemma recordHighScore_spec r :
  Run.highScore (recordHighScore r) = Z.max (Run.highScore r) (Run.score r) /\
  Run.score (recordHighScore r) = Run.score r /\
  Run.player (recordHighScore r) = Run.player r /\
  Run.disk (recordHighScore r) =
    (if Run.highScore r <? Run.score r
     then saveHighScore (Run.score r) "highscore.dat" (Run.disk r) else Run.disk r) /\
  recordHighScore (recordHighScore r) = recordHighScore r.
Proof.
  unfold recordHighScore.
  destruct (Run.highScore r <? Run.score r) eqn:E; run_simpl.
  - apply Z.ltb_lt in E. rewrite Z.ltb_irrefl. repeat split. lia.
  - rewrite E. apply Z.ltb_ge in E. repeat split. lia.
Qed.

(** X13. The game-over check comes after the wave check and overrides it: when
    the Actor has no health left or is below the screen at the end of a tick,
    the run is lost, even if the same tick cleared the last wave.  The high
    score is then the larger of the old one and the score, and it is written
    to [highscore.dat] once, and only when it is a new record. *)
Theorem game_over_overrides_victory (r : Run.t) :
  lost r = true ->
  let r' := gameOverCheck (waveCheck r) in
  Run.gameState r' = GAME_OVER /\
  Run.score r' = Run.score r /\
  Run.highScore r' = Z.max (Run.highScore r) (Run.score r) /\
  Run.disk r' =
    (if Run.highScore r <? Run.score r
     then saveHighScore (Run.score r) "highscore.dat" (Run.disk r) else Run.disk r).
Proof.
  unfold lost. intros Hl. cbv zeta.
  destruct (recordHighScore_spec r) as (Hh & Hs & Hp & Hd & Hidem).
  destruct (waveCheck_cases r) as [(_ & _ & _ & ->)|[(_ & _ & _ & ->)|[-> _]]].
  - unfold gameOverCheck. run_simpl. rewrite Hl. run_simpl.
    unfold recordHighScore. run_simpl.
    destruct (Run.highScore r <? Run.score r) eqn:E; run_simpl; repeat split.
    + apply Z.ltb_lt in E. lia.
    + apply Z.ltb_ge in E. lia.
  - unfold gameOverCheck. run_simpl. rewrite Hp, Hl. run_simpl.
    assert (Hagain : recordHighScore (Run.set_gameState VICTORY (recordHighScore r)) =
                     Run.set_gameState VICTORY (recordHighScore r)).
    { unfold recordHighScore at 1. run_simpl.
      rewrite Hh, Hs.
      destruct (Z.max (Run.highScore r) (Run.score r) <? Run.score r) eqn:E; [|reflexivity].
      apply Z.ltb_lt in E. lia. }
    rewrite Hagain. run_simpl. rewrite Hs, Hh, Hd. repeat split.
  - unfold gameOverCheck. rewrite Hl. run_simpl. rewrite Hs, Hh, Hd. repeat split.
Qed.

Lemma game_over_overrides_victory_witness :
  Run.gameState (waveCheck lastStand) = VICTORY /\
  Run.gameState (gameOverCheck (waveCheck lastStand)) = GAME_OVER /\
  Run.highScore (gameOverCheck (waveCheck lastStand)) = 12500.
Proof.
  split; [reflexivity|].
  destruct (game_over_overrides_victory lastStand eq_refl) as (Hg & _ & Hh & _).
  split; [exact Hg | exact Hh].
Defined.

(* ===================================================================== *)
(** * Health, score and high score of reachable runs *)
(* ===================================================================== *)

Lemma hostileOk_Zombie_new px py w_ h_ t : hostileOk (Zombie_new px py w_ h_ t).
Proof.
  unfold hostileOk, Zombie_new. cbn [type damage body health with_health].
  destruct (Type_eqb t ATTACK); lia.
Qed.

Lemma hostileOk_Zombie_update terrain player z :
  hostileOk z -> hostileOk (Zombie_update terrain player z).
Proof.
  unfold hostileOk. rewrite Zombie_update_health.
  destruct z as [b ty sp dm ld]. unfold Zombie_update. cbn [type damage with_body]. exact id.
Qed.

Lemma clampedHit_range hp dmg :
  0 <= hp <= 100 -> 0 <= dmg <= 10 -> 0 <= clampedHit hp dmg <= hp.
Proof.
  intros Hh Hd. unfold clampedHit, Int.sub.
  rewrite wrap_small by (unfold Int.in_range, Int.MIN, Int.MAX; lia).
  destruct (hp - dmg <? 0) eqn:E; [lia|]. apply Z.ltb_ge in E. lia.
Qed.

Lemma zombieBody_sound i att pr ct idx z t :
  hostileOk z -> 0 <= health (t_player t) <= 100 ->
  0 <= health (t_player (snd (zombieBody i att pr ct idx z t))) <= health (t_player t) /\
  (snd (fst (zombieBody i att pr ct idx z t)) = false ->
   hostileOk (fst (fst (zombieBody i att pr ct idx z t)))) /\
  t_score (snd (zombieBody i att pr ct idx z t)) =
    (if snd (fst (zombieBody i att pr ct idx z t))
     then Int.add (t_score t) 100 else t_score t).
Proof.
  intros Hz Hp. rewrite zombieBody_once. cbv zeta.
  apply (hostileOk_Zombie_update platforms (t_player t)) in Hz.
  set (moved := Zombie_update platforms (t_player t) z) in *.
  rewrite contactDamage_spec. cbv zeta.
  assert (Hd : 0 <= damage moved <= 10).
  { destruct Hz as [-> _]. destruct (Type_eqb (type moved) ATTACK); lia. }
  pose proof (clampedHit_range _ _ Hp Hd) as Hc.
  set (rect := getRect (body moved)).
  assert (Hgen : forall z0 p0,
            hostileOk z0 -> 0 <= health p0 <= health (t_player t) ->
            let t0 := {| t_player := p0; t_score := t_score t;
                         t_remaining := t_remaining t; t_foods := t_foods t |} in
            0 <= health (t_player (snd (meleeHit i att idx rect z0 t0))) <=
              health (t_player t) /\
            (snd (fst (meleeHit i att idx rect z0 t0)) = false ->
             hostileOk (fst (fst (meleeHit i att idx rect z0 t0)))) /\
            t_score (snd (meleeHit i att idx rect z0 t0)) =
              (if snd (fst (meleeHit i att idx rect z0 t0))
               then Int.add (t_score t) 100 else t_score t)).
  { intros z0 p0 Hz0 Hp0. cbv zeta. unfold meleeHit. cbn [t_player t_score].
    destruct att; [|cbn [fst snd t_player t_score]; auto].
    destruct (SDL_HasIntersection _ rect); [|cbn [fst snd t_player t_score]; auto].
    cbn [body with_body health with_health].
    destruct (Int.sub (health (body z0)) MELEE_DAMAGE <=? 0) eqn:E;
      cbn [fst snd t_player t_score].
    - split; [lia|]. split; [discriminate|reflexivity].
    - split; [lia|]. split; [|reflexivity].
      intros _. apply Z.leb_gt in E. destruct Hz0 as [Hdm Hh].
      unfold hostileOk. cbn [damage type with_body body health with_health].
      split; [exact Hdm|].
      unfold Int.sub, MELEE_DAMAGE in *.
      rewrite wrap_small in * by (unfold Int.in_range, Int.MIN, Int.MAX;
                                  destruct (Type_eqb (type z0) ATTACK); lia).
      destruct (Type_eqb (type z0) ATTACK); lia. }
  destruct (SDL_HasIntersection pr rect && _); cbn [fst snd].
  - apply Hgen.
    + unfold hostileOk in *. destruct moved as [b ty sp dm ld]. exact Hz.
    + cbn [health with_health]. lia.
  - apply Hgen; [exact Hz | lia].
Qed.

Lemma zombieLoop_sound i att pr ct idx zs t :
  Forall hostileOk zs -> 0 <= health (t_player t) <= 100 ->
  Int.MIN <= t_score t -> t_score t + 100 * Z.of_nat (length zs) <= Int.MAX ->
  0 <= health (t_player (snd (zombieLoop i att pr ct idx zs t))) <= health (t_player t) /\
  Forall hostileOk (removeDead (fst (zombieLoop i att pr ct idx zs t))) /\
  t_score (snd (zombieLoop i att pr ct idx zs t)) =
    t_score t + 100 * Z.of_nat (killed (fst (zombieLoop i att pr ct idx zs t))).
Proof.
  revert idx t. induction zs as [|z zs IH]; intros idx t Hzs Hp Hlo Hhi; cbn [zombieLoop].
  - cbn. repeat split; try lia. constructor.
  - apply Forall_cons_iff in Hzs as [Hz Hzs].
    destruct (zombieBody_sound i att pr ct idx z t Hz Hp) as (H1 & H2 & H3).
    destruct (zombieBody i att pr ct idx z t) as [[z' dead] t1]. cbn [fst snd] in *.
    cbn [length] in Hhi.
    assert (Hs1 : t_score t1 = t_score t + (if dead then 100 else 0)).
    { rewrite H3. destruct dead; [|lia]. unfold Int.add.
      rewrite wrap_small; [lia|]. unfold Int.in_range, Int.MIN, Int.MAX in *. lia. }
    assert (Hp1 : 0 <= health (t_player t1) <= 100) by lia.
    specialize (IH (S idx) t1 Hzs Hp1).
    destruct (zombieLoop i att pr ct (S idx) zs t1) as [ms t2]. cbn [fst snd] in *.
    destruct IH as (I1 & I2 & I3); [destruct dead; lia..|].
    unfold removeDead, killed in *. cbn [List.filter snd].
    destruct dead; cbn [negb map fst length].
    + repeat split; [lia|lia|exact I2|lia].
    + repeat split; [lia|lia| |lia]. constructor; [now apply H2 | exact I2].
Qed.

Lemma accelerate_attributes ax ay e : attributes (accelerate ax ay e) = attributes e.
Proof. reflexivity. Qed.

Lemma movePlayer_health i r :
  health (Run.player (movePlayer i r)) = health (Run.player r).
Proof.
  unfold movePlayer. run_simpl.
  match goal with
  | |- health (PhysicsEntity_update ?t ?b ?p) = _ =>
      pose proof (keepInScreen_attributes 60
                    (resolveCollisions t (integrate (fun _ => negb b) p))) as H1;
      pose proof (resolveCollisions_attributes t (integrate (fun _ => negb b) p)) as H2;
      pose proof (integrate_attributes (fun _ => negb b) p) as H3
  end.
  unfold PhysicsEntity_update.
  assert (H4 : forall e e', attributes e = attributes e' -> health e = health e')
    by (unfold attributes; intros e e' H; congruence).
  rewrite (H4 _ _ H1), (H4 _ _ H2), (H4 _ _ H3).
  destruct (keyA i), (keyD i); reflexivity.
Qed.

Lemma beforeSpawn_keeps i r :
  Run.highScore (beforeSpawn i r) = Run.highScore r /\
  Run.score (beforeSpawn i r) = Run.score r.
Proof. unfold beforeSpawn, movePlayer. run_simpl. split; reflexivity. Qed.

Lemma beforeSpawn_health i r :
  health (Run.player (beforeSpawn i r)) = health (Run.player r).
Proof. unfold beforeSpawn. cbv zeta. run_simpl. apply movePlayer_health. Qed.

Lemma beforeSpawn_core i r : coreRun r -> coreRun (beforeSpawn i r).
Proof.
  intros (Hc & Hl & Hz).
  destruct (beforeSpawn_fields i r) as (Hzs & Hw & Hs & Hr & _).
  destruct (beforeSpawn_keeps i r) as (_ & Hsc).
  split; [now apply (consistent_fields _ _ Hzs Hw Hs Hr)|].
  rewrite beforeSpawn_health, Hzs, Hw, Hs, Hr, Hsc. now split.
Qed.

Lemma spawnZombie_hostileOk zs roll :
  Forall hostileOk zs -> Forall hostileOk (spawnZombie zs platforms true true roll).
Proof.
  intros H. unfold spawnZombie, platforms.
  destruct (typeDist roll =? 0); cbn [negb]; apply Forall_app; split; try assumption;
    (constructor; [apply hostileOk_Zombie_new | constructor]).
Qed.

Lemma spawnStep_keeps i r :
  Run.highScore (spawnStep i r) = Run.highScore r /\
  Run.score (spawnStep i r) = Run.score r /\
  Run.player (spawnStep i r) = Run.player r.
Proof.
  unfold spawnStep. destruct (_ && _); run_simpl; repeat split.
Qed.

Lemma spawnStep_core i r : coreRun r -> coreRun (spawnStep i r).
Proof.
  intros (Hc & Hl & Hz).
  pose proof (spawnStep_consistent i r Hc) as Hc'.
  destruct (spawnStep_keeps i r) as (_ & Hs & Hp).
  split; [exact Hc'|]. rewrite Hs, Hp.
  destruct Hc as (Hn & Hrem & Hts & Hw).
  unfold spawnStep in *.
  destruct ((0 <? Run.zombiesToSpawn r) &&
            (Z.of_nat (length (Run.zombies r)) <? MAX_ZOMBIES_ONSCREEN)) eqn:E.
  - apply andb_prop in E as [E1 E2]. apply Z.ltb_lt in E1. apply Z.ltb_lt in E2.
    run_simpl. split; [|now apply spawnZombie_hostileOk].
    unfold ledger, removedSoFar in *. unfold Int.sub, Int.add.
    rewrite !wrap_small by (unfold Int.in_range, Int.MIN, Int.MAX; lia).
    destruct Hl as (Hsc & Hpos & Hh). repeat split; lia.
  - split; assumption.
Qed.

Lemma combatStep_keeps i r :
  Run.highScore (combatStep i r) = Run.highScore r.
Proof.
  unfold combatStep. destruct (zombieLoop _ _ _ _ _ _ _) as [marked t]. run_simpl.
  reflexivity.
Qed.

Lemma cumulativeQuota_range w : 1 <= w <= 5 -> 15 <= cumulativeQuota w <= 125.
Proof.
  intros H. assert (Hw : w = 1 \/ w = 2 \/ w = 3 \/ w = 4 \/ w = 5) by lia.
  destruct Hw as [->|[->|[->|[->| ->]]]]; vm_compute; split; discriminate.
Qed.

Lemma combatStep_core i r : coreRun r -> coreRun (combatStep i r).
Proof.
  intros (Hc & Hl & Hz).
  pose proof (combatStep_consistent i r Hc) as Hc'.
  split; [exact Hc'|].
  destruct Hc as (Hn & Hrem & Hts & Hw).
  destruct Hl as (Hsc & Hpos & Hh).
  pose proof (cumulativeQuota_range _ Hw) as Hq.
  unfold combatStep in *.
  set (t0 := {| t_player := Run.player r; t_score := Run.score r;
                t_remaining := Run.waveZombiesRemaining r; t_foods := Run.foods r |}) in *.
  pose proof (zombieLoop_length i (Run.attacking r) (getRect (Run.player r))
                (seconds (now i)) 0 (Run.zombies r) t0) as Hlen.
  pose proof (zombieLoop_remaining i (Run.attacking r) (getRect (Run.player r))
                (seconds (now i)) 0 (Run.zombies r) t0) as Hr.
  pose proof (zombieLoop_sound i (Run.attacking r) (getRect (Run.player r))
                (seconds (now i)) 0 (Run.zombies r) t0 Hz) as Hs.
  destruct (zombieLoop _ _ _ _ _ _ _) as [marked t]. run_simpl.
  subst t0. cbn [fst snd t_player t_score t_remaining] in *.
  unfold removedSoFar in Hsc.
  destruct Hs as (Hp' & Hz' & Hs'); try (unfold Int.MIN, Int.MAX; lia).
  assert (Hrng : Int.MIN + Z.of_nat (length (Run.zombies r)) <=
                 Run.waveZombiesRemaining r <= Int.MAX)
    by (unfold Int.MIN, Int.MAX; lia).
  specialize (Hr Hrng). rewrite Hr.
  pose proof (removeDead_length marked) as Hd.
  split; [|exact Hz'].
  unfold ledger, removedSoFar. repeat split; lia.
Qed.

Lemma foodLoop_health ct pr fs hp :
  0 <= hp <= 100 ->
  hp <= snd (fst (foodLoop ct pr fs hp)) <= 100.
Proof.
  revert hp. induction fs as [|f fs IH]; intros hp Hh; cbn [foodLoop].
  - cbn. lia.
  - assert (Hb : hp <= snd (fst (foodBody ct pr f hp)) <= 100).
    { unfold foodBody. cbv zeta.
      destruct (F64.geb _ LIFETIME); cbn [fst snd]; [lia|].
      destruct (SDL_HasIntersection _ _); cbn [fst snd]; [|lia].
      unfold Int.add, HEALTH_RESTORE.
      rewrite wrap_small by (unfold Int.in_range, Int.MIN, Int.MAX; lia).
      destruct (100 <? hp + 20) eqn:E; [lia|]. apply Z.ltb_ge in E. lia. }
    destruct (foodBody ct pr f hp) as [[kept hp1] n]. cbn [fst snd] in Hb.
    specialize (IH hp1).
    destruct (foodLoop ct pr fs hp1) as [[rest_ hp2] m]. cbn [fst snd] in *.
    assert (0 <= hp1 <= 100) by lia. specialize (IH H). lia.
Qed.

Lemma foodStep_keeps i r :
  Run.highScore (foodStep i r) = Run.highScore r /\
  Run.score (foodStep i r) = Run.score r /\
  (0 <= health (Run.player r) <= 100 ->
   health (Run.player r) <= health (Run.player (foodStep i r)) <= 100).
Proof.
  unfold foodStep. cbv zeta.
  pose proof (foodLoop_health (seconds (now i)) (getRect (Run.player r)) (Run.foods r)
                (health (Run.player r))) as H.
  destruct (foodLoop _ _ _ _) as [[fs hp] n]. run_simpl. cbn [fst snd] in H.
  repeat split; cbn [health with_health]; apply H; assumption.
Qed.

Lemma foodStep_core i r : coreRun r -> coreRun (foodStep i r).
Proof.
  intros (Hc & Hl & Hz).
  destruct (foodStep_fields i r) as (Hzs & Hw & Hs & Hr & _).
  destruct (foodStep_keeps i r) as (_ & Hsc & Hh).
  split; [now apply (consistent_fields _ _ Hzs Hw Hs Hr)|].
  rewrite Hzs, Hw, Hs, Hr, Hsc. split; [|exact Hz].
  destruct Hl as (H1 & H2 & H3). specialize (Hh H3).
  repeat split; try assumption; lia.
Qed.

Lemma simulate_core i r : coreRun r -> coreRun (simulate i r).
Proof.
  intros H. unfold simulate.
  now apply foodStep_core, combatStep_core, spawnStep_core, beforeSpawn_core.
Qed.

Lemma simulate_highScore i r : Run.highScore (simulate i r) = Run.highScore r.
Proof.
  unfold simulate. cbv zeta.
  destruct (foodStep_keeps i (combatStep i (spawnStep i (beforeSpawn i r)))) as (-> & _).
  rewrite combatStep_keeps.
  destruct (spawnStep_keeps i (beforeSpawn i r)) as (-> & _).
  apply beforeSpawn_keeps.
Qed.

Lemma ledger_score_range sc wv ts rem hp :
  ledger sc wv ts rem hp -> 1 <= wv <= 5 -> 0 <= ts -> 0 <= rem -> 0 <= sc <= 12500.
Proof.
  intros (Hsc & Hpos & _) Hw Hts Hrem. pose proof (cumulativeQuota_range wv Hw).
  unfold removedSoFar in Hsc. lia.
Qed.

Lemma coreRun_score_range r : coreRun r -> 0 <= Run.score r <= 12500.
Proof.
  intros ((Hn & Hrem & Hts & Hw) & Hl & _).
  apply (ledger_score_range _ _ _ _ _ Hl Hw); lia.
Qed.

Lemma recordHighScore_core r : coreRun r -> coreRun (recordHighScore r).
Proof.
  intros (Hc & Hl & Hz).
  destruct (recordHighScore_fields r) as (Hzs & Hw & Hs & Hr & _).
  destruct (recordHighScore_spec r) as (_ & Hsc & Hp & _).
  split; [now apply (consistent_fields _ _ Hzs Hw Hs Hr)|].
  rewrite Hzs, Hw, Hs, Hr, Hsc, Hp. now split.
Qed.

Lemma set_gameState_core g r : coreRun r -> coreRun (Run.set_gameState g r).
Proof. exact id. Qed.

Lemma waveCheck_core r : coreRun r -> coreRun (waveCheck r).
Proof.
  intros H. pose proof H as (Hc & Hl & Hz).
  pose proof (waveCheck_consistent r Hc) as Hc'.
  destruct (waveCheck_cases r) as [(H1 & H2 & H3 & E)|[(H1 & H2 & H3 & E)|[E _]]];
    rewrite E in *.
  - split; [exact Hc'|]. run_simpl. split; [|exact Hz].
    destruct Hc as (Hn & Hrem & Hts & Hw).
    destruct Hl as (Hsc & Hpos & Hh). unfold TOTAL_WAVES in H3.
    unfold ledger, removedSoFar in *. rewrite H1, H2 in Hsc.
    assert (Hwv : Run.wave r = 1 \/ Run.wave r = 2 \/ Run.wave r = 3 \/ Run.wave r = 4)
      by lia.
    split; [|split; [assumption|lia]].
    rewrite Hsc, H1.
    destruct Hwv as [-> |[-> |[-> | ->]]]; reflexivity.
  - now apply set_gameState_core, recordHighScore_core.
  - exact H.
Qed.

Lemma gameOverCheck_cases r :
  (lost r = true /\ gameOverCheck r = Run.set_gameState GAME_OVER (recordHighScore r)) \/
  (lost r = false /\ gameOverCheck r = r).
Proof.
  unfold gameOverCheck, lost. destruct (_ || _); [left|right]; split; reflexivity.
Qed.

Lemma gameOverCheck_core r : coreRun r -> coreRun (gameOverCheck r).
Proof.
  intros H. destruct (gameOverCheck_cases r) as [[_ ->]|[_ ->]]; [|exact H].
  now apply set_gameState_core, recordHighScore_core.
Qed.

Lemma tick_core i r : coreRun r -> coreRun (tick i r).
Proof.
  intros H. unfold tick. now apply gameOverCheck_core, waveCheck_core, simulate_core.
Qed.

Lemma sound_core r : sound r -> coreRun r.
Proof. intros [Hc Hl Hz _ _ _]. exact (conj Hc (conj Hl Hz)). Qed.

Lemma lost_false_health r :
  lost r = false -> 0 <= health (Run.player r) -> 0 < health (Run.player r).
Proof.
  unfold lost. intros H Hh. apply orb_false_elim in H as [_ H].
  apply Z.leb_gt in H. exact H.
Qed.

Lemma gameOverCheck_sound r :
  coreRun r ->
  Run.gameState r = PLAYING \/
  (Run.gameState r = VICTORY /\ Run.wave r = TOTAL_WAVES /\
   Run.zombiesToSpawn r = 0 /\ Run.waveZombiesRemaining r = 0) ->
  sound (gameOverCheck r).
Proof.
  intros Hcore Hg.
  pose proof (gameOverCheck_core r Hcore) as (Hc & Hl & Hz).
  destruct (gameOverCheck_cases r) as [[Hlost E]|[Hlost E]].
  - destruct (recordHighScore_spec r) as (_ & _ & Hp & _).
    assert (Hl' : lost (gameOverCheck r) = true).
    { rewrite E. unfold lost in *. run_simpl. now rewrite Hp. }
    assert (Hg' : Run.gameState (gameOverCheck r) = GAME_OVER)
      by (rewrite E; reflexivity).
    constructor; try assumption.
    + rewrite Hg'. discriminate.
    + rewrite Hg'. discriminate.
    + intros _. exact Hl'.
  - rewrite E in *. constructor; try assumption.
    + intros _. apply lost_false_health; [exact Hlost|].
      destruct Hl as (_ & _ & Hh). lia.
    + intros Hv. destruct Hg as [Hp|(_ & H)]; [congruence | exact H].
    + intros Hv. destruct Hg as [Hp|(Hp & _)]; congruence.
Qed.

Lemma waveCheck_gameState r :
  Run.gameState r = PLAYING ->
  Run.gameState (waveCheck r) = PLAYING \/
  (Run.gameState (waveCheck r) = VICTORY /\ Run.wave (waveCheck r) = TOTAL_WAVES /\
   Run.zombiesToSpawn (waveCheck r) = 0 /\ Run.waveZombiesRemaining (waveCheck r) = 0).
Proof.
  intros G.
  destruct (waveCheck_cases r) as [(_ & _ & _ & ->)|[(H1 & H2 & H3 & ->)|[-> _]]].
  - left. exact G.
  - right. destruct (recordHighScore_fields r) as (_ & Hw & Hts & Hr & _).
    run_simpl. rewrite Hw, Hts, Hr. repeat split; assumption.
  - left. exact G.
Qed.

Lemma tick_sound i r : sound r -> Run.gameState r = PLAYING -> sound (tick i r).
Proof.
  intros Hs G. unfold tick. apply gameOverCheck_sound.
  - now apply waveCheck_core, simulate_core, sound_core.
  - apply waveCheck_gameState. destruct (simulate_fields i r) as (_ & _ & ->). exact G.
Qed.

(** ** Events *)

Lemma handleEvent_sound e now r : sound r -> sound (handleEvent e now r).
Proof.
  intros [Hc Hl Hz Hp Hv Hg]. unfold consistent, lost in *.
  unfold handleEvent, jump, attack.
  destruct e as [|[]|[]|mx my| | |]; destruct (Run.gameState r) eqn:G;
    repeat match goal with
           | |- context [if ?c then _ else _] => destruct c
           end;
    constructor; unfold consistent, lost, accelerate; run_simpl;
    cbn [health with_onGround with_vel inPlay] in *;
    rewrite ?G; try assumption; try discriminate; auto.
Qed.

Lemma soundState_snapshot now r :
  sound r -> inPlay (Run.gameState r) = true -> soundState (snapshot now r).
Proof.
  intros [Hc Hl Hz Hp Hv Hg] Hin. constructor.
  - now apply consistentState_snapshot.
  - exact Hl.
  - now apply Hp.
Qed.

Lemma savedSound_save now r :
  sound r -> inPlay (Run.gameState r) = true -> savedSound (Run.disk r) ->
  savedSound (saveGameState (snapshot now r) "savegame.dat" (Run.disk r)).
Proof.
  intros Hs Hin Hd.
  destruct (open_out (Run.disk r) "savegame.dat") eqn:E.
  - rewrite saveGameState_content by assumption.
    unfold savedSound. rewrite open_in_close_out by assumption.
    exists (snapshot now r). split; [reflexivity|]. now apply soundState_snapshot.
  - unfold saveGameState. now rewrite E.
Qed.

Lemma open_in_saveGameState state filename other fs :
  other <> filename ->
  open_in (saveGameState state filename fs) other = open_in fs other.
Proof.
  intros Hne. unfold open_in. rewrite saveGameState_denied.
  destruct (decide (other ∈ denied fs)); [reflexivity|].
  now apply saveGameState_other.
Qed.

Lemma loadHighScore_saveGameState state fs :
  loadHighScore "highscore.dat" (saveGameState state "savegame.dat" fs) =
  loadHighScore "highscore.dat" fs.
Proof.
  unfold loadHighScore. now rewrite open_in_saveGameState by discriminate.
Qed.

Lemma handleEvent_disk e now r :
  sound r -> savedSound (Run.disk r) ->
  savedSound (Run.disk (handleEvent e now r)) /\
  Run.highScore (handleEvent e now r) = Run.highScore r /\
  loadHighScore "highscore.dat" (Run.disk (handleEvent e now r)) =
    loadHighScore "highscore.dat" (Run.disk r) /\
  denied (Run.disk (handleEvent e now r)) = denied (Run.disk r).
Proof.
  intros Hs Hd. unfold handleEvent, jump, attack.
  destruct e as [|[]|[]|mx my| | |]; destruct (Run.gameState r) eqn:G;
    repeat match goal with
           | |- context [if ?c then _ else _] => destruct c
           end;
    run_simpl; rewrite ?loadHighScore_saveGameState, ?saveGameState_denied;
    repeat split; try assumption.
  all: apply savedSound_save; [assumption | now rewrite G | assumption].
Qed.

Lemma pollEvents_sound i r :
  sound r -> savedSound (Run.disk r) ->
  sound (pollEvents i r) /\ savedSound (Run.disk (pollEvents i r)) /\
  Run.highScore (pollEvents i r) = Run.highScore r /\
  loadHighScore "highscore.dat" (Run.disk (pollEvents i r)) =
    loadHighScore "highscore.dat" (Run.disk r) /\
  denied (Run.disk (pollEvents i r)) = denied (Run.disk r).
Proof.
  unfold pollEvents. generalize (events i) as evs. intros evs. revert r.
  induction evs as [|[e t] evs IH]; intros r Hs Hd; cbn [fold_left fst snd].
  - split; [exact Hs|]. split; [exact Hd|]. repeat split.
  - destruct (handleEvent_disk e t r Hs Hd) as (Hd1 & Hh1 & Hl1 & Hn1).
    destruct (IH _ (handleEvent_sound e t r Hs) Hd1) as (Hs2 & Hd2 & Hh2 & Hl2 & Hn2).
    rewrite Hh2, Hl2, Hn2, Hh1, Hl1, Hn1.
    split; [exact Hs2|]. split; [exact Hd2|]. repeat split.
Qed.

(** ** The high score file *)

Lemma loadHighScore_saveHighScore sc fs :
  Int.in_range sc -> open_out fs "highscore.dat" = true ->
  loadHighScore "highscore.dat" (saveHighScore sc "highscore.dat" fs) = sc.
Proof.
  intros Hr Hopen.
  rewrite (loadHighScore_written sc); [now apply int_of_bytes_int_bytes|].
  unfold saveHighScore. rewrite Hopen. now apply open_in_close_out.
Qed.

Lemma saveHighScore_denied sc fs :
  denied (saveHighScore sc "highscore.dat" fs) = denied fs.
Proof. unfold saveHighScore. now destruct (open_out fs "highscore.dat"). Qed.

Lemma recordHighScore_stored r :
  0 <= Run.score r <= 12500 ->
  denied (Run.disk (recordHighScore r)) = denied (Run.disk r) /\
  ("highscore.dat"%string ∉ denied (Run.disk r) ->
   highScoreStored r -> highScoreStored (recordHighScore r)).
Proof.
  intros Hsc. unfold recordHighScore, highScoreStored.
  destruct (Run.highScore r <? Run.score r); run_simpl.
  - rewrite saveHighScore_denied. split; [reflexivity|].
    intros Hn _. symmetry. apply loadHighScore_saveHighScore.
    + unfold Int.in_range, Int.MIN, Int.MAX. lia.
    + unfold open_out. now apply bool_decide_eq_true.
  - split; [reflexivity|]. intros _ H. exact H.
Qed.

Lemma simulate_stored i r :
  denied (Run.disk (simulate i r)) = denied (Run.disk r) /\
  (highScoreStored r -> highScoreStored (simulate i r)).
Proof.
  destruct (simulate_fields i r) as (_ & Hd & _).
  unfold highScoreStored. rewrite Hd, simulate_highScore. split; [reflexivity|exact id].
Qed.

Lemma waveCheck_stored r :
  coreRun r ->
  denied (Run.disk (waveCheck r)) = denied (Run.disk r) /\
  ("highscore.dat"%string ∉ denied (Run.disk r) ->
   highScoreStored r -> highScoreStored (waveCheck r)).
Proof.
  intros Hc. pose proof (coreRun_score_range r Hc) as Hsc.
  destruct (waveCheck_cases r) as [(_ & _ & _ & ->)|[(_ & _ & _ & ->)|[-> _]]].
  - unfold highScoreStored. run_simpl. split; [reflexivity|]. intros _ H. exact H.
  - unfold highScoreStored. run_simpl. apply (recordHighScore_stored r Hsc).
  - split; [reflexivity|]. intros _ H. exact H.
Qed.

Lemma gameOverCheck_stored r :
  coreRun r ->
  denied (Run.disk (gameOverCheck r)) = denied (Run.disk r) /\
  ("highscore.dat"%string ∉ denied (Run.disk r) ->
   highScoreStored r -> highScoreStored (gameOverCheck r)).
Proof.
  intros Hc. pose proof (coreRun_score_range r Hc) as Hsc.
  destruct (gameOverCheck_cases r) as [[_ ->]|[_ ->]].
  - unfold highScoreStored. run_simpl. apply (recordHighScore_stored r Hsc).
  - split; [reflexivity|]. intros _ H. exact H.
Qed.

Lemma tick_stored i r :
  coreRun r ->
  denied (Run.disk (tick i r)) = denied (Run.disk r) /\
  ("highscore.dat"%string ∉ denied (Run.disk r) ->
   highScoreStored r -> highScoreStored (tick i r)).
Proof.
  intros Hc. unfold tick.
  pose proof (simulate_core i r Hc) as Hc1.
  pose proof (waveCheck_core _ Hc1) as Hc2.
  destruct (simulate_stored i r) as (Hd1 & Hs1).
  destruct (waveCheck_stored _ Hc1) as (Hd2 & Hs2).
  destruct (gameOverCheck_stored _ Hc2) as (Hd3 & Hs3).
  rewrite Hd3, Hd2, Hd1. split; [reflexivity|].
  intros Hn H. apply Hs3; [now rewrite Hd2, Hd1|].
  apply Hs2; [now rewrite Hd1|]. now apply Hs1.
Qed.

(** ** Start-up *)

Lemma newRun_sound env fs : sound (newRun env fs).
Proof.
  constructor.
  - apply newRun_consistent.
  - unfold newRun. run_simpl. vm_compute. repeat split; discriminate.
  - constructor.
  - intros _. vm_compute. reflexivity.
  - discriminate.
  - discriminate.
Qed.

Lemma soundState_in_range state :
  soundState state ->
  Int.in_range (playerHealth state) /\ Int.in_range (score state) /\
  Int.in_range (wave state) /\ Int.in_range (zombiesToSpawn state) /\
  Int.in_range (waveZombiesRemaining state).
Proof.
  intros [(Hn & Hrem & Hts & Hw) Hl Hh].
  pose proof (ledger_score_range _ _ _ _ _ Hl Hw ltac:(lia) ltac:(lia)) as Hsc.
  destruct Hl as (_ & _ & Hp).
  unfold Int.in_range, Int.MIN, Int.MAX. lia.
Qed.

Lemma soundState_recode state : soundState state -> soundState (recode state).
Proof.
  intros Hs. destruct (soundState_in_range state Hs) as (R1 & R2 & R3 & R4 & R5).
  destruct Hs as [Hc Hl Hh].
  constructor.
  - now apply consistentState_recode.
  - unfold recode. cbn [score wave zombiesToSpawn waveZombiesRemaining playerHealth].
    now rewrite !int_of_bytes_int_bytes by assumption.
  - unfold recode. cbn [playerHealth]. now rewrite int_of_bytes_int_bytes by assumption.
Qed.

Lemma restore_sound env state r :
  Run.zombies r = [] -> Run.gameState r = PLAYING -> isValid state = true ->
  soundState state -> sound (restore env state r).
Proof.
  intros Hz G Hv [Hc Hl Hh].
  unfold restore. rewrite Hv.
  constructor; unfold consistent, lost; run_simpl;
    cbn [Run.zombies Run.wave Run.zombiesToSpawn Run.waveZombiesRemaining Run.score
         Run.player Run.gameState health with_health];
    rewrite ?Hz, ?G; cbn [app].
  - rewrite !length_map. exact Hc.
  - exact Hl.
  - induction (zombies state) as [|[[zx zy] t] zs IH]; cbn [map]; constructor;
      [apply hostileOk_Zombie_new | exact IH].
  - intros _. exact Hh.
  - discriminate.
  - discriminate.
Qed.

Lemma startRun_sound loadSaved env fs r :
  savedSound fs ->
  startRun loadSaved env fs = Returned r ->
  sound r /\ Run.disk r = fs /\ highScoreStored r.
Proof.
  intros Hd.
  assert (Hnew : forall r0, sound r0 -> Run.disk r0 = fs ->
            sound (Run.set_highScore (loadHighScore "highscore.dat" fs) r0) /\
            Run.disk (Run.set_highScore (loadHighScore "highscore.dat" fs) r0) = fs /\
            highScoreStored (Run.set_highScore (loadHighScore "highscore.dat" fs) r0)).
  { intros r0 Hs Hfs. split; [|split].
    - destruct Hs. constructor; assumption.
    - exact Hfs.
    - unfold highScoreStored. run_simpl. now rewrite Hfs. }
  destruct loadSaved.
  2:{ rewrite startRun_new. intros [= <-].
      apply Hnew; [apply newRun_sound | reflexivity]. }
  rewrite startRun_load.
  destruct (loadGameState (uninit env) "savegame.dat" fs) as [loaded|e] eqn:Hload;
    [|discriminate].
  cbn [bind]. intros [= <-].
  unfold savedSound in Hd.
  destruct (open_in fs "savegame.dat") as [content|] eqn:E.
  - destruct Hd as (state & -> & Hs).
    assert (Hn : Z.of_nat (length (zombies state)) < 2 ^ 64).
    { destruct Hs as [(Hn & _) _ _]. lia. }
    rewrite (load_written_returned (uninit env) state "savegame.dat" fs loaded E Hn Hload).
    apply Hnew.
    + apply restore_sound; [reflexivity | reflexivity | reflexivity |].
      now apply soundState_recode.
    + unfold restore. cbn [isValid recode]. reflexivity.
  - unfold loadGameState in Hload. rewrite E in Hload. injection Hload as <-.
    rewrite restore_invalid by reflexivity.
    apply Hnew; [apply newRun_sound | reflexivity].
Qed.

Lemma tick_savedSound i r : savedSound (Run.disk r) -> savedSound (Run.disk (tick i r)).
Proof. unfold savedSound. now rewrite tick_disk. Qed.

Lemma frame_sound i r :
  sound r -> savedSound (Run.disk r) ->
  sound (frame i r) /\ savedSound (Run.disk (frame i r)) /\
  denied (Run.disk (frame i r)) = denied (Run.disk r) /\
  ("highscore.dat"%string ∉ denied (Run.disk r) ->
   highScoreStored r -> highScoreStored (frame i r)).
Proof.
  intros Hs Hd.
  destruct (pollEvents_sound i r Hs Hd) as (Hs1 & Hd1 & Hh1 & Hl1 & Hn1).
  assert (Hst1 : highScoreStored r -> highScoreStored (pollEvents i r)).
  { unfold highScoreStored. rewrite Hh1, Hl1. exact id. }
  unfold frame. cbv zeta.
  destruct (Run.gameState (pollEvents i r)) eqn:G;
    try (split; [exact Hs1|]; split; [exact Hd1|]; split; [exact Hn1|];
         intros _; exact Hst1).
  destruct (tick_stored i (pollEvents i r) (sound_core _ Hs1)) as (Hn2 & Hst2).
  split; [now apply tick_sound|]. split; [now apply tick_savedSound|].
  split; [now rewrite Hn2|].
  intros Hn Hst. apply Hst2; [now rewrite Hn1 | now apply Hst1].
Qed.

(** The invariant of the runs of the game. *)
Lemma reachable_sound r :
  reachable r ->
  sound r /\ savedSound (Run.disk r) /\
  ("highscore.dat"%string ∉ denied (Run.disk r) -> highScoreStored r).
Proof.
  induction 1 as [loadSaved env fs r Hnone Hstart
                 |loadSaved env r r' Hr (Hs & Hd & Hh) Hstart
                 |i r Hr (Hs & Hd & Hh) Hrun].
  - assert (Hsv : savedSound fs).
    { unfold savedSound, open_in. rewrite Hnone. now destruct (decide _). }
    destruct (startRun_sound loadSaved env fs r Hsv Hstart) as (H1 & H2 & H3).
    rewrite H2. split; [exact H1|]. split; [exact Hsv|]. intros _. exact H3.
  - destruct (startRun_sound loadSaved env (Run.disk r) r' Hd Hstart) as (H1 & H2 & H3).
    rewrite H2. split; [exact H1|]. split; [exact Hd|]. intros _. exact H3.
  - destruct (frame_sound i r Hs Hd) as (H1 & H2 & H3 & H4).
    rewrite H3. split; [exact H1|]. split; [exact H2|]. intros Hn. apply H4; auto.
Qed.

Lemma overrun_lost : Run.gameState overrun = GAME_OVER.
Proof. vm_compute. reflexivity. Qed.

Lemma conquest_won :
  (Run.gameState conquest, denied (Run.disk conquest)) = (VICTORY, ∅).
Proof. vm_compute. reflexivity. Qed.

Lemma pair_eq {A B} (a a' : A) (b b' : B) : (a, b) = (a', b') -> a = a' /\ b = b'.
Proof. intros H. now injection H. Qed.

Lemma conquest_gameState : Run.gameState conquest = VICTORY.
Proof. exact (proj1 (pair_eq _ _ _ _ conquest_won)). Qed.

Lemma conquest_denied : denied (Run.disk conquest) = ∅.
Proof. exact (proj2 (pair_eq _ _ _ _ conquest_won)). Qed.

Lemma reachable_overrun : reachable overrun.
Proof. apply reachable_runLoop, reachable_newGame. Qed.

Lemma reachable_conquest : reachable conquest.
Proof. apply reachable_runLoop, reachable_newGame. Qed.

(** X14. In every run of the game the score is 100 times the number of hostiles
    removed so far, which the wave counters determine: the hostiles brought by
    the waves up to the current one, less those still to spawn and those
    alive.  The score is therefore between 0 and 12500, and a run that is won
    has exactly 12500. *)
Theorem score_counts_removed_hostiles (r : Run.t) :
  reachable r ->
  Run.score r =
    100 * (cumulativeQuota (Run.wave r) - Run.zombiesToSpawn r -
           Z.of_nat (length (Run.zombies r))) /\
  0 <= Run.score r <= 12500 /\
  (Run.gameState r = VICTORY -> Run.score r = 12500 /\ Run.zombies r = []).
Proof.
  intros Hr. destruct (reachable_sound r Hr) as ([Hc Hl Hz Hp Hv Hg] & _ & _).
  pose proof (ledger_score_range _ _ _ _ _ Hl) as Hrange.
  destruct Hc as (Hn & Hrem & Hts & Hw). destruct Hl as (Hsc & _).
  unfold removedSoFar in Hsc. rewrite Hrem in Hsc.
  split; [exact Hsc|]. split; [apply Hrange; lia|].
  intros G. destruct (Hv G) as (H1 & H2 & H3).
  rewrite Hrem in H3. split.
  - rewrite Hsc, H1, H2. assert (E : length (Run.zombies r) = 0%nat) by lia.
    rewrite E. reflexivity.
  - destruct (Run.zombies r); [reflexivity|cbn [length] in H3; lia].
Qed.

Lemma score_counts_removed_hostiles_witness :
  Run.score conquest = 12500 /\ Run.zombies conquest = [].
Proof.
  apply (score_counts_removed_hostiles conquest reachable_conquest).
  exact conquest_gameState.
Defined.

(** X15. In every run of the game the Actor's health is between 0 and 100, and
    it is positive as long as the run is played or paused, so also in every
    run that Continue starts.  Every hostile in the list has the damage of its
    kind (5 fast, 10 tank) and a positive health of at most the initial
    health of its kind (50 fast, 100 tank). *)
Theorem health_stays_in_range (r : Run.t) :
  reachable r ->
  0 <= health (Run.player r) <= 100 /\
  (inPlay (Run.gameState r) = true -> 0 < health (Run.player r)) /\
  Forall hostileOk (Run.zombies r).
Proof.
  intros Hr. destruct (reachable_sound r Hr) as ([Hc Hl Hz Hp Hv Hg] & _ & _).
  destruct Hl as (_ & _ & Hh). repeat split; try assumption; lia.
Qed.

Lemma health_stays_in_range_witness :
  0 <= health (Run.player overrun) <= 100 /\
  0 < health (Run.player (newGame someEnv noFiles)).
Proof.
  split.
  - apply (health_stays_in_range overrun reachable_overrun).
  - apply (health_stays_in_range (newGame someEnv noFiles) reachable_newGame).
    reflexivity.
Defined.

(** X16. A run of the game is lost only when the Actor has no health left or is
    below the screen, and it is won only in wave 5 with nothing left to spawn
    and no hostile alive. *)
Theorem end_of_run_is_justified (r : Run.t) :
  reachable r ->
  (Run.gameState r = GAME_OVER ->
   health (Run.player r) = 0 \/
   F32.gtb (y (pos (Run.player r))) (F32.of_int SCREEN_HEIGHT) = true) /\
  (Run.gameState r = VICTORY ->
   Run.wave r = TOTAL_WAVES /\ Run.zombiesToSpawn r = 0 /\ Run.zombies r = []).
Proof.
  intros Hr. destruct (reachable_sound r Hr) as ([Hc Hl Hz Hp Hv Hg] & _ & _).
  split.
  - intros G. specialize (Hg G). unfold lost in Hg.
    apply orb_true_iff in Hg as [Hg|Hg]; [now right|left].
    apply Z.leb_le in Hg. destruct Hl as (_ & _ & Hh). lia.
  - intros G. destruct (Hv G) as (H1 & H2 & H3). repeat split; try assumption.
    destruct Hc as (_ & Hrem & _). rewrite Hrem in H3.
    destruct (Run.zombies r); [reflexivity|cbn [length] in H3; lia].
Qed.

Lemma end_of_run_is_justified_witness :
  (health (Run.player overrun) = 0 \/
   F32.gtb (y (pos (Run.player overrun))) (F32.of_int SCREEN_HEIGHT) = true) /\
  (Run.wave conquest = TOTAL_WAVES /\ Run.zombiesToSpawn conquest = 0 /\
   Run.zombies conquest = []).
Proof.
  split.
  - apply (end_of_run_is_justified overrun reachable_overrun). exact overrun_lost.
  - apply (end_of_run_is_justified conquest reachable_conquest).
    exact conquest_gameState.
Defined.

(** X17. In every run of the game on a machine where [highscore.dat] can be
    written, the high score in memory is the one that [loadHighScore] reads
    from the file: it is loaded at start-up, written whenever it is raised,
    and saving the game does not disturb it. *)
Theorem high_score_is_the_stored_one (r : Run.t) :
  reachable r ->
  "highscore.dat"%string ∉ denied (Run.disk r) ->
  Run.highScore r = loadHighScore "highscore.dat" (Run.disk r).
Proof.
  intros Hr Hn. destruct (reachable_sound r Hr) as (_ & _ & H). exact (H Hn).
Qed.

Lemma high_score_is_the_stored_one_witness :
  Run.highScore conquest = loadHighScore "highscore.dat" (Run.disk conquest).
Proof.
  apply (high_score_is_the_stored_one conquest reachable_conquest).
  rewrite conquest_denied. apply not_elem_of_empty.
Defined.

(* ===================================================================== *)
(** * Save and Continue *)
(* ===================================================================== *)

(** X18. Releasing the Save button in the pause menu and starting a run with
    Continue from the file it wrote restores the Actor's position, velocity
    and health, the score, the wave counters, the day phase and the elapsed
    play time.  It does not restore the rest: every hostile comes back at its
    saved position as a new one of its kind, with full health, no velocity and
    a damage timer of 0; there are no pickups; the Actor is in the air; the
    attack cooldown and the day-phase interval start afresh.  The run starts,
    given that a hostile list of the saved length can be allocated. *)
Theorem continue_after_save (now : Z) (env : StartEnv) (r : Run.t) :
  Run.gameState r = PAUSED ->
  Run.resumeState r <> PRESSED ->
  Run.saveState r = PRESSED ->
  open_out (Run.disk r) "savegame.dat" = true ->
  wf_GameState (snapshot now r) ->
  Z.of_nat (length (Run.zombies r)) <= u_available (uninit env) ->
  exists r',
    startRun true env (Run.disk (handleEvent SDL_MOUSEBUTTONUP now r)) = Returned r' /\
    Run.player r' =
      with_health (health (Run.player r))
        (with_vel (vel (Run.player r)) (with_pos (pos (Run.player r)) newPlayer)) /\
    Run.score r' = Run.score r /\
    Run.wave r' = Run.wave r /\
    Run.zombiesToSpawn r' = Run.zombiesToSpawn r /\
    Run.waveZombiesRemaining r' = Run.waveZombiesRemaining r /\
    Run.zombies r' =
      map (fun z => Zombie_new (x (pos (body z))) (y (pos (body z))) 32 32 (type z))
        (Run.zombies r) /\
    Run.foods r' = [] /\
    Run.attacking r' = false /\ Run.lastAttackTime r' = F64.zero /\
    Weather_getType (Run.weather r') = Weather_getType (Run.weather r) /\
    weatherStart (Run.weather r') = seconds (clockSetType env) /\
    Run.startTime r' =
      F64.sub (seconds (clockRestore env)) (F64.sub (seconds now) (Run.startTime r)) /\
    Run.gameState r' = PLAYING.
Proof.
  intros G Hres Hsave Hopen Hwf Ha.
  assert (Hdisk : Run.disk (handleEvent SDL_MOUSEBUTTONUP now r) =
                  saveGameState (snapshot now r) "savegame.dat" (Run.disk r)).
  { unfold handleEvent. rewrite G, Hsave.
    destruct (Run.resumeState r); try congruence; reflexivity. }
  rewrite Hdisk, startRun_load.
  rewrite (load_save (uninit env) (snapshot now r) "savegame.dat" (Run.disk r) Hopen Hwf)
    by (cbn [snapshot zombies]; now rewrite length_map).
  cbn [bind]. eexists. split; [reflexivity|].
  unfold restore. cbn [isValid set_isValid]. run_simpl.
  cbn [Run.player Run.score Run.wave Run.zombiesToSpawn Run.waveZombiesRemaining
       Run.zombies Run.foods Run.attacking Run.lastAttackTime Run.weather Run.startTime
       Run.gameState newRun set_isValid snapshot playerPos playerVel playerHealth score
       wave zombiesToSpawn waveZombiesRemaining zombies weatherType startTime app].
  rewrite map_map.
  repeat split.
  - unfold Weather_setType, Weather_getType.
    destruct (currentWeather (Run.weather r)); reflexivity.
  - unfold Weather_setType, Weather_getType.
    destruct (currentWeather (Run.weather r)); reflexivity.
Qed.

Lemma savingDuel_wf : wf_GameState (snapshot 7000 savingDuel).
Proof.
  split.
  - split; vm_compute; reflexivity.
  - split; vm_compute; reflexivity.
  - vm_compute. split; discriminate.
  - vm_compute. split; discriminate.
  - vm_compute; reflexivity.
  - repeat constructor; first [vm_compute; reflexivity | vm_compute; discriminate].
  - vm_compute. discriminate.
  - vm_compute. split; discriminate.
  - vm_compute. split; discriminate.
  - vm_compute. split; discriminate.
  - vm_compute. split; discriminate.
Qed.

Lemma continue_after_save_witness :
  exists r',
    startRun true someEnv (Run.disk (handleEvent SDL_MOUSEBUTTONUP 7000 savingDuel)) =
      Returned r' /\
    Run.zombies r' =
      map (fun z => Zombie_new (x (pos (body z))) (y (pos (body z))) 32 32 (type z))
        (Run.zombies savingDuel) /\
    Run.foods r' = [].
Proof.
  assert (Hres : Run.resumeState savingDuel <> PRESSED) by discriminate.
  assert (Ha : Z.of_nat (length (Run.zombies savingDuel)) <= u_available (uninit someEnv))
    by (vm_compute; discriminate).
  destruct (continue_after_save 7000 someEnv savingDuel eq_refl Hres eq_refl eq_refl
              savingDuel_wf Ha) as (r' & Hr & _ & _ & _ & _ & _ & Hz & Hf & _).
  exists r'. split; [exact Hr|]. split; [exact Hz | exact Hf].
Defined.

(* ===================================================================== *)
(** * The call of [RunMainGame] and the menu *)
(* ===================================================================== *)

Lemma disk_restore env state r : Run.disk (restore env state r) = Run.disk r.
Proof. unfold restore. now destruct (isValid state). Qed.

Lemma disk_startRun loadSaved env fs r :
  startRun loadSaved env fs = Returned r -> Run.disk r = fs.
Proof.
  destruct loadSaved.
  - rewrite startRun_load. destruct (loadGameState _ _ _) as [state|e]; [|discriminate].
    cbn [bind]. intros [= <-]. cbn [Run.set_highScore Run.disk].
    now rewrite disk_restore.
  - rewrite startRun_new. now intros [= <-].
Qed.

Lemma playLoop_runLoop inputs r r' :
  playLoop inputs r = Some r' -> r' = runLoop inputs r /\ Run.running r' = false.
Proof.
  unfold runLoop. revert r. induction inputs as [|i later IH]; intros r; cbn [playLoop fold_left].
  - destruct (Run.running r) eqn:E; [discriminate|]. intros [= <-]. now split.
  - destruct (Run.running r) eqn:E.
    + apply IH.
    + intros [= <-]. split; [|exact E].
      clear IH. induction later as [|j later IH]; cbn [fold_left]; [reflexivity|].
      now rewrite E.
Qed.

(** X19. The name is used for nothing but its texture, and a name that is empty or
    consists of spaces has none: [RunMainGame] then returns before its loop,
    whatever the player would do, leaves every file as it is and reports 0,
    the status of a lost game (1 when the game textures are missing).  This
    holds for a new game, and for a continued one unless the font and the
    textures are there and loading the saved state ends with an exception,
    which then leaves [RunMainGame].  The menu only refuses the empty name,
    so entering a name of spaces and pressing Return starts no game and
    disables Continue. *)
Theorem blank_name_starts_no_game (playerName : string) (loadSaved : bool)
    (res : Resources) (env : StartEnv) (inputs : list Input) (fs : FileSystem)
    (s : Session) (m : Menu.t) :
  blank playerName = true ->
  let status :=
    if fontLoaded res && weatherLoaded res && negb (texturesLoaded res) then 1 else 0 in
  RunMainGame playerName false res env inputs fs = Some (Returned (status, fs)) /\
  RunMainGame playerName loadSaved res env inputs fs =
    Some (match startRun loadSaved env fs with
          | Returned _ => Returned (status, fs)
          | Thrown e =>
              if fontLoaded res && weatherLoaded res && texturesLoaded res
              then Thrown e else Returned (status, fs)
          end) /\
  (Menu.screenState m = ENTER_NAME -> Menu.playerName m = playerName ->
   playerName <> ""%string -> resources s = allLoaded ->
   exists m', Menu.handleEvent (Menu.SDL_KEYDOWN Menu.SDLK_RETURN) s m = Some m' /\
              Menu.screenState m' = MENU /\ Menu.isGameOver m' = true /\
              Menu.disk m' = Menu.disk m /\
              Menu.calls m' =
                {| c_playerName := playerName; c_loadSaved := false; c_exitStatus := 0 |}
                :: Menu.calls m).
Proof.
  intros Hb. cbv zeta.
  assert (Hrun : forall rs en ins f,
             RunMainGame playerName false rs en ins f =
               Some (Returned (if fontLoaded rs && weatherLoaded rs &&
                                  negb (texturesLoaded rs)
                               then 1 else 0, f))).
  { intros rs en ins f. unfold RunMainGame. rewrite startRun_new, Hb, orb_true_r.
    destruct (fontLoaded rs), (weatherLoaded rs), (texturesLoaded rs); reflexivity. }
  split; [apply Hrun|]. split.
  { unfold RunMainGame. rewrite Hb, orb_true_r.
    destruct (startRun loadSaved env fs) as [r|e] eqn:Hs.
    - rewrite (disk_startRun _ _ _ _ Hs).
      destruct (fontLoaded res), (weatherLoaded res), (texturesLoaded res); reflexivity.
    - destruct (fontLoaded res), (weatherLoaded res), (texturesLoaded res); reflexivity. }
  intros Hscr Hname Hne Hres.
  unfold Menu.handleEvent. rewrite Hscr. cbn [Menu.ScreenState_eqb].
  apply String.eqb_neq in Hne. rewrite Hname, Hne. cbn [negb].
  unfold Menu.play. rewrite Hname, Hrun, Hres. cbn [option_map].
  eexists. split; [reflexivity|]. repeat split.
Qed.

Lemma blank_name_starts_no_game_witness :
  RunMainGame "  " false allLoaded someEnv (map sweep (schedule 1000 600 132)) noFiles =
    Some (Returned (0, noFiles)) /\
  exists m', Menu.handleEvent (Menu.SDL_KEYDOWN Menu.SDLK_RETURN) quitAtOnce spacesTyped =
               Some m' /\
             Menu.screenState m' = MENU /\ Menu.isGameOver m' = true /\
             Menu.disk m' = Menu.disk spacesTyped /\
             Menu.calls m' =
               {| c_playerName := "  "; c_loadSaved := false; c_exitStatus := 0 |}
               :: Menu.calls spacesTyped.
Proof.
  split.
  - apply (blank_name_starts_no_game "  " false allLoaded someEnv
             (map sweep (schedule 1000 600 132)) noFiles quitAtOnce spacesTyped).
    reflexivity.
  - apply (blank_name_starts_no_game "  " false allLoaded someEnv
             (map sweep (schedule 1000 600 132)) noFiles quitAtOnce spacesTyped);
      [reflexivity | reflexivity | reflexivity | discriminate | reflexivity].
Defined.

Lemma length_append s t :
  String.length (String.append s t) = (String.length s + String.length t)%nat.
Proof. induction s as [|c s IH]; simpl; [reflexivity|now rewrite IH]. Qed.

Lemma length_substring0 n s : (String.length (substring 0 n s) <= String.length s)%nat.
Proof.
  revert n. induction s as [|c s IH]; intros n.
  - destruct n; cbn; lia.
  - destruct n; cbn [substring String.length]; [lia|]. specialize (IH n). lia.
Qed.

Ltac menu_simpl :=
  cbn [Menu.screenState Menu.startState Menu.continueState Menu.instructionState
       Menu.backState Menu.newGameState Menu.playerName Menu.showWarning Menu.isGameOver
       Menu.hasSaved Menu.running Menu.disk Menu.calls
       Menu.set_screenState Menu.set_startState Menu.set_continueState
       Menu.set_instructionState Menu.set_backState Menu.set_newGameState
       Menu.set_playerName Menu.set_showWarning Menu.set_isGameOver Menu.set_hasSaved
       Menu.set_running Menu.set_disk Menu.set_calls] in *.

(** An event that leaves the screen, the name, the flags and the calls alone
    keeps the invariant. *)
Lemma menuOk_same k m m' :
  Menu.screenState m' = Menu.screenState m ->
  Menu.playerName m' = Menu.playerName m ->
  Menu.hasSaved m' = Menu.hasSaved m ->
  Menu.isGameOver m' = Menu.isGameOver m ->
  Menu.calls m' = Menu.calls m ->
  menuOk k m -> menuOk k m'.
Proof. intros H1 H2 H3 H4 H5 [A B C D E]. constructor; rewrite ?H1, ?H2, ?H3, ?H4, ?H5; auto. Qed.

(** A change of screen between the three screens with buttons. *)
Lemma menuOk_screen k scr m :
  scr <> ENTER_NAME -> Menu.screenState m <> ENTER_NAME ->
  menuOk k m -> menuOk k (Menu.set_screenState scr m).
Proof.
  intros Hs Hm [A B C D E]. constructor; menu_simpl; auto.
Qed.

Lemma play_menuOk k loadSaved s m m' :
  menuOk k m ->
  Menu.playerName m <> ""%string ->
  (loadSaved = true -> Menu.hasSaved m = true /\ Menu.screenState m <> ENTER_NAME) ->
  Menu.play loadSaved s m = Some m' ->
  menuOk k m' /\ Menu.hasSaved m' = Menu.hasSaved m /\ Menu.screenState m' = MENU.
Proof.
  intros [A B C D E] Hne Hcont. unfold Menu.play.
  destruct (RunMainGame _ _ _ _ _ _) as [[[st fs]|e]|]; [|discriminate|discriminate].
  intros [= <-]. menu_simpl. split; [|split; reflexivity].
  constructor; menu_simpl.
  - constructor; [|exact A]. cbn [c_playerName]. now split.
  - exact B.
  - intros _ _. exact Hne.
  - discriminate.
  - intros c. destruct (Menu.calls m) as [|c0 older] eqn:Hc.
    + cbn [map List.last]. intros [= <-]. cbn [c_loadSaved].
      destruct loadSaved; [|reflexivity].
      destruct (Hcont eq_refl) as [Hs Hscr].
      destruct (D eq_refl Hscr) as [Hs' _]. congruence.
    + intros H. apply E. exact H.
Qed.

Lemma handleEvent_menuOk k e s m m' :
  menuOk k m ->
  match e with
  | Menu.SDL_TEXTINPUT text => (String.length text <= k)%nat
  | _ => True
  end ->
  Menu.handleEvent e s m = Some m' ->
  menuOk k m' /\ Menu.hasSaved m' = Menu.hasSaved m.
Proof.
  intros Hok Htext. unfold Menu.handleEvent. cbv zeta.
  destruct e as [|mx my| | |text|sym|].
  - (* quit *)
    intros [= <-]. split; [|reflexivity]. now apply (menuOk_same k m).
  - (* motion *)
    destruct (Menu.screenState m) eqn:Hscr; intros [= <-];
      try (split; [apply (menuOk_same k m); menu_simpl; auto | reflexivity]; fail).
    destruct (Menu.hasSaved m) eqn:Hh;
      (split; [apply (menuOk_same k m); menu_simpl; auto | menu_simpl; congruence]).
  - (* button down *)
    repeat match goal with
           | |- context [if ?c then _ else _] => destruct c
           end;
      intros [= <-]; (split; [|reflexivity]); apply (menuOk_same k m); menu_simpl; auto.
  - (* button up *)
    destruct (Menu.screenState m) eqn:Hscr; cbn [Menu.ScreenState_eqb andb].
    + (* MENU *)
      destruct (ButtonState_eqb (Menu.startState m) PRESSED);
        [|destruct (ButtonState_eqb (Menu.instructionState m) PRESSED)];
        intros [= <-]; (split; [|reflexivity]).
      * apply (menuOk_same k (Menu.set_screenState START_GAME m)); menu_simpl; auto.
        apply menuOk_screen; [discriminate|congruence|exact Hok].
      * apply (menuOk_same k (Menu.set_screenState INSTRUCTION m)); menu_simpl; auto.
        apply menuOk_screen; [discriminate|congruence|exact Hok].
      * exact Hok.
    + (* INSTRUCTION *)
      destruct (ButtonState_eqb (Menu.backState m) PRESSED);
        intros [= <-]; (split; [|reflexivity]); [|exact Hok].
      apply (menuOk_same k (Menu.set_screenState MENU m)); menu_simpl; auto.
      apply menuOk_screen; [discriminate|congruence|exact Hok].
    + (* START_GAME *)
      destruct (ButtonState_eqb (Menu.newGameState m) PRESSED).
      { intros [= <-]. split; [|reflexivity].
        destruct Hok as [A B C D E]. constructor; menu_simpl.
        - exact A.
        - cbn. lia.
        - intros H. now destruct H.
        - intros _ H. now destruct H.
        - exact E. }
      destruct (ButtonState_eqb (Menu.continueState m) PRESSED && Menu.hasSaved m) eqn:Hc.
      { apply andb_prop in Hc as [_ Hs].
        destruct (Menu.play true s m) as [m1|] eqn:Hp; [|discriminate].
        cbn [option_map]. intros [= <-].
        assert (Hne : Menu.playerName m <> ""%string).
        { destruct Hok as [A B C D E]. apply C; [congruence|].
          intros Hnil. destruct (D Hnil) as [Hs' _]; congruence. }
        destruct (play_menuOk k true s m m1 Hok Hne) as (Hok1 & Hs1 & Hscr1);
          [intros _; split; [exact Hs|congruence] | exact Hp |].
        split; [|menu_simpl; exact Hs1].
        apply (menuOk_same k m1); menu_simpl; auto. }
      destruct (ButtonState_eqb (Menu.backState m) PRESSED);
        intros [= <-]; (split; [|reflexivity]); [|exact Hok].
      apply (menuOk_same k (Menu.set_screenState MENU m)); menu_simpl; auto.
      apply menuOk_screen; [discriminate|congruence|exact Hok].
    + (* ENTER_NAME *)
      intros [= <-]. split; [exact Hok|reflexivity].
  - (* text *)
    destruct (Menu.ScreenState_eqb (Menu.screenState m) ENTER_NAME) eqn:Hscr;
      [|intros [= <-]; split; [exact Hok|reflexivity]].
    assert (Hs : Menu.screenState m = ENTER_NAME) by (now destruct (Menu.screenState m)).
    destruct (String.length (Menu.playerName m) <? MAX_NAME_LENGTH)%nat eqn:Hlen;
      intros [= <-]; (split; [|reflexivity]).
    + apply Nat.ltb_lt in Hlen. unfold MAX_NAME_LENGTH in Hlen.
      destruct Hok as [A B C D E]. constructor; menu_simpl.
      * exact A.
      * rewrite length_append. lia.
      * intros H. congruence.
      * intros _ H. congruence.
      * exact E.
    + apply (menuOk_same k m); menu_simpl; auto.
  - (* key *)
    destruct (Menu.ScreenState_eqb (Menu.screenState m) ENTER_NAME) eqn:Hscr;
      [|intros [= <-]; split; [exact Hok|reflexivity]].
    assert (Hs : Menu.screenState m = ENTER_NAME) by (now destruct (Menu.screenState m)).
    destruct sym.
    + destruct (negb (String.eqb (Menu.playerName m) "")); intros [= <-];
        (split; [|reflexivity]); [|exact Hok].
      destruct Hok as [A B C D E]. constructor; menu_simpl.
      * exact A.
      * unfold Menu.pop_back. pose proof (length_substring0
          (String.length (Menu.playerName m) - 1) (Menu.playerName m)). lia.
      * intros H. congruence.
      * intros _ H. congruence.
      * exact E.
    + destruct (negb (String.eqb (Menu.playerName m) "")) eqn:Hne;
        [|intros [= <-]; split; [exact Hok|reflexivity]].
      apply negb_true_iff, String.eqb_neq in Hne.
      destruct (Menu.play false s m) as [m1|] eqn:Hp; [|discriminate].
      cbn [option_map]. intros [= <-].
      destruct (play_menuOk k false s m m1 Hok Hne) as (Hok1 & Hs1 & Hscr1);
        [discriminate | exact Hp |].
      split; [|menu_simpl; exact Hs1].
      apply (menuOk_same k m1); menu_simpl; auto.
    + intros [= <-]. split; [exact Hok|reflexivity].
  - intros [= <-]. split; [exact Hok|reflexivity].
Qed.

Lemma pollEvents_menuOk k evs m m' :
  menuOk k m -> shortTexts k evs -> Menu.pollEvents evs m = Some m' ->
  menuOk k m' /\ Menu.hasSaved m' = Menu.hasSaved m.
Proof.
  revert m. induction evs as [|[e s] evs IH]; intros m Hok Hshort; cbn [Menu.pollEvents].
  - intros [= <-]. now split.
  - apply Forall_cons_iff in Hshort as [Ht Hshort]. cbn [fst] in Ht.
    destruct (Menu.handleEvent e s m) as [m1|] eqn:He; [|discriminate].
    destruct (handleEvent_menuOk k e s m m1 Hok Ht He) as [Hok1 Hs1].
    intros Hp. destruct (IH m1 Hok1 Hshort Hp) as [Hok' Hs']. split; [exact Hok'|congruence].
Qed.

Lemma menuOk_update k m :
  menuOk k m ->
  menuOk k (Menu.set_hasSaved (hasSavedGame (Menu.disk m) && negb (Menu.isGameOver m)) m).
Proof.
  intros [A B C D E]. constructor; menu_simpl; auto.
  intros Hnil Hscr. destruct (D Hnil Hscr) as [_ ->]. now rewrite andb_false_r.
Qed.

Lemma initial_menuOk k fs :
  menuOk k (Menu.set_hasSaved (hasSavedGame (Menu.disk (Menu.initial fs)) &&
                               negb (Menu.isGameOver (Menu.initial fs)))
              (Menu.initial fs)).
Proof.
  constructor; cbn; auto; try lia; try discriminate; try congruence.
Qed.

(** The invariant holds after every iteration of a loop that started in the
    initial state. *)
Lemma loop_menuOk k its :
  Forall (shortTexts k) its ->
  forall m m',
    menuOk k (Menu.set_hasSaved (hasSavedGame (Menu.disk m) && negb (Menu.isGameOver m)) m) ->
    Menu.loop its m = Some m' ->
    menuOk k (Menu.set_hasSaved (hasSavedGame (Menu.disk m') && negb (Menu.isGameOver m')) m').
Proof.
  induction 1 as [|evs its Hshort Hits IH]; intros m m' Hok; cbn [Menu.loop].
  - intros [= <-]. exact Hok.
  - destruct (Menu.running m); [|intros [= <-]; exact Hok].
    unfold Menu.iteration. cbv zeta.
    destruct (Menu.pollEvents evs _) as [m1|] eqn:Hp; [|discriminate].
    destruct (pollEvents_menuOk k evs _ m1 Hok Hshort Hp) as [Hok1 _].
    apply IH. now apply menuOk_update.
Qed.

(** X21. Every game that the menu starts gets a name that is not empty, and the
    first game of a session is a new one, never a continued one, also when a
    save file exists at start-up.  When no text event carries more than [k]
    characters the name has at most [9 + k] characters: [MAX_NAME_LENGTH] for
    single characters, and more for a longer text event, which is appended
    whole to a name of 9 characters. *)
Theorem menu_starts_named_games (k : nat) (iterations : list (list (Menu.Event * Session)))
    (fs : FileSystem) (m' : Menu.t) :
  Forall (shortTexts k) iterations ->
  Menu.loop iterations (Menu.initial fs) = Some m' ->
  Forall (fun c => c_playerName c <> ""%string /\
                   (String.length (c_playerName c) <= 9 + k)%nat) (Menu.calls m') /\
  (forall c, List.last (map Some (Menu.calls m')) None = Some c -> c_loadSaved c = false).
Proof.
  intros Hshort Hloop.
  pose proof (loop_menuOk k iterations Hshort (Menu.initial fs) m'
                (initial_menuOk k fs) Hloop) as [A _ _ _ E].
  menu_simpl. split; assumption.
Qed.

Lemma firstGame_short : Forall (shortTexts 1) firstGame.
Proof. repeat constructor. Qed.

Lemma menu_starts_named_games_witness :
  exists m', Menu.loop firstGame (Menu.initial noFiles) = Some m' /\
    Forall (fun c => c_playerName c <> ""%string /\
                     (String.length (c_playerName c) <= 9 + 1)%nat) (Menu.calls m').
Proof.
  destruct (Menu.loop firstGame (Menu.initial noFiles)) as [m'|] eqn:E;
    [|vm_compute in E; discriminate E].
  exists m'. split; [reflexivity|].
  apply (menu_starts_named_games 1 firstGame noFiles m' firstGame_short E).
Defined.

Lemma handleEvent_calls e s m m' :
  Menu.handleEvent e s m = Some m' ->
  Menu.hasSaved m' = Menu.hasSaved m /\
  (Menu.calls m' = Menu.calls m \/
   exists c, Menu.calls m' = c :: Menu.calls m /\
             (c_loadSaved c = true -> Menu.hasSaved m = true)).
Proof.
  unfold Menu.handleEvent, Menu.play. cbv zeta.
  destruct e as [|mx my| | |text|sym|];
    try destruct sym;
    try destruct (Menu.screenState m) eqn:Hscr; cbn [Menu.ScreenState_eqb andb];
    repeat match goal with
           | |- context [if ?c then _ else _] => destruct c eqn:?
           | |- context [RunMainGame ?a ?b ?c ?d ?e ?f] =>
               destruct (RunMainGame a b c d e f) as [[[? ?]|?]|]
           end;
    cbn [option_map]; try discriminate; intros [= <-]; menu_simpl;
    (split; [reflexivity|]);
    try (left; reflexivity);
    right; eexists; (split; [reflexivity|]); cbn [c_loadSaved]; intros; try discriminate.
  all: match goal with
       | H : _ && Menu.hasSaved _ = true |- _ => now apply andb_prop in H
       end.
Qed.

Lemma pollEvents_calls evs m m' :
  Menu.pollEvents evs m = Some m' ->
  Menu.hasSaved m' = Menu.hasSaved m /\
  exists new, Menu.calls m' = new ++ Menu.calls m /\
              (Exists (fun c => c_loadSaved c = true) new -> Menu.hasSaved m = true).
Proof.
  revert m. induction evs as [|[e s] evs IH]; intros m; cbn [Menu.pollEvents].
  - intros [= <-]. split; [reflexivity|]. exists []. split; [reflexivity|].
    intros H. inversion H.
  - destruct (Menu.handleEvent e s m) as [m1|] eqn:He; [|discriminate].
    destruct (handleEvent_calls e s m m1 He) as [Hs Hc]. intros Hp.
    destruct (IH m1 Hp) as (Hs' & new & Hnew & Hex).
    split; [congruence|].
    destruct Hc as [Hc|(c & Hc & Hl)].
    + exists new. rewrite Hnew, Hc. split; [reflexivity|]. intros H. rewrite <- Hs. auto.
    + exists (new ++ [c]). rewrite Hnew, Hc, <- app_assoc. split; [reflexivity|].
      intros H. apply Exists_app in H as [H|H].
      * rewrite <- Hs. auto.
      * inversion H as [? ? Hc0|? ? Hc0]; [auto|inversion Hc0].
Qed.

(** X22. Continue starts a game only in a loop iteration at whose beginning
    [savegame.dat] could be opened and the last game of the session was not
    lost ([isGameOver] false).  The test is made once per iteration, not at
    the click: in the session [hastyContinue] a game is lost and Continue
    starts the next one in the same iteration. *)
Theorem continue_needs_saved_game (evs : list (Menu.Event * Session)) (m m' : Menu.t) :
  (Menu.iteration evs m = Some m' ->
   exists new, Menu.calls m' = new ++ Menu.calls m /\
     (Exists (fun c => c_loadSaved c = true) new ->
      hasSavedGame (Menu.disk m) = true /\ Menu.isGameOver m = false)) /\
  (exists last,
     Menu.loop hastyContinue (Menu.initial savedDisk) = Some last /\
     map (fun c => (c_loadSaved c, c_exitStatus c)) (Menu.calls last) =
       [(true, 1); (false, 0)]).
Proof.
  split.
  - unfold Menu.iteration. cbv zeta. intros Hp.
    destruct (pollEvents_calls evs _ m' Hp) as (_ & new & Hnew & Hex).
    menu_simpl. exists new. split; [exact Hnew|].
    intros H. specialize (Hex H). apply andb_prop in Hex as [H1 H2].
    split; [exact H1|]. now apply negb_true_iff in H2.
  - destruct (Menu.loop hastyContinue (Menu.initial savedDisk)) as [last|] eqn:E;
      [|vm_compute in E; discriminate E].
    exists last. split; [reflexivity|].
    assert (E' : option_map (fun m => map (fun c => (c_loadSaved c, c_exitStatus c))
                                       (Menu.calls m))
                   (Menu.loop hastyContinue (Menu.initial savedDisk)) =
                 Some [(true, 1); (false, 0)]) by (vm_compute; reflexivity).
    rewrite E in E'. cbn [option_map] in E'. now injection E'.
Qed.

Lemma continue_needs_saved_game_witness :
  exists m', Menu.iteration [(Menu.SDL_MOUSEBUTTONUP, quitAtOnce)] aboutToContinue = Some m' /\
    exists new, Menu.calls m' = new ++ Menu.calls aboutToContinue /\
      (Exists (fun c => c_loadSaved c = true) new ->
       hasSavedGame (Menu.disk aboutToContinue) = true /\
       Menu.isGameOver aboutToContinue = false).
Proof.
  destruct (Menu.iteration [(Menu.SDL_MOUSEBUTTONUP, quitAtOnce)] aboutToContinue)
    as [m'|] eqn:E; [|vm_compute in E; discriminate E].
  exists m'. split; [reflexivity|].
  apply (continue_needs_saved_game [(Menu.SDL_MOUSEBUTTONUP, quitAtOnce)]
           aboutToContinue m'). exact E.
Defined.

(** X20. With all resources loaded, a name that is not blank and a run that has
    started (no exception while the saved state was loaded), [RunMainGame]
    returns when its loop ends, with the files the run leaves, and its status
    tells how the run ended: 0 exactly when the run was lost, which for a run
    of the game means that the Actor had no health left or was below the
    screen, and 1 otherwise (window closed, Back to Menu from the pause menu,
    or victory). *)
Theorem exit_status_reports_the_end (playerName : string) (loadSaved : bool)
    (env : StartEnv) (inputs : list Input) (fs fs' : FileSystem) (status : Z)
    (start : Run.t) :
  startRun loadSaved env fs = Returned start ->
  reachable start ->
  blank playerName = false ->
  RunMainGame playerName loadSaved allLoaded env inputs fs = Some (Returned (status, fs')) ->
  exists r,
    r = runLoop inputs start /\ reachable r /\
    Run.running r = false /\ fs' = Run.disk r /\
    ((status = 0 /\ Run.gameState r = GAME_OVER /\
      (health (Run.player r) = 0 \/
       F32.gtb (y (pos (Run.player r))) (F32.of_int SCREEN_HEIGHT) = true)) \/
     (status = 1 /\ Run.gameState r <> GAME_OVER)).
Proof.
  intros Hstart Hreach Hb. unfold RunMainGame. cbn [allLoaded fontLoaded weatherLoaded
    texturesLoaded textRendered negb orb]. rewrite Hstart, Hb.
  destruct (playLoop inputs start) as [r|] eqn:Hp; [|discriminate].
  intros [= <- <-]. destruct (playLoop_runLoop _ _ _ Hp) as [Hr Hrun].
  exists r. split; [exact Hr|].
  assert (Hreach' : reachable r) by (rewrite Hr; now apply reachable_runLoop).
  split; [exact Hreach'|]. split; [exact Hrun|]. split; [reflexivity|].
  destruct (reachable_sound r Hreach') as ([Hc Hl Hz Hpl Hv Hg] & _ & _).
  destruct (Run.gameState r) eqn:G; try (right; split; [reflexivity|discriminate]).
  left. split; [reflexivity|]. split; [reflexivity|].
  specialize (Hg eq_refl). unfold lost in Hg.
  apply orb_true_iff in Hg as [Hg|Hg]; [now right|left].
  apply Z.leb_le in Hg. destruct Hl as (_ & _ & Hh). lia.
Qed.

Lemma lostGame_status :
  RunMainGame "A" false allLoaded someEnv (inputs lostGame) noFiles =
    Some (Returned (0, noFiles)).
Proof. vm_compute. reflexivity. Qed.

Lemma exit_status_reports_the_end_witness :
  exists r,
    r = runLoop (inputs lostGame) (newGame someEnv noFiles) /\ reachable r /\
    Run.running r = false /\ noFiles = Run.disk r /\
    ((0 = 0 /\ Run.gameState r = GAME_OVER /\
      (health (Run.player r) = 0 \/
       F32.gtb (y (pos (Run.player r))) (F32.of_int SCREEN_HEIGHT) = true)) \/
     (0 = 1 /\ Run.gameState r <> GAME_OVER)).
Proof.
  apply (exit_status_reports_the_end "A" false someEnv (inputs lostGame) noFiles noFiles 0
           (newGame someEnv noFiles)).
  - reflexivity.
  - exact reachable_newGame.
  - reflexivity.
  - exact lostGame_status.
Defined.

(* ===================================================================== *)
(** * Clicks in the pause menu *)
(* ===================================================================== *)

Lemma hover_cases r mx my :
  hover r mx my = HOVERED \/ hover r mx my = NORMAL.
Proof. unfold hover. destruct (_ && _); auto. Qed.

Lemma hover_pause_disjoint mx my :
  (hover resumeRect mx my = HOVERED ->
   hover saveRect mx my = NORMAL /\ hover menuRect mx my = NORMAL) /\
  (hover saveRect mx my = HOVERED ->
   hover resumeRect mx my = NORMAL /\ hover menuRect mx my = NORMAL) /\
  (hover menuRect mx my = HOVERED ->
   hover resumeRect mx my = NORMAL /\ hover saveRect mx my = NORMAL).
Proof.
  unfold hover, resumeRect, saveRect, menuRect. cbn [SDL_Rect.x SDL_Rect.y SDL_Rect.w SDL_Rect.h].
  change (Int.add 300 200) with 500. change (Int.add 200 50) with 250.
  change (Int.add 280 50) with 330. change (Int.add 360 50) with 410.
  destruct (200 <=? my) eqn:A1, (my <=? 250) eqn:A2, (280 <=? my) eqn:B1,
           (my <=? 330) eqn:B2, (360 <=? my) eqn:C1, (my <=? 410) eqn:C2;
    rewrite ?andb_true_r, ?andb_false_r; cbn [andb];
    repeat split; intros; try discriminate; try reflexivity;
    destruct ((300 <=? mx) && (mx <=? 500)); try reflexivity; try discriminate; lia.
Qed.

(** X23. In the pause menu a click acts on the button under the pointer and on
    no other: on Resume the game goes on, on Save the run is saved once to
    [savegame.dat] and stays paused, on Back to Menu the loop ends, and
    elsewhere nothing happens.  In each case the world is untouched, no other
    file operation is made, and no button is left pressed. *)
Theorem pause_click_acts_on_one_button (mx my now : Z) (r : Run.t) :
  Run.gameState r = PAUSED ->
  let r' := clickAt mx my now r in
  world r' = world r /\
  (hover resumeRect mx my = HOVERED ->
   Run.gameState r' = PLAYING /\ Run.running r' = Run.running r /\
   Run.disk r' = Run.disk r /\ pauseButtons r' = (NORMAL, NORMAL, NORMAL)) /\
  (hover saveRect mx my = HOVERED ->
   Run.gameState r' = PAUSED /\ Run.running r' = Run.running r /\
   Run.disk r' = saveGameState (snapshot now r) "savegame.dat" (Run.disk r) /\
   pauseButtons r' = (NORMAL, NORMAL, NORMAL)) /\
  (hover menuRect mx my = HOVERED ->
   Run.gameState r' = PAUSED /\ Run.running r' = false /\
   Run.disk r' = Run.disk r /\ pauseButtons r' = (NORMAL, NORMAL, NORMAL)) /\
  (hover resumeRect mx my = NORMAL -> hover saveRect mx my = NORMAL ->
   hover menuRect mx my = NORMAL ->
   Run.gameState r' = PAUSED /\ Run.running r' = Run.running r /\
   Run.disk r' = Run.disk r /\ pauseButtons r' = (NORMAL, NORMAL, NORMAL)).
Proof.
  intros G. cbv zeta. unfold clickAt.
  destruct (hover_pause_disjoint mx my) as (D1 & D2 & D3).
  assert (E1 : handleEvent (SDL_MOUSEMOTION mx my) now r =
               Run.set_menuState (hover menuRect mx my)
                 (Run.set_saveState (hover saveRect mx my)
                    (Run.set_resumeState (hover resumeRect mx my) r))).
  { unfold handleEvent. now rewrite G. }
  rewrite E1. clear E1.
  destruct (hover_cases resumeRect mx my) as [H1|H1];
    destruct (hover_cases saveRect mx my) as [H2|H2];
    destruct (hover_cases menuRect mx my) as [H3|H3];
    try (destruct (D1 H1); congruence); try (destruct (D2 H2); congruence);
    try (destruct (D3 H3); congruence);
    rewrite H1, H2, H3; unfold handleEvent; run_simpl; rewrite G;
    cbn [ButtonState_eqb]; run_simpl; rewrite ?G; cbn [ButtonState_eqb]; run_simpl;
    unfold world, pauseButtons; run_simpl;
    (split; [reflexivity|]); repeat split; intros; try congruence; try reflexivity.
Qed.

Lemma pause_click_acts_on_one_button_witness :
  Run.gameState (clickAt 400 300 7000 (Run.set_gameState PAUSED duel)) = PAUSED /\
  Run.disk (clickAt 400 300 7000 (Run.set_gameState PAUSED duel)) =
    saveGameState (snapshot 7000 (Run.set_gameState PAUSED duel)) "savegame.dat"
      (Run.disk (Run.set_gameState PAUSED duel)).
Proof.
  destruct (pause_click_acts_on_one_button 400 300 7000 (Run.set_gameState PAUSED duel)
              eq_refl) as (_ & _ & Hsave & _).
  destruct (Hsave eq_refl) as (H1 & _ & H2 & _).
  split; [exact H1 | exact H2].
Defined.
